(** * OpenTable availability script: capture, mutate, replay, decode

  A shallow embedding of [get-availability.ts] (the repository's
  availability script) and the properties of its decoding, filtering,
  mutation and cleanup logic.

  The script is TypeScript that works on the results of [JSON.parse], so the
  data it handles is dynamic. The embedding therefore has one type [value]
  of JavaScript values and gives each operation the script uses (property
  read, optional chaining, [??], truthiness, [typeof], [Array.prototype.find],
  [for ... of], object spread) its JavaScript meaning, with a thrown
  [TypeError] as an explicit outcome.

  Numbers are integers ([Z]): the numeric fields the script computes with
  ([dayOffset], [timeOffsetMinutes], [partySize]) are integers in the data
  model, and binary64 rounding (beyond 2^53) and fractions are outside the
  model. The script's numbers are binary64 numbers, so the embedding is the
  script's arithmetic only where every number met is a safe integer:
  [TimeCodec.exactTotal] and [TimeCodec.exactOffset] say where, and each
  statement about a computed time carries that bound. Strings are byte
  strings; the script only searches them for ASCII patterns and splits them
  at [":"]. *)

From Stdlib Require Import ZArith String Ascii List Bool DecimalString Lia.
Import ListNotations.

Set Warnings "-register-all".

Open Scope string_scope.
Open Scope Z_scope.

(* ================================================================== *)
(** * JavaScript values and the operations the script uses *)
(* ================================================================== *)

Module JS.

(** A JavaScript value as [JSON.parse] builds it, plus [undefined]. An object
    is the list of its own properties, in the order [JSON.stringify] writes
    them; a key is looked up at its first occurrence. A number is an integer:
    a JSON number with a fraction or an exponent, which passes the script's
    test [typeof x === 'number'] as any number does, has no value here, and
    the statements about decoded times are about the responses whose numbers
    are integers. *)
Inductive value : Type :=
| VUndef
| VNull
| VBool (b : bool)
| VNum (n : Z)
| VStr (s : string)
| VArr (elems : list value)
| VObj (props : list (string * value)).

(** What a [throw] carries: a [TypeError] or [SyntaxError] of the language, or
    an [Error] object with a message. *)
Inductive error : Type :=
| TypeError
| SyntaxError
| Error (msg : string).

Inductive result (A : Type) : Type :=
| Ok (a : A)
| Throw (e : error).

Arguments Ok {A} a.
Arguments Throw {A} e.

Definition bind {A B : Type} (r : result A) (k : A -> result B) : result B :=
  match r with
  | Ok a => k a
  | Throw e => Throw e
  end.

Definition nullish (v : value) : bool :=
  match v with
  | VUndef | VNull => true
  | _ => false
  end.

(** ToBoolean. *)
Definition truthy (v : value) : bool :=
  match v with
  | VUndef | VNull => false
  | VBool b => b
  | VNum n => negb (n =? 0)
  | VStr s => negb (s =? "")%string
  | VArr _ | VObj _ => true
  end.

Fixpoint assoc (k : string) (props : list (string * value)) : value :=
  match props with
  | [] => VUndef
  | (k', v) :: rest => if (k =? k')%string then v else assoc k rest
  end.

(** [v.k] for the property names the script reads. Reading one from [null] or
    [undefined] throws; an object gives its own property, [undefined] when it
    has none; an array, string, number or boolean gives [undefined], since
    none of the names is a built-in property of those (but for [entries] on
    an array, see [runHarMode]). *)
Definition prop (v : value) (k : string) : result value :=
  match v with
  | VUndef | VNull => Throw TypeError
  | VObj props => Ok (assoc k props)
  | _ => Ok VUndef
  end.

(** [v?.k]. *)
Definition opt_prop (v : value) (k : string) : value :=
  match v with
  | VObj props => assoc k props
  | _ => VUndef
  end.

(** [v?.[0]]: the first element of an array, the first character of a
    string, the property ["0"] of an object. *)
Definition opt_first (v : value) : value :=
  match v with
  | VArr elems => hd VUndef elems
  | VStr (String c _) => VStr (String c "")
  | VObj props => assoc "0" props
  | _ => VUndef
  end.

(** [a ?? b]. *)
Definition coalesce (a b : value) : value :=
  if nullish a then b else a.

(** [v === 0] and [v === 'lit']. *)
Definition strict_eq_num (v : value) (n : Z) : bool :=
  match v with
  | VNum m => m =? n
  | _ => false
  end.

Definition strict_eq_str (v : value) (s : string) : bool :=
  match v with
  | VStr t => (t =? s)%string
  | _ => false
  end.

(** [Array.prototype.find] over the elements, with a callback that can
    throw: the first element the callback accepts, [undefined] when there is
    none. *)
Fixpoint find_elems (f : value -> result bool) (elems : list value)
  : result value :=
  match elems with
  | [] => Ok VUndef
  | d :: rest =>
      bind (f d) (fun b => if b then Ok d else find_elems f rest)
  end.

(** [v.find(f)]: only an array has a [find] method. *)
Definition find (v : value) (f : value -> result bool) : result value :=
  match v with
  | VArr elems => find_elems f elems
  | _ => Throw TypeError
  end.

(** The values [for (const x of v)] visits: the elements of an array, the
    characters of a string; anything else is not iterable. *)
Fixpoint chars (s : string) : list value :=
  match s with
  | EmptyString => []
  | String c rest => VStr (String c "") :: chars rest
  end.

Definition iterate (v : value) : result (list value) :=
  match v with
  | VArr elems => Ok elems
  | VStr s => Ok (chars s)
  | _ => Throw TypeError
  end.

(** A [for ... of] loop whose body updates an accumulator and can throw. *)
Fixpoint for_of {S : Type} (body : S -> value -> result S)
  (xs : list value) (acc : S) : result S :=
  match xs with
  | [] => Ok acc
  | x :: rest => bind (body acc x) (for_of body rest)
  end.

(** [arr.filter(f)] with a callback that can throw. *)
Fixpoint filter_elems (f : value -> result bool) (elems : list value)
  : result (list value) :=
  match elems with
  | [] => Ok []
  | e :: rest =>
      bind (f e) (fun b =>
      bind (filter_elems f rest) (fun kept =>
      Ok (if b then e :: kept else kept)))
  end.

Definition filter (v : value) (f : value -> result bool)
  : result (list value) :=
  match v with
  | VArr elems => filter_elems f elems
  | _ => Throw TypeError
  end.

(** [s.includes(needle)] on strings: [needle] occurs in [s]. *)
Fixpoint str_includes (needle s : string) : bool :=
  prefix needle s
  || match s with
     | EmptyString => false
     | String _ rest => str_includes needle rest
     end.

(** [v.includes(needle)] for a string [needle]: a substring test on a string,
    a membership test on an array; no other value has the method. *)
Definition includes (v : value) (needle : string) : result bool :=
  match v with
  | VStr s => Ok (str_includes needle s)
  | VArr elems => Ok (existsb (fun x => strict_eq_str x needle) elems)
  | _ => Throw TypeError
  end.

(** [obj[k] = v] on the property list: an existing key keeps its place and
    takes the new value, a new key goes last. *)
Fixpoint set_prop {V : Type} (k : string) (v : V) (props : list (string * V))
  : list (string * V) :=
  match props with
  | [] => [(k, v)]
  | (k', v') :: rest =>
      if (k =? k')%string then (k, v) :: rest
      else (k', v') :: set_prop k v rest
  end.

(** The properties an object literal gets from [k1: v1, k2: v2, ...] written
    after what it already holds. *)
Definition set_props {V : Type} (news props : list (string * V))
  : list (string * V) :=
  fold_left (fun acc kv => set_prop (fst kv) (snd kv) acc) news props.

Definition decimal (n : Z) : string := NilZero.string_of_int (Z.to_int n).

Fixpoint indexed (i : nat) (xs : list value) : list (string * value) :=
  match xs with
  | [] => []
  | x :: rest => (decimal (Z.of_nat i), x) :: indexed (S i) rest
  end.

(** The own enumerable properties [{...v}] copies: those of an object, the
    indexed elements of an array or characters of a string, none for the
    other values ([null] and [undefined] included). *)
Definition spread (v : value) : list (string * value) :=
  match v with
  | VObj props => props
  | VArr elems => indexed 0 elems
  | VStr s => indexed 0 (chars s)
  | _ => []
  end.

End JS.

Import JS.

Notation "x <- e ;; k" := (bind e (fun x => k))
(at level 100, e at next level, right associativity).

(* ================================================================== *)
(** * TimeCodec *)
(* ================================================================== *)

Module TimeCodec.

(** A number that [Number(...)] and the arithmetic on it can produce: an
    integer or [NaN] ([None]). The operations below are the integers'; they
    are the script's on safe integers, see [exactTotal]. *)
Definition num : Type := option Z.

Definition num_lift2 (f : Z -> Z -> Z) (a b : num) : num :=
  match a, b with
  | Some x, Some y => Some (f x y)
  | _, _ => None
  end.

Definition num_add : num -> num -> num := num_lift2 Z.add.
Definition num_mul : num -> num -> num := num_lift2 Z.mul.
(** [a % b] of the language keeps the sign of [a]: [Z.rem]. The script only
    divides by the non-zero constants [24 * 60] and [60]. *)
Definition num_rem : num -> num -> num := num_lift2 Z.rem.
(** [Math.floor(a / b)]. *)
Definition num_floor_div : num -> num -> num := num_lift2 Z.div.

(** [s.split(sep)] for a one-character separator. *)
Fixpoint split (sep : ascii) (s : string) : list string :=
  match s with
  | EmptyString => [""]
  | String c rest =>
      if Ascii.eqb c sep then "" :: split sep rest
      else match split sep rest with
           | p :: ps => String c p :: ps
           | [] => [String c ""]
           end
  end.

(** [Number(s)] on the literals of the integer model: the empty string is 0,
    a decimal integer with an optional sign is its value, and anything else
    reads as [NaN]. Fractions, exponents, hexadecimal literals and blanks
    around a literal, which the language reads as numbers, are outside the
    integer model: a result [Some z] with [z] a safe integer is the
    language's, a result [None] is the language's only on a string that is
    none of those. The statements below are about base times whose two parts
    read as [Some]. *)
Definition Number (s : string) : num :=
  match s with
  | EmptyString => Some 0
  | String "+" rest =>
      match rest with
      | String "-" _ => None
      | _ => option_map Z.of_int (NilZero.int_of_string rest)
      end
  | _ => option_map Z.of_int (NilZero.int_of_string s)
  end.

(** [String(n)]. *)
Definition String_of (n : num) : string :=
  match n with
  | Some z => NilZero.string_of_int (Z.to_int z)
  | None => "NaN"
  end.

(** [s.padStart(2, '0')]. *)
Definition padStart2 (s : string) : string :=
  match s with
  | EmptyString => "00"
  | String c EmptyString => String "0" (String c "")
  | _ => s
  end.

(** The [i]-th variable of the destructuring [[h, m] = ...]: a missing
    element is [undefined], which the arithmetic turns into [NaN]. *)
Definition destructured (i : nat) (xs : list num) : num :=
  nth i xs None.

(** The body of [offsetToTime] once [baseTime] is known to be a string. *)
Definition wrappedTime (baseTime : string) (timeOffsetMinutes : Z) : string :=
  let parts := map Number (split ":" baseTime) in
  let h := destructured 0 parts in
  let m := destructured 1 parts in
  let totalMinutes :=
    num_add (num_add (num_mul h (Some 60)) m) (Some timeOffsetMinutes) in
  let wrapped :=
    num_rem (num_add (num_rem totalMinutes (Some (24 * 60))) (Some (24 * 60)))
            (Some (24 * 60)) in
  let hh := num_floor_div wrapped (Some 60) in
  let mm := num_rem wrapped (Some 60) in
  padStart2 (String_of hh) ++ ":" ++ padStart2 (String_of mm).

(** [offsetToTime(baseTime, timeOffsetMinutes)]. [baseTime.split] throws
    unless [baseTime] is a string. *)
Definition offsetToTime (baseTime : value) (timeOffsetMinutes : Z)
  : result string :=
  match baseTime with
  | VStr s => Ok (wrappedTime s timeOffsetMinutes)
  | _ => Throw TypeError
  end.

(** ** What the specification calls a well-formed time *)

Definition is_digit (c : ascii) : bool :=
  ((48 <=? nat_of_ascii c) && (nat_of_ascii c <=? 57))%nat.

Definition digit_value (c : ascii) : Z :=
  Z.of_nat (nat_of_ascii c - 48).

Definition two_digit_value (a b : ascii) : Z :=
  10 * digit_value a + digit_value b.

(** ["HH:MM"] with [HH] in 00..23 and [MM] in 00..59. *)
Definition wellFormed (s : string) : bool :=
  match s with
  | String a (String b (String c (String d (String e EmptyString)))) =>
      is_digit a && is_digit b && Ascii.eqb c ":" && is_digit d && is_digit e
      && (two_digit_value a b <? 24) && (two_digit_value d e <? 60)
  | _ => false
  end.

Definition baseHour (s : string) : Z :=
  match s with
  | String a (String b _) => two_digit_value a b
  | _ => 0
  end.

Definition baseMinute (s : string) : Z :=
  match s with
  | String _ (String _ (String _ (String d (String e _)))) =>
      two_digit_value d e
  | _ => 0
  end.

Definition digit_char (d : Z) : ascii := ascii_of_nat (48 + Z.to_nat d).

(** The zero-padded formatting of a minute of the day as hours and
    minutes. *)
Definition two_digits (n : Z) : string :=
  String (digit_char (n / 10)) (String (digit_char (n mod 10)) "").

Definition formatMinutes (w : Z) : string :=
  two_digits (w / 60) ++ ":" ++ two_digits (w mod 60).

(** ** Where the integer model is the script's arithmetic *)

(** [Number.MAX_SAFE_INTEGER]. A number of the script is a binary64 number.
    The integers up to this bound in absolute value are such numbers, and a
    sum or a product of two of them that stays within the bound is computed
    exactly. Beyond it sums are rounded, and the model, which computes with
    the integers, no longer says what the script returns. *)
Definition MAX_SAFE_INTEGER : Z := 2 ^ 53 - 1.

Definition safeInteger (z : Z) : bool := Z.abs z <=? MAX_SAFE_INTEGER.

(** The numbers that lines 83-84 read and build from the hour [h], the minute
    [m] and the offset are all safe integers. The remainders and the quotient
    of lines 85-87 then lie between -1440 and 2880. *)
Definition exactTotal (h m off : Z) : bool :=
  safeInteger h && safeInteger m && safeInteger off
  && safeInteger (h * 60) && safeInteger (h * 60 + m)
  && safeInteger (h * 60 + m + off).

(** An offset that keeps the total a safe integer on every well-formed base
    time, whose minute of the day is at most 1439. *)
Definition exactOffset (off : Z) : bool :=
  Z.abs off <=? MAX_SAFE_INTEGER - 1439.

(** Every number inside a value is such an offset. The numbers of the model
    are integers: a value with a fractional number, such as an offset of 7.5
    minutes, is outside it. *)
Fixpoint exactNumbers (v : value) : bool :=
  match v with
  | VNum n => exactOffset n
  | VArr elems => forallb exactNumbers elems
  | VObj props => forallb (fun kv => exactNumbers (snd kv)) props
  | _ => true
  end.

(** The two numbers of line 83,
    [const [h, m] = baseTime.split(':').map(Number)]. *)
Definition hourAndMinute (baseTime : string) : num * num :=
  let parts := map Number (split ":" baseTime) in
  (destructured 0 parts, destructured 1 parts).

End TimeCodec.

Import TimeCodec.

(* ================================================================== *)
(** * SlotDecoder *)
(* ================================================================== *)

Module SlotDecoder.

(** An element of the output: [{ time, type }]. *)
Record DecodedSlot : Type := { time : string; type : value }.

(** Lines 120-121: [res.data?.availability?.[0]?.availabilityDays ?? []]. *)
Definition availabilityDays (res : value) : result value :=
  data <- prop res "data" ;;
  Ok (coalesce
        (opt_prop (opt_first (opt_prop data "availability")) "availabilityDays")
        (VArr [])).

(** The callback of line 122: [(d) => d.dayOffset === 0]. *)
Definition isDay0 (d : value) : result bool :=
  dayOffset <- prop d "dayOffset" ;;
  Ok (strict_eq_num dayOffset 0).

(** Line 122: [days.find((d) => d.dayOffset === 0) ?? days[0]]. Once [find]
    has returned, [days] is an array and [days[0]] is its first element. *)
Definition selectDay0 (days : value) : result value :=
  found <- find days isDay0 ;;
  Ok (if nullish found then opt_first days else found).

(** The body of the loop of lines 126-132, on the array built so far. The
    test [typeof slot.timeOffsetMinutes === 'number'] is the match on
    [VNum]. *)
Definition pushSlot (baseTime : value) (slots : list DecodedSlot)
  (slot : value) : result (list DecodedSlot) :=
  isAvailable <- prop slot "isAvailable" ;;
  if truthy isAvailable then
    match opt_prop slot "timeOffsetMinutes" with
    | VNum timeOffsetMinutes =>
        time <- offsetToTime baseTime timeOffsetMinutes ;;
        let type := coalesce (opt_prop slot "type") (VStr "Standard") in
        Ok (slots ++ [{| time := time; type := type |}])%list
    | _ => Ok slots
    end
  else Ok slots.

(** Lines 123-133: the guard on [day0?.slots] and the loop over them. *)
Definition decodeDay (day0 baseTime : value) : result (list DecodedSlot) :=
  if negb (truthy (opt_prop day0 "slots")) then Ok []
  else
    slots <- prop day0 "slots" ;;
    elems <- iterate slots ;;
    for_of (pushSlot baseTime) elems [].

(** [extractSlots(res, baseTime, requestedDate)]. *)
Definition extractSlots (res baseTime requestedDate : value)
  : result (list DecodedSlot) :=
  days <- availabilityDays res ;;
  day0 <- selectDay0 days ;;
  decodeDay day0 baseTime.

End SlotDecoder.

Import SlotDecoder.

(* ================================================================== *)
(** * Effects: what a run does and how it ends *)
(* ================================================================== *)

Module Effects.

(** The places of [runLiveMode] that call [browser.close()]. *)
Inductive CloseSite : Type :=
| AtCaptureCatch      (* line 283, the catch of the capture block *)
| AtNoCapture         (* line 288 *)
| AtInvalidBody       (* line 301 *)
| AtNoPage            (* line 323 *)
| AtHttpFailure       (* line 339 *)
| AtInvalidResponse   (* line 349 *)
| AtFinally.          (* line 357, the finally of the replay block *)

(** What a run does to the outside. [ConsoleError] keeps the message, the
    first argument of [console.error]. [PrintResult] is a call of
    [printResult], taken as one event that returns: how the slots are laid
    out as a table or as JSON is outside the model. *)
Inductive event : Type :=
| BrowserLaunch
| Navigate (url : string)
| BrowserClose (site : CloseSite)
| ConsoleError (msg : string)
| HttpPost (data : string) (headers : list (string * string))
| PrintResult (slots : list DecodedSlot) (date : value) (json : bool).

(** How a computation ends: with a value, by [process.exit(code)], by a
    [throw] that nothing caught so far, or by the rejection of a promise that
    has no handler, on which the platform ends the process: no [catch] and no
    [finally] of the script runs after it. *)
Inductive outcome (A : Type) : Type :=
| Done (a : A)
| Exit (code : Z)
| Raise (e : error)
| Crash (e : error).

Arguments Done {A} a.
Arguments Exit {A} code.
Arguments Raise {A} e.
Arguments Crash {A} e.

(** A computation: the events in the order they happened, and the end. *)
Definition Proc (A : Type) : Type := (list event * outcome A)%type.

Definition ret {A : Type} (a : A) : Proc A := ([], Done a).
Definition emit (ev : event) : Proc unit := ([ev], Done tt).
Definition exit {A : Type} (code : Z) : Proc A := ([], Exit code).
Definition raise {A : Type} (e : error) : Proc A := ([], Raise e).
Definition crash {A : Type} (e : error) : Proc A := ([], Crash e).

Definition lift {A : Type} (r : result A) : Proc A :=
  match r with
  | Ok a => ret a
  | Throw e => raise e
  end.

Definition after {A : Type} (t : list event) (p : Proc A) : Proc A :=
  (t ++ fst p, snd p)%list.

Definition pbind {A B : Type} (p : Proc A) (k : A -> Proc B) : Proc B :=
  match snd p with
  | Done a => after (fst p) (k a)
  | Exit code => (fst p, Exit code)
  | Raise e => (fst p, Raise e)
  | Crash e => (fst p, Crash e)
  end.

(** [try { p } catch (err) { handler err }]: [process.exit] is not caught,
    nor is the end of the process on an unhandled rejection. *)
Definition try_catch {A : Type} (p : Proc A) (handler : error -> Proc A)
  : Proc A :=
  match snd p with
  | Raise e => after (fst p) (handler e)
  | _ => p
  end.

(** [try { p } finally { cleanup }]: the cleanup runs when [p] completes or
    throws, and the run then ends as [p] did; [process.exit] inside [p] ends
    the process on the spot and the cleanup never runs, and so does the end
    of the process on an unhandled rejection. *)
Definition try_finally {A : Type} (p : Proc A) (cleanup : Proc unit)
  : Proc A :=
  match snd p with
  | Exit code => p
  | Crash e => p
  | s =>
      match snd cleanup with
      | Done _ => ((fst p ++ fst cleanup)%list, s)
      | Exit code => ((fst p ++ fst cleanup)%list, Exit code)
      | Raise e => ((fst p ++ fst cleanup)%list, Raise e)
      | Crash e => ((fst p ++ fst cleanup)%list, Crash e)
      end
  end.

End Effects.

Import Effects.

Notation "x <~ e ;; k" := (pbind e (fun x => k))
  (at level 100, e at next level, right associativity).
Notation "e ;;; k" := (pbind e (fun _ => k))
  (at level 100, right associativity).

(** The double-quote character, and a string between two of them. *)
Definition dquote : string := String (ascii_of_nat 34) EmptyString.
Definition quoted (s : string) : string := dquote ++ s ++ dquote.

(* ================================================================== *)
(** * HarSource: the offline mode *)
(* ================================================================== *)

Module HarSource.

(** The callback of [entries.filter] (lines 169-178). *)
Definition entryMatches (filterDate : string) (filterParty : Z) (e : value)
  : result bool :=
  request <- prop e "request" ;;
  if negb (strict_eq_str (opt_prop request "method") "POST") then Ok false
  else
    let url := opt_prop request "url" in
    hasOp <- (if nullish url then Ok false
              else includes url "RestaurantsAvailability") ;;
    if negb hasOp then Ok false
    else
      response <- prop e "response" ;;
      if negb (truthy (opt_prop (opt_prop response "content") "text"))
      then Ok false
      else
        let text := opt_prop (opt_prop request "postData") "text" in
        missesDate <-
          (if negb (filterDate =? "")%string && truthy text
           then has <- includes text
                         (quoted "date" ++ ":" ++ quoted filterDate) ;;
                Ok (negb has)
           else Ok false) ;;
        if missesDate then Ok false
        else
          missesParty <-
            (if (filterParty >? 0) && truthy text
             then has <- includes text
                           (quoted "partySize" ++ ":" ++ decimal filterParty) ;;
                  Ok (negb has)
             else Ok false) ;;
          if missesParty then Ok false else Ok true.

Section WithBuiltins.

(** [JSON.parse], with the conversion of its argument to a string, and
    [readFileSync(path, 'utf8')] are the platform's. *)
Variable JSON_parse : value -> result value.
Variable readFileSync : string -> result string.

(** The first [try] of the loop body (lines 188-196): the base time after
    looking at [entry], given the one before. Whatever is thrown inside is
    caught and leaves [baseTime] as it was. *)
Definition updateBaseTime (entry baseTime : value) : value :=
  match
    (request <- prop entry "request" ;;
     let body := opt_prop (opt_prop request "postData") "text" in
     if truthy body then
       parsed <- JSON_parse body ;;
       variables <- prop parsed "variables" ;;
       let time := opt_prop variables "time" in
       Ok (if truthy time then time else baseTime)
     else Ok baseTime)
  with
  | Ok t => t
  | Throw _ => baseTime
  end.

(** The function called in place at lines 203-214. *)
Definition dateOfRequest (entry : value) : value :=
  match
    (request <- prop entry "request" ;;
     let b := opt_prop (opt_prop request "postData") "text" in
     if truthy b then
       p <- JSON_parse b ;;
       variables <- prop p "variables" ;;
       Ok (coalesce (opt_prop variables "date") (VStr ""))
     else Ok (VStr ""))
  with
  | Ok d => d
  | Throw _ => VStr ""
  end.

(** The loop of lines 187-221, with [baseTime] declared before it (line 186)
    and carried from one entry to the next. *)
Fixpoint harLoop (filterDate : string) (filterParty : Z) (json : bool)
  (matches : list value) (baseTime : value) : Proc unit :=
  match matches with
  | [] => ret tt
  | entry :: rest =>
      let baseTime := updateBaseTime entry baseTime in
      response <~ lift (prop entry "response") ;;
      let text := opt_prop (opt_prop response "content") "text" in
      if negb (truthy text) then harLoop filterDate filterParty json rest baseTime
      else
        let requestedDate :=
          if negb (filterDate =? "")%string then VStr filterDate
          else dateOfRequest entry in
        match (res <- JSON_parse text ;;
               extractSlots res baseTime requestedDate) with
        | Ok slots =>
            emit (PrintResult slots
                    (if truthy requestedDate then requestedDate
                     else VStr "date-unknown")
                    json) ;;;
            if negb (filterDate =? "")%string || negb (filterParty =? 0)
            then ret tt
            else harLoop filterDate filterParty json rest baseTime
        | Throw _ =>
            emit (ConsoleError "Failed to parse HAR response:") ;;;
            harLoop filterDate filterParty json rest baseTime
        end
  end.

(** [runHarMode(harPath, filterDate, filterParty, json)]. When [har.log] is an
    array, [har.log.entries] is the array method of that name, a function,
    which has no [filter]: the call throws. *)
Definition runHarMode (harPath filterDate : string) (filterParty : Z)
  (json : bool) : Proc unit :=
  fileText <~ lift (readFileSync harPath) ;;
  har <~ lift (JSON_parse (VStr fileText)) ;;
  log <~ lift (prop har "log") ;;
  let entries := coalesce (opt_prop log "entries") (VArr []) in
  matches <~ lift (match log with
                   | VArr _ => Throw TypeError
                   | _ => filter entries (entryMatches filterDate filterParty)
                   end) ;;
  match matches with
  | [] =>
      emit (ConsoleError "No matching RestaurantsAvailability entries in HAR.") ;;;
      exit 1
  | _ => harLoop filterDate filterParty json matches (VStr "19:00")
  end.

End WithBuiltins.

End HarSource.

Import HarSource.

(* ================================================================== *)
(** * The live mode: capture, mutate, replay, decode *)
(* ================================================================== *)

Module Live.

Definition GQL_URL : string :=
  "https://www.opentable.com/dapi/fe/gql?optype=query&opname=RestaurantsAvailability".

(** An outbound request as the browser reports it: [req.method()],
    [req.url()], [req.postData()] ([None] for [null]) and [req.headers()]. *)
Record Request : Type := {
  req_method : string;
  req_url : string;
  req_postData : option string;
  req_headers : list (string * string)
}.

(** What the capture resolves with. *)
Record Captured : Type := {
  body : string;
  headers : list (string * string)
}.

(** The answer to the replayed call: [response.ok()], [response.status()],
    [response.text()]. *)
Record Response : Type := {
  ok : bool;
  status : Z;
  text : string
}.

(** The browser-automation engine, as far as a run depends on it. *)
Record Engine : Type := {
  (** [chromium.launch({ headless, channel })] *)
  launch : bool -> option string -> result unit;
  (** [browser.newContext(...)] then [context.newPage()] *)
  newPage : result unit;
  (** the requests the page sends before the capture deadline, in order *)
  observed : string -> list Request;
  (** [page.goto(url, ...)] has settled (it resolved, or failed and the
      failure was ignored) by the capture deadline, 30 s after the capture
      promise was made; its own time limit is 60 s *)
  gotoSettled : string -> bool;
  (** [browser.contexts()[0].pages()[0]] is there *)
  pageOpen : bool;
  (** [page.request.post(url, { data, headers })] *)
  post : string -> string -> list (string * string) -> result Response
}.

Definition lowerChar (c : ascii) : ascii :=
  let n := nat_of_ascii c in
  if ((65 <=? n) && (n <=? 90))%nat then ascii_of_nat (n + 32) else c.

Fixpoint toLowerCase (s : string) : string :=
  match s with
  | EmptyString => EmptyString
  | String c rest => String (lowerChar c) (toLowerCase rest)
  end.

(** The header names of line 267. *)
Definition keptHeader (k : string) : bool :=
  let lower := toLowerCase k in
  (lower =? "content-type")%string || (lower =? "x-csrf-token")%string
  || (lower =? "origin")%string || (lower =? "referer")%string
  || (lower =? "ot-page-group")%string || (lower =? "ot-page-type")%string.

(** The message of the error the capture timer rejects with (line 256). *)
Definition timeoutMessage : string :=
  "Timeout waiting for RestaurantsAvailability request".

(** The request handler of lines 257-272: what it resolves the capture with,
    [None] when it returns before resolving. *)
Definition onRequest (req : Request) : option Captured :=
  if negb (req_method req =? "POST")%string then None
  else if negb (str_includes "RestaurantsAvailability" (req_url req)) then None
  else
    match req_postData req with
    | None | Some EmptyString => None
    | Some postData =>
        Some {| body := postData;
                headers :=
                  fold_left
                    (fun headersObj kv =>
                       if keptHeader (fst kv)
                       then set_prop (fst kv) (snd kv) headersObj
                       else headersObj)
                    (req_headers req) [] |}
    end.

(** The capture promise of lines 255-273, over the requests seen before the
    deadline: the first request the handler resolves with settles it and
    clears the timer; when there is none, the timer rejects it. What the
    rejection does to the run depends on whether the promise is awaited by
    then: see [captureRequest]. *)
Fixpoint capturePromise (requests : list Request) : result Captured :=
  match requests with
  | [] => Throw (Error timeoutMessage)
  | req :: rest =>
      match onRequest req with
      | Some captured => Ok captured
      | None => capturePromise rest
      end
  end.

(** [String(err)]. *)
Definition errorText (e : error) : string :=
  match e with
  | TypeError => "TypeError"
  | SyntaxError => "SyntaxError"
  | Error msg => "Error: " ++ msg
  end.

(** The object literal of lines 306-315: the captured variables, then [date],
    [partySize] and the four window-sizing constants written over them. *)
Definition newVariables (body : value) (date : string) (partySize : Z)
  : result value :=
  variables <- prop body "variables" ;;
  Ok (VObj (set_props
              [("date", VStr date);
               ("partySize", VNum partySize);
               ("forwardMinutes", VNum 295);
               ("backwardMinutes", VNum 1140);
               ("forwardTimeslots", VNum 20);
               ("backwardTimeslots", VNum 76)]
              (spread variables))).

(** [body.variables = variables], as [JSON.stringify(body)] sees the result.
    An object takes the property. An array takes it too, but not among the
    elements that are serialised. The script is a module, hence strict code,
    where the assignment throws on a primitive. *)
Definition assignVariables (body variables : value) : result value :=
  match body with
  | VObj props => Ok (VObj (set_prop "variables" variables props))
  | VArr elems => Ok (VArr elems)
  | _ => Throw TypeError
  end.

(** The headers of the replayed call (lines 329-334): the captured ones with
    [Content-Type], [origin] and [referer] written over them. *)
Definition replayHeaders (url : string)
  (capturedHeaders : list (string * string)) : list (string * string) :=
  set_props [("Content-Type", "application/json");
             ("origin", "https://www.opentable.com");
             ("referer", url)]
            capturedHeaders.

(** Lines 306-315 as one step: the captured body with the new variables. *)
Definition mutate (body : value) (date : string) (partySize : Z)
  : result value :=
  variables <- newVariables body date partySize ;;
  assignVariables body variables.

Section WithBuiltins.

(** [JSON.parse] and [JSON.stringify] are the platform's. *)
Variable JSON_parse : value -> result value.
Variable JSON_stringify : value -> string.

Variable engine : Engine.

(** Lines 235-247: launch, with one retry on the installed browser when the
    bundled one is missing. *)
Definition launchBrowser (headless : bool) : Proc unit :=
  try_catch (lift (launch engine headless None))
    (fun err =>
       if str_includes "Executable doesn't exist" (errorText err)
       then try_catch (lift (launch engine headless (Some "chrome")))
                      (fun _ => raise err)
       else raise err) ;;;
  emit BrowserLaunch.

(** Lines 248-285: open a page, watch its requests, navigate (a failed
    navigation is ignored) and wait for the capture. The capture promise gets
    its first handler at line 279, once the [await] of [page.goto] at line
    275 is over. When the timer rejects the promise after that, the rejection
    is thrown at line 279, inside the [try]. When it rejects it while the
    navigation is still pending, the rejection has no handler: the platform
    ends the process there (the default of Node.js since version 15), and
    neither the [catch] of line 282 nor any later line runs. *)
Definition captureRequest (url : string) : Proc Captured :=
  try_catch
    (lift (newPage engine) ;;;
     emit (Navigate url) ;;;
     match capturePromise (observed engine url) with
     | Ok captured => ret captured
     | Throw err => if gotoSettled engine url then raise err else crash err
     end)
    (fun err => emit (BrowserClose AtCaptureCatch) ;;; raise err).

(** Lines 318-358: the replay block with its [finally]. [variables] is what
    [body.variables] holds since the assignment of line 306. *)
Definition replay (url date : string) (json : bool)
  (capturedHeaders : list (string * string)) (variables : value)
  (requestBody : string) : Proc unit :=
  try_finally
    (if negb (pageOpen engine) then
       emit (ConsoleError "No page in context.") ;;;
       emit (BrowserClose AtNoPage) ;;;
       exit 1
     else
       let headers := replayHeaders url capturedHeaders in
       emit (HttpPost requestBody headers) ;;;
       response <~ lift (post engine GQL_URL requestBody headers) ;;
       if negb (ok response) then
         emit (ConsoleError "API request failed:") ;;;
         emit (BrowserClose AtHttpFailure) ;;;
         exit 1
       else
         let resText := text response in
         res <~ try_catch (lift (JSON_parse (VStr resText)))
                  (fun _ =>
                     emit (ConsoleError "Invalid API response.") ;;;
                     emit (BrowserClose AtInvalidResponse) ;;;
                     exit 1) ;;
         time <~ lift (prop variables "time") ;;
         let baseTime := coalesce time (VStr "19:00") in
         slots <~ lift (extractSlots res baseTime (VStr date)) ;;
         emit (PrintResult slots (VStr date) json))
    (emit (BrowserClose AtFinally)).

(** [runLiveMode(url, date, partySize, headless, json)]. *)
Definition runLiveMode (url date : string) (partySize : Z)
  (headless json : bool) : Proc unit :=
  launchBrowser headless ;;;
  captured <~ captureRequest url ;;
  let capturedBody := body captured in
  let capturedHeaders := headers captured in
  if (capturedBody =? "")%string then
    emit (BrowserClose AtNoCapture) ;;;
    emit (ConsoleError "Could not capture RestaurantsAvailability request.") ;;;
    exit 1
  else
    body <~ try_catch (lift (JSON_parse (VStr capturedBody)))
              (fun _ =>
                 emit (BrowserClose AtInvalidBody) ;;;
                 emit (ConsoleError "Invalid captured request body.") ;;;
                 exit 1) ;;
    variables <~ lift (newVariables body date partySize) ;;
    body' <~ lift (assignVariables body variables) ;;
    let requestBody := JSON_stringify body' in
    replay url date json capturedHeaders variables requestBody.

End WithBuiltins.

End Live.

Import Live.

(* ================================================================== *)
(** * An implementation of the built-ins, to run the pipelines *)
(* ================================================================== *)

(** The pipelines above take [JSON.parse] and [JSON.stringify] as given; the
    general theorems hold for any implementation of them. To run the
    pipelines on concrete texts, this module reads and writes JSON over the
    integer model: a number with a fraction or an exponent and a [\u] escape
    are not read, and object keys are written in the order of the property
    list. *)
Module Json.

Definition isSpace (c : ascii) : bool :=
  let n := nat_of_ascii c in
  ((n =? 32) || (n =? 9) || (n =? 10) || (n =? 13))%nat.

Fixpoint skipSpace (s : string) : string :=
  match s with
  | String c rest => if isSpace c then skipSpace rest else s
  | EmptyString => s
  end.

Fixpoint readDigits (s : string) (acc : Z) : Z * string :=
  match s with
  | String c rest =>
      if is_digit c then readDigits rest (10 * acc + digit_value c)
      else (acc, s)
  | EmptyString => (acc, s)
  end.

(** The digits of an integer literal, without its sign: no leading zero
    before another digit, and nothing of a fraction or exponent after. *)
Definition readNatural (s : string) : option (Z * string) :=
  match s with
  | String c rest =>
      if negb (is_digit c) then None
      else if Ascii.eqb c "0"
                && match rest with
                   | String d _ => is_digit d
                   | EmptyString => false
                   end
      then None
      else
        let (n, after) := readDigits s 0 in
        match after with
        | String "." _ | String "e" _ | String "E" _ => None
        | _ => Some (n, after)
        end
  | EmptyString => None
  end.

Definition readInteger (s : string) : option (Z * string) :=
  match s with
  | String "-" rest =>
      match readNatural rest with
      | Some (n, after) => Some (- n, after)
      | None => None
      end
  | _ => readNatural s
  end.

Definition unescape (c : ascii) : option ascii :=
  let n := nat_of_ascii c in
  if (n =? 34)%nat then Some c
  else if (n =? 92)%nat then Some c
  else if (n =? 47)%nat then Some c
  else if Ascii.eqb c "b" then Some (ascii_of_nat 8)
  else if Ascii.eqb c "f" then Some (ascii_of_nat 12)
  else if Ascii.eqb c "n" then Some (ascii_of_nat 10)
  else if Ascii.eqb c "r" then Some (ascii_of_nat 13)
  else if Ascii.eqb c "t" then Some (ascii_of_nat 9)
  else None.

(** The characters of a string literal after its opening quote, up to the
    closing one. *)
Fixpoint readString (s : string) : option (string * string) :=
  match s with
  | EmptyString => None
  | String c rest =>
      let n := nat_of_ascii c in
      if (n =? 34)%nat then Some (EmptyString, rest)
      else if (n =? 92)%nat then
        match rest with
        | String e rest' =>
            match unescape e, readString rest' with
            | Some ch, Some (v, after) => Some (String ch v, after)
            | _, _ => None
            end
        | EmptyString => None
        end
      else if (n <? 32)%nat then None
      else
        match readString rest with
        | Some (v, after) => Some (String c v, after)
        | None => None
        end
  end.

Definition readLiteral (lit : string) (v : value) (s : string)
  : option (value * string) :=
  if prefix lit s
  then Some (v, substring (String.length lit)
                          (String.length s - String.length lit) s)
  else None.

Fixpoint readValue (fuel : nat) (s : string) {struct fuel}
  : option (value * string) :=
  match fuel with
  | O => None
  | S fuel =>
      match skipSpace s with
      | EmptyString => None
      | String c rest as s' =>
          if (nat_of_ascii c =? 34)%nat then
            match readString rest with
            | Some (v, after) => Some (VStr v, after)
            | None => None
            end
          else if Ascii.eqb c "[" then
            match skipSpace rest with
            | String "]" after => Some (VArr [], after)
            | _ => readElems fuel rest []
            end
          else if Ascii.eqb c "{" then
            match skipSpace rest with
            | String "}" after => Some (VObj [], after)
            | _ => readMembers fuel rest []
            end
          else if Ascii.eqb c "t" then readLiteral "true" (VBool true) s'
          else if Ascii.eqb c "f" then readLiteral "false" (VBool false) s'
          else if Ascii.eqb c "n" then readLiteral "null" VNull s'
          else
            match readInteger s' with
            | Some (n, after) => Some (VNum n, after)
            | None => None
            end
      end
  end
with readElems (fuel : nat) (s : string) (acc : list value) {struct fuel}
  : option (value * string) :=
  match fuel with
  | O => None
  | S fuel =>
      match readValue fuel s with
      | None => None
      | Some (v, after) =>
          match skipSpace after with
          | String "," more => readElems fuel more (acc ++ [v])%list
          | String "]" more => Some (VArr (acc ++ [v])%list, more)
          | _ => None
          end
      end
  end
with readMembers (fuel : nat) (s : string) (acc : list (string * value))
  {struct fuel} : option (value * string) :=
  match fuel with
  | O => None
  | S fuel =>
      match skipSpace s with
      | String q rest =>
          if negb (nat_of_ascii q =? 34)%nat then None
          else
            match readString rest with
            | None => None
            | Some (k, after) =>
                match skipSpace after with
                | String ":" more =>
                    match readValue fuel more with
                    | None => None
                    | Some (v, after') =>
                        match skipSpace after' with
                        | String "," more' =>
                            readMembers fuel more' (set_prop k v acc)
                        | String "}" more' =>
                            Some (VObj (set_prop k v acc), more')
                        | _ => None
                        end
                    end
                | _ => None
                end
            end
      | EmptyString => None
      end
  end.

Definition parseText (s : string) : result value :=
  match readValue (2 * String.length s + 2) s with
  | Some (v, after) =>
      match skipSpace after with
      | EmptyString => Ok v
      | _ => Throw SyntaxError
      end
  | None => Throw SyntaxError
  end.

(** ToString, which [JSON.parse] applies to its argument. *)
Fixpoint ToString (v : value) : string :=
  match v with
  | VUndef => "undefined"
  | VNull => "null"
  | VBool true => "true"
  | VBool false => "false"
  | VNum n => decimal n
  | VStr s => s
  | VArr elems =>
      (fix join (xs : list value) : string :=
         match xs with
         | [] => ""
         | x :: rest =>
             (if nullish x then "" else ToString x)
             ++ match rest with
                | [] => ""
                | _ => "," ++ join rest
                end
         end) elems
  | VObj _ => "[object Object]"
  end.

(** [JSON.parse(v)]. *)
Definition parse (v : value) : result value := parseText (ToString v).

Definition hexDigit (n : nat) : ascii :=
  if (n <? 10)%nat then ascii_of_nat (48 + n) else ascii_of_nat (87 + n).

Definition escapeChar (c : ascii) : string :=
  let n := nat_of_ascii c in
  if ((n =? 34) || (n =? 92))%nat then String "\" (String c "")
  else if (n =? 8)%nat then "\b"
  else if (n =? 9)%nat then "\t"
  else if (n =? 10)%nat then "\n"
  else if (n =? 12)%nat then "\f"
  else if (n =? 13)%nat then "\r"
  else if (n <? 32)%nat
       then "\u00" ++ String (hexDigit (n / 16)) (String (hexDigit (n mod 16)) "")
       else String c "".

Fixpoint escape (s : string) : string :=
  match s with
  | EmptyString => EmptyString
  | String c rest => escapeChar c ++ escape rest
  end.

Definition quoteString (s : string) : string := dquote ++ escape s ++ dquote.

(** The text of a value, [None] for what [JSON.stringify] leaves out. *)
Fixpoint write (v : value) : option string :=
  match v with
  | VUndef => None
  | VNull => Some "null"
  | VBool true => Some "true"
  | VBool false => Some "false"
  | VNum n => Some (decimal n)
  | VStr s => Some (quoteString s)
  | VArr elems =>
      Some ("["
            ++ String.concat ","
                 ((fix each (xs : list value) : list string :=
                     match xs with
                     | [] => []
                     | x :: rest =>
                         match write x with
                         | Some t => t
                         | None => "null"
                         end :: each rest
                     end) elems)
            ++ "]")
  | VObj props =>
      Some ("{"
            ++ String.concat ","
                 ((fix each (ps : list (string * value)) : list string :=
                     match ps with
                     | [] => []
                     | (k, x) :: rest =>
                         match write x with
                         | Some t => (quoteString k ++ ":" ++ t) :: each rest
                         | None => each rest
                         end
                     end) props)
            ++ "}")
  end.

(** [JSON.stringify(v)] for a [v] other than [undefined]. *)
Definition stringify (v : value) : string :=
  match write v with
  | Some t => t
  | None => "undefined"
  end.

End Json.

(* ================================================================== *)
(** * The specification's reading of the decoder *)
(* ================================================================== *)

(** What the specification says of [extractSlots], in its own terms, to be
    compared with the code above. *)
Module Spec.

(** [response.availability[0].availabilityDays], read without failing
    ([undefined] when a step of the path is missing). *)
Definition firstAvailabilityDays (res : value) : value :=
  opt_prop (opt_first (opt_prop (opt_prop res "data") "availability"))
           "availabilityDays".

Definition dayOffsetIs0 (d : value) : bool :=
  strict_eq_num (opt_prop d "dayOffset") 0.

(** The selection rule: the day whose [dayOffset] is 0 (the first such, no day
    before it having offset 0) if one exists, otherwise the first day of the
    sequence ([undefined] when the sequence is empty). *)
Inductive Selected (days : list value) : value -> Prop :=
| SelectedDay0 (before after : list value) (d : value) :
    days = (before ++ d :: after)%list ->
    dayOffsetIs0 d = true ->
    Forall (fun x => dayOffsetIs0 x = false) before ->
    Selected days d
| SelectedFirst :
    Forall (fun x => dayOffsetIs0 x = false) days ->
    Selected days (hd VUndef days).

(** A day has no slots: the field is absent ([undefined] or [null]) or
    empty. *)
Definition hasNoSlots (day : value) : Prop :=
  nullish (opt_prop day "slots") = true \/ opt_prop day "slots" = VArr [].

(** A slot as the interface [AvailabilitySlot] declares it, as far as the
    filter looks: an object whose [isAvailable], when present, is a
    boolean. *)
Definition slotConforms (slot : value) : bool :=
  match slot with
  | VObj _ =>
      match opt_prop slot "isAvailable" with
      | VUndef | VNull | VBool _ => true
      | _ => false
      end
  | _ => false
  end.

(** The filtering rule: [isAvailable] is true and [timeOffsetMinutes] is
    present and a number. *)
Definition included (slot : value) : bool :=
  match opt_prop slot "isAvailable", opt_prop slot "timeOffsetMinutes" with
  | VBool true, VNum _ => true
  | _, _ => false
  end.

(** The type of a decoded slot: the slot's own, ["Standard"] when absent. *)
Definition typeOrStandard (slot : value) : value :=
  match opt_prop slot "type" with
  | VUndef | VNull => VStr "Standard"
  | t => t
  end.

(** The decoded form of an included slot. *)
Definition decoded (baseTime : string) (slot : value) : DecodedSlot :=
  {| time := match opt_prop slot "timeOffsetMinutes" with
             | VNum n => wrappedTime baseTime n
             | _ => ""
             end;
     type := typeOrStandard slot |}.

End Spec.

Import Spec.

(** The data of the specification's example: a day at offset 1 listed first,
    then the day at offset 0 with an available and an unavailable slot. *)
Definition sampleDay1 : value :=
  VObj [("dayOffset", VNum 1);
        ("slots", VArr [VObj [("isAvailable", VBool true);
                              ("timeOffsetMinutes", VNum 15);
                              ("type", VStr "Experience")]])].

Definition sampleDay0 : value :=
  VObj [("dayOffset", VNum 0);
        ("slots", VArr [VObj [("isAvailable", VBool true);
                              ("timeOffsetMinutes", VNum 0);
                              ("type", VStr "Standard")];
                        VObj [("isAvailable", VBool false);
                              ("timeOffsetMinutes", VNum 30)]])].

Definition sampleResponse : value :=
  VObj [("data", VObj [("availability", VArr [VObj [
    ("restaurantId", VNum 1);
    ("availabilityDays", VArr [sampleDay1; sampleDay0])]])])].

(** A response without [availabilityDays], one whose [availabilityDays] is
    empty, and one whose day at offset 0 has no [slots] field. *)
Definition emptyResponse : value :=
  VObj [("data", VObj [("availability", VArr [VObj [
    ("restaurantId", VNum 1)]])])].

Definition noDaysResponse : value :=
  VObj [("data", VObj [("availability", VArr [VObj [
    ("restaurantId", VNum 1);
    ("availabilityDays", VArr [])]])])].

Definition dayWithoutSlots : value := VObj [("dayOffset", VNum 0)].

Definition noSlotsResponse : value :=
  VObj [("data", VObj [("availability", VArr [VObj [
    ("restaurantId", VNum 1);
    ("availabilityDays", VArr [sampleDay1; dayWithoutSlots])]])])].

(** ** The specification's reading of the HAR filter *)

Module SpecHar.

(** The raw request body text of an entry: [request.postData.text]. *)
Definition requestBodyText (e : value) : value :=
  opt_prop (opt_prop (opt_prop e "request") "postData") "text".





(** The request body text is absent or empty. *)
Definition bodyMissing (e : value) : bool :=
  negb (truthy (requestBodyText e)).


End SpecHar.

Import SpecHar.

(** A recorded exchange: a POST to the availability operation, with or
    without a request body, and a response text. *)
Definition harEntry (postData : option string) (responseText : string)
  : value :=
  VObj [("request",
         VObj (("method", VStr "POST")
               :: ("url", VStr GQL_URL)
               :: match postData with
                  | Some t => [("postData", VObj [("text", VStr t)])]
                  | None => []
                  end));
        ("response", VObj [("content", VObj [("text", VStr responseText)])])].

(** Request bodies: one asking for 2026-02-26 at 18:00 for 4, one for another
    date. *)
Definition requestText (date time : string) (partySize : Z) : string :=
  "{" ++ quoted "operationName" ++ ":" ++ quoted "RestaurantsAvailability"
  ++ "," ++ quoted "variables" ++ ":{" ++ quoted "date" ++ ":" ++ quoted date
  ++ "," ++ quoted "partySize" ++ ":" ++ decimal partySize
  ++ "," ++ quoted "time" ++ ":" ++ quoted time ++ "}}".

Definition entryFor26 : value :=
  harEntry (Some (requestText "2026-02-26" "18:00" 4))
           (Json.stringify sampleResponse).


Definition entryWithoutBody : value :=
  harEntry None (Json.stringify sampleResponse).

(** A request body with a date and a party size but no [time]. *)
Definition requestTextWithoutTime (date : string) (partySize : Z) : string :=
  "{" ++ quoted "operationName" ++ ":" ++ quoted "RestaurantsAvailability"
  ++ "," ++ quoted "variables" ++ ":{" ++ quoted "date" ++ ":" ++ quoted date
  ++ "," ++ quoted "partySize" ++ ":" ++ decimal partySize ++ "}}".

Definition entryWithoutTime : value :=
  harEntry (Some (requestTextWithoutTime "2026-02-27" 4))
           (Json.stringify sampleResponse).

(** A recorded log with three exchanges: the first request asks for 18:00,
    the second names no time, the third has no request body. *)
Definition sampleHar : value :=
  VObj [("log", VObj [("entries",
     VArr [entryFor26; entryWithoutTime; entryWithoutBody])])].

(** A file system holding that log as [capture.har]. *)
Definition sampleFiles (path : string) : result string :=
  if (path =? "capture.har")%string then Ok (Json.stringify sampleHar)
  else Throw (Error "ENOENT: no such file or directory").

(** A captured request body, with a stale window size. *)
Definition sampleBody : string :=
  "{" ++ quoted "operationName" ++ ":" ++ quoted "RestaurantsAvailability"
  ++ "," ++ quoted "variables" ++ ":{" ++ quoted "date" ++ ":"
  ++ quoted "2026-02-20" ++ "," ++ quoted "partySize" ++ ":2,"
  ++ quoted "time" ++ ":" ++ quoted "18:00" ++ ","
  ++ quoted "forwardMinutes" ++ ":150}," ++ quoted "extensions" ++ ":{"
  ++ quoted "persistedQuery" ++ ":{" ++ quoted "version" ++ ":1,"
  ++ quoted "sha256Hash" ++ ":" ++ quoted "b2d05a06" ++ "}}}".

(** The same body, parsed. *)
Definition sampleBodyProps : list (string * value) :=
  [("operationName", VStr "RestaurantsAvailability");
   ("variables",
    VObj [("date", VStr "2026-02-20"); ("partySize", VNum 2);
          ("time", VStr "18:00"); ("forwardMinutes", VNum 150)]);
   ("extensions",
    VObj [("persistedQuery",
           VObj [("version", VNum 1); ("sha256Hash", VStr "b2d05a06")])])].

(** The keys the mutation writes. *)
Definition mutatedKeys : list string :=
  ["date"; "partySize"; "forwardMinutes"; "backwardMinutes";
   "forwardTimeslots"; "backwardTimeslots"].

(** ** The exit paths of the live pipeline *)

Module SpecLive.

(** The exit paths the specification lists. *)
Inductive ExitPath : Type :=
| Success
| CaptureTimeout
| MalformedCapture
| ReplayHttpError
| MalformedResponse.

(** The sites that closed the browser in a trace, in order. *)
Fixpoint closes (t : list event) : list CloseSite :=
  match t with
  | [] => []
  | BrowserClose site :: rest => site :: closes rest
  | _ :: rest => closes rest
  end.

(** How a run on each path ends: it returns, the timeout error propagates, or
    the process exits with code 1. *)
Definition ending (p : ExitPath) : outcome unit :=
  match p with
  | Success => Done tt
  | CaptureTimeout => Raise (Error timeoutMessage)
  | MalformedCapture | ReplayHttpError | MalformedResponse => Exit 1
  end.

(** The call that closes the browser on each path. *)
Definition closeSite (p : ExitPath) : CloseSite :=
  match p with
  | Success => AtFinally
  | CaptureTimeout => AtCaptureCatch
  | MalformedCapture => AtInvalidBody
  | ReplayHttpError => AtHttpFailure
  | MalformedResponse => AtInvalidResponse
  end.

Section Paths.

Variable JSON_parse : value -> result value.
Variable JSON_stringify : value -> string.
Variable engine : Engine.
Variables url date : string.
Variable partySize : Z.
Variable headless : bool.

(** The browser is launched and a page opened. *)
Definition Started : Prop :=
  launchBrowser engine headless = ([BrowserLaunch], Done tt)
  /\ newPage engine = Ok tt.

(** The run gets as far as the replayed call, which is answered. *)
Definition Replayed (variables : value) (response : Response) : Prop :=
  Started
  /\ exists captured body body',
       capturePromise (observed engine url) = Ok captured
       /\ JSON_parse (VStr (Live.body captured)) = Ok body
       /\ newVariables body date partySize = Ok variables
       /\ assignVariables body variables = Ok body'
       /\ pageOpen engine = true
       /\ post engine GQL_URL (JSON_stringify body')
            (replayHeaders url (headers captured))
          = Ok response.

(** When a run takes each of the listed paths. *)
Inductive OnPath : ExitPath -> Prop :=
| TakesCaptureTimeout :
    Started ->
    capturePromise (observed engine url) = Throw (Error timeoutMessage) ->
    OnPath CaptureTimeout
| TakesMalformedCapture (captured : Captured) (e : error) :
    Started ->
    capturePromise (observed engine url) = Ok captured ->
    JSON_parse (VStr (Live.body captured)) = Throw e ->
    OnPath MalformedCapture
| TakesReplayHttpError (variables : value) (response : Response) :
    Replayed variables response ->
    ok response = false ->
    OnPath ReplayHttpError
| TakesMalformedResponse (variables : value) (response : Response)
    (e : error) :
    Replayed variables response ->
    ok response = true ->
    JSON_parse (VStr (text response)) = Throw e ->
    OnPath MalformedResponse
| TakesSuccess (variables : value) (response : Response) (res : value)
    (slots : list DecodedSlot) :
    Replayed variables response ->
    ok response = true ->
    JSON_parse (VStr (text response)) = Ok res ->
    extractSlots res (coalesce (opt_prop variables "time") (VStr "19:00"))
                 (VStr date)
    = Ok slots ->
    OnPath Success.

End Paths.

End SpecLive.

Import SpecLive.

(** Requests of a page load: the document itself, then the availability
    query with a given body. *)
Definition pageRequest : Request :=
  {| req_method := "GET";
     req_url := "https://www.opentable.com/cascal";
     req_postData := None;
     req_headers := [("accept", "text/html")] |}.

Definition queryRequest (postData : string) : Request :=
  {| req_method := "POST";
     req_url := GQL_URL;
     req_postData := Some postData;
     req_headers := [("content-type", "application/json");
                     ("x-csrf-token", "c5f1");
                     ("user-agent", "Mozilla/5.0");
                     ("ot-page-type", "restprofilepage")] |}.

(** An engine that launches, shows the given requests on a page that has
    loaded by the capture deadline, and answers the replayed call as
    given. *)
Definition scriptedEngine (requests : list Request)
  (answer : result Response) : Engine :=
  {| launch := fun _ _ => Ok tt;
     newPage := Ok tt;
     observed := fun _ => requests;
     gotoSettled := fun _ => true;
     pageOpen := true;
     post := fun _ _ _ => answer |}.

Definition goodResponse : Response :=
  {| ok := true; status := 200; text := Json.stringify sampleResponse |}.

Definition forbiddenResponse : Response :=
  {| ok := false; status := 403; text := "Forbidden" |}.

Definition htmlResponse : Response :=
  {| ok := true; status := 200; text := "<html>" |}.

Definition engineSuccess : Engine :=
  scriptedEngine [pageRequest; queryRequest sampleBody] (Ok goodResponse).

Definition engineTimeout : Engine :=
  scriptedEngine [pageRequest] (Ok goodResponse).

Definition engineBadCapture : Engine :=
  scriptedEngine [pageRequest; queryRequest "query { availability }"]
                 (Ok goodResponse).

Definition engineHttpFailure : Engine :=
  scriptedEngine [pageRequest; queryRequest sampleBody]
                 (Ok forbiddenResponse).

Definition engineBadResponse : Engine :=
  scriptedEngine [pageRequest; queryRequest sampleBody] (Ok htmlResponse).

(** The page sends the query with the body [null]. *)
Definition engineNullBody : Engine :=
  scriptedEngine [pageRequest; queryRequest "null"] (Ok goodResponse).

(** No browser can be launched: the bundled one is missing and so is the
    installed one. *)
Definition engineNoBrowser : Engine :=
  {| launch := fun _ channel =>
       match channel with
       | None =>
           Throw (Error "browserType.launch: Executable doesn't exist at /ms-playwright/chromium")
       | Some _ =>
           Throw (Error "browserType.launch: Chromium distribution 'chrome' is not found")
       end;
     newPage := Ok tt;
     observed := fun _ => [];
     gotoSettled := fun _ => true;
     pageOpen := true;
     post := fun _ _ _ => Ok goodResponse |}.

(** A page that never sends the query and is still loading when the capture
    timer fires: the navigation waits for the network to be idle, for up to
    60 s. *)
Definition engineSlowPage : Engine :=
  {| launch := fun _ _ => Ok tt;
     newPage := Ok tt;
     observed := fun _ => [pageRequest];
     gotoSettled := fun _ => false;
     pageOpen := true;
     post := fun _ _ _ => Ok goodResponse |}.

Definition restaurantUrl : string := "https://www.opentable.com/cascal".

(** The sample body after the mutation for 2026-02-26 and a party of 4. *)
Definition sampleMutatedBody : value :=
  VObj [("operationName", VStr "RestaurantsAvailability");
        ("variables",
         VObj [("date", VStr "2026-02-26"); ("partySize", VNum 4);
               ("time", VStr "18:00"); ("forwardMinutes", VNum 295);
               ("backwardMinutes", VNum 1140); ("forwardTimeslots", VNum 20);
               ("backwardTimeslots", VNum 76)]);
        ("extensions",
         VObj [("persistedQuery",
                VObj [("version", VNum 1);
                      ("sha256Hash", VStr "b2d05a06")])])].

(* ================================================================== *)
(** * The command line *)
(* ================================================================== *)

Module Cli.

Inductive Mode : Type :=
| LiveMode
| HarMode.

(** What [parseArgs] returns. [url] is set in live mode only and [harPath] in
    HAR mode only; [partySize] is what [parseInt] gave, [NaN] included. *)
Record Options : Type := {
  mode : Mode;
  url : option string;
  date : string;
  partySize : num;
  headless : bool;
  json : bool;
  harPath : option string
}.

(** [xs.indexOf(x)]: the first position of [x], [-1] when there is none. *)
Fixpoint indexOfFrom (x : string) (xs : list string) (i : Z) : Z :=
  match xs with
  | [] => -1
  | y :: rest => if (y =? x)%string then i else indexOfFrom x rest (i + 1)
  end.

Definition indexOf (x : string) (xs : list string) : Z := indexOfFrom x xs 0.

(** [xs[i]] for an integer [i]: [undefined] ([None]) out of range. *)
Definition at_index (xs : list string) (i : Z) : option string :=
  if i <? 0 then None else nth_error xs (Z.to_nat i).

(** [idx >= 0 ? args[idx + 1] : undefined]. *)
Definition argAfter (args : list string) (idx : Z) : option string :=
  if idx >=? 0 then at_index args (idx + 1) else None.

(** [a !== v] for a string [a] and a [v] that is a string or [undefined]. *)
Definition differs (a : string) (v : option string) : bool :=
  match v with
  | Some s => negb (a =? s)%string
  | None => true
  end.

(** Truthiness of a string or [undefined]. *)
Definition given (v : option string) : bool :=
  match v with
  | Some (String _ _) => true
  | _ => false
  end.

(** [xs.filter((a, i) => f a i)], from position [i] on. *)
Fixpoint filterIndexed (f : string -> Z -> bool) (xs : list string) (i : Z)
  : list string :=
  match xs with
  | [] => []
  | a :: rest =>
      if f a i then a :: filterIndexed f rest (i + 1)
      else filterIndexed f rest (i + 1)
  end.

(** The callback of lines 40-47. *)
Definition isPositional (harPath dateArg partyArg : option string)
  (harIdx dateIdx partyIdx : Z) (a : string) (i : Z) : bool :=
  negb (prefix "--" a)
  && differs a harPath
  && differs a dateArg
  && differs a partyArg
  && (negb (a =? "--har")%string || negb (i =? harIdx))
  && (negb (a =? "--date")%string || negb (i =? dateIdx))
  && (negb (a =? "--party")%string || negb (i =? partyIdx)).

Definition usageLive : string :=
  "Usage (live): get-availability.ts <restaurantUrl> <date YYYY-MM-DD> <partySize> [--no-headless] [--json]".

Definition usageHar : string :=
  "Usage (HAR):  get-availability.ts --har <path> [--date YYYY-MM-DD] [--party N] [--json]".

(** The value that follows the first occurrence of a flag (lines 28-34). *)
Definition flagValue (flag : string) (args : list string) : option string :=
  argAfter args (indexOf flag args).

(** [positionals] (lines 39-48). *)
Definition positionalsOf (args : list string) : list string :=
  filterIndexed
    (isPositional (flagValue "--har" args) (flagValue "--date" args)
                  (flagValue "--party" args)
                  (indexOf "--har" args) (indexOf "--date" args)
                  (indexOf "--party" args))
    args 0.

Section WithParseInt.

(** [parseInt(s, 10)] is the platform's. *)
Variable parseInt : string -> num.

(** [parseArgs()], on [process.argv.slice(2)]. *)
Definition parseArgs (args : list string) : Proc Options :=
  let harIdx := indexOf "--har" args in
  let harPath := flagValue "--har" args in
  let hasHar := (harIdx >=? 0) && given harPath in
  let dateArg := flagValue "--date" args in
  let partyArg := flagValue "--party" args in
  let headless := negb (existsb (String.eqb "--no-headless") args) in
  let json := existsb (String.eqb "--json") args in
  let positionals := positionalsOf args in
  if hasHar then
    ret {| mode := HarMode;
           url := None;
           date := match dateArg with Some d => d | None => "" end;
           partySize := if given partyArg
                        then match partyArg with
                             | Some p => parseInt p
                             | None => Some 0
                             end
                        else Some 0;
           headless := true;
           json := json;
           harPath := harPath |}
  else if (Z.of_nat (length positionals) <? 3) then
    emit (ConsoleError usageLive) ;;;
    emit (ConsoleError usageHar) ;;;
    exit 1
  else
    ret {| mode := LiveMode;
           url := nth_error positionals 0;
           date := nth 1 positionals "";
           partySize := parseInt (nth 2 positionals "");
           headless := headless;
           json := json;
           harPath := None |}.

End WithParseInt.

(** An implementation of [parseInt(s, 10)] over the integer model, to run
    [parseArgs]: blanks are skipped, then an optional sign and the longest run
    of decimal digits is read; [NaN] when there is no digit. *)
Fixpoint skipBlanks (s : string) : string :=
  match s with
  | String c rest =>
      let n := nat_of_ascii c in
      if ((n =? 32) || ((9 <=? n) && (n <=? 13)))%nat then skipBlanks rest
      else s
  | EmptyString => s
  end.

Fixpoint digitsPrefix (s : string) (acc : Z) : Z :=
  match s with
  | String c rest =>
      if is_digit c then digitsPrefix rest (10 * acc + digit_value c) else acc
  | EmptyString => acc
  end.

Definition startsWithDigit (s : string) : bool :=
  match s with
  | String c _ => is_digit c
  | EmptyString => false
  end.

Definition parseInt10 (s : string) : num :=
  match skipBlanks s with
  | String "-" rest =>
      if startsWithDigit rest then Some (- digitsPrefix rest 0) else None
  | String "+" rest =>
      if startsWithDigit rest then Some (digitsPrefix rest 0) else None
  | t => if startsWithDigit t then Some (digitsPrefix t 0) else None
  end.

End Cli.

(* ================================================================== *)
(** * What is observed of a run *)
(* ================================================================== *)

Module Observed.

(** An event of the offline kind: something printed, nothing done to a
    browser or to the network. *)
Definition isOutput (ev : event) : bool :=
  match ev with
  | PrintResult _ _ _ | ConsoleError _ => true
  | _ => false
  end.

Definition isPrintResult (ev : event) : bool :=
  match ev with
  | PrintResult _ _ _ => true
  | _ => false
  end.

Definition isHttpPost (ev : event) : bool :=
  match ev with
  | HttpPost _ _ => true
  | _ => false
  end.

Definition isNavigate (ev : event) : bool :=
  match ev with
  | Navigate _ => true
  | _ => false
  end.

Definition isBrowserLaunch (ev : event) : bool :=
  match ev with
  | BrowserLaunch => true
  | _ => false
  end.

Definition isConsoleError (ev : event) : bool :=
  match ev with
  | ConsoleError _ => true
  | _ => false
  end.

Definition isBrowserClose (ev : event) : bool :=
  match ev with
  | BrowserClose _ => true
  | _ => false
  end.

(** How many events of a kind a trace holds. *)
Definition count (kind : event -> bool) (t : list event) : nat :=
  length (List.filter kind t).

(** The value of a header, by its exact name: the first entry of that name,
    as for any own property. *)
Fixpoint header (k : string) (hs : list (string * string)) : option string :=
  match hs with
  | [] => None
  | (k', v) :: rest => if (k =? k')%string then Some v else header k rest
  end.

(** A request the capture accepts: a POST whose URL names the operation, with
    a non-empty body. *)
Definition isQuery (req : Request) : bool :=
  (req_method req =? "POST")%string
  && str_includes "RestaurantsAvailability" (req_url req)
  && match req_postData req with
     | Some (String _ _) => true
     | _ => false
     end.

(** The response text of a HAR entry, [response.content.text]. *)
Definition responseText (e : value) : value :=
  opt_prop (opt_prop (opt_prop e "response") "content") "text".

(** What HAR mode reports for a response that does not decode, and for a log
    with no matching entry. *)
Definition parseFailure : event :=
  ConsoleError "Failed to parse HAR response:".

Definition noMatch : event :=
  ConsoleError "No matching RestaurantsAvailability entries in HAR.".

(** Whether a filter is set, the test of line 217, [filterDate || filterParty]. *)
Definition filtering (filterDate : string) (filterParty : Z) : bool :=
  negb (filterDate =? "")%string || negb (filterParty =? 0).

(** The runs of live mode, by where they end: what [runLiveMode] does, in
    order, and how it ends, for a page address, a date and an output
    format. *)
Inductive LiveRun (url date : string) (json : bool) : Proc unit -> Prop :=
| LaunchFailed (e : error) :
    LiveRun url date json ([], Raise e)
| PageFailed (e : error) :
    LiveRun url date json
      ([BrowserLaunch; BrowserClose AtCaptureCatch], Raise e)
| CaptureFailed (e : error) :
    LiveRun url date json
      ([BrowserLaunch; Navigate url; BrowserClose AtCaptureCatch], Raise e)
| CaptureUnhandled (e : error) :
    LiveRun url date json ([BrowserLaunch; Navigate url], Crash e)
| CapturedBodyInvalid :
    LiveRun url date json
      ([BrowserLaunch; Navigate url; BrowserClose AtInvalidBody;
        ConsoleError "Invalid captured request body."], Exit 1)
| MutationThrew (e : error) :
    LiveRun url date json ([BrowserLaunch; Navigate url], Raise e)
| PageGone :
    LiveRun url date json
      ([BrowserLaunch; Navigate url; ConsoleError "No page in context.";
        BrowserClose AtNoPage], Exit 1)
| ReplayThrew (data : string) (hs : list (string * string)) (e : error) :
    LiveRun url date json
      ([BrowserLaunch; Navigate url; HttpPost data hs;
        BrowserClose AtFinally], Raise e)
| ReplayRefused (data : string) (hs : list (string * string)) :
    LiveRun url date json
      ([BrowserLaunch; Navigate url; HttpPost data hs;
        ConsoleError "API request failed:"; BrowserClose AtHttpFailure],
       Exit 1)
| ResponseInvalid (data : string) (hs : list (string * string)) :
    LiveRun url date json
      ([BrowserLaunch; Navigate url; HttpPost data hs;
        ConsoleError "Invalid API response.";
        BrowserClose AtInvalidResponse], Exit 1)
| Printed (data : string) (hs : list (string * string))
    (slots : list DecodedSlot) :
    LiveRun url date json
      ([BrowserLaunch; Navigate url; HttpPost data hs;
        PrintResult slots (VStr date) json; BrowserClose AtFinally],
       Done tt).

End Observed.

Import Observed.

(** Command lines. *)
Definition harCommand : list string :=
  ["--har"; "capture.har"; "--date"; "2026-02-26"; "--party"; "4"; "--json"].

Definition liveCommand : list string :=
  [restaurantUrl; "2026-02-26"; "4"; "--no-headless"].

(* ================================================================== *)
(** * Properties of TimeCodec *)
(* ================================================================== *)

Section Enumeration.

(** A boolean property checked on [0 .. n-1] holds of every integer there. *)
Lemma forall_below (P : Z -> bool) (n : nat) :
  forallb P (map Z.of_nat (seq 0 n)) = true ->
  forall z, 0 <= z < Z.of_nat n -> P z = true.
Proof.
  intros H z Hz.
  rewrite forallb_forall in H.
  apply H, in_map_iff.
  exists (Z.to_nat z); split; [lia|].
  apply in_seq; lia.
Qed.

End Enumeration.

Lemma is_digit_char (c : ascii) :
  is_digit c = true ->
  0 <= digit_value c < 10 /\ c = digit_char (digit_value c).
Proof.
  unfold is_digit, digit_value, digit_char.
  intros H.
  apply andb_true_iff in H as [H1 H2].
  apply Nat.leb_le in H1, H2.
  split; [lia|].
  rewrite Nat2Z.id.
  replace (48 + (nat_of_ascii c - 48))%nat with (nat_of_ascii c) by lia.
  now rewrite ascii_nat_embedding.
Qed.

Lemma digit_char_not_colon (k : Z) :
  0 <= k < 10 -> Ascii.eqb (digit_char k) ":" = false.
Proof.
  intros Hk.
  apply (forall_below (fun k => negb (Ascii.eqb (digit_char k) ":")) 10) in Hk;
    [now apply negb_true_iff in Hk | reflexivity].
Qed.

Lemma split_time (a b d e : ascii) :
  is_digit a = true -> is_digit b = true ->
  is_digit d = true -> is_digit e = true ->
  split ":" (String a (String b (String ":" (String d (String e "")))))
  = [String a (String b ""); String d (String e "")].
Proof.
  intros Ha Hb Hd He.
  apply is_digit_char in Ha as [Ha1 Ha2], Hb as [Hb1 Hb2],
        Hd as [Hd1 Hd2], He as [He1 He2].
  pose proof (digit_char_not_colon _ Ha1) as Na.
  pose proof (digit_char_not_colon _ Hb1) as Nb.
  pose proof (digit_char_not_colon _ Hd1) as Nd.
  pose proof (digit_char_not_colon _ He1) as Ne.
  rewrite <- Ha2 in Na. rewrite <- Hb2 in Nb.
  rewrite <- Hd2 in Nd. rewrite <- He2 in Ne.
  cbn [split]. rewrite Na, Nb, Nd, Ne. reflexivity.
Qed.

Lemma Number_two_digits (a b : ascii) :
  is_digit a = true -> is_digit b = true ->
  Number (String a (String b "")) = Some (two_digit_value a b).
Proof.
  intros Ha Hb.
  apply is_digit_char in Ha as [Ha1 Ha2], Hb as [Hb1 Hb2].
  unfold two_digit_value.
  rewrite Ha2, Hb2 at 1.
  generalize dependent (digit_value b). generalize dependent (digit_value a).
  clear. intros x Hx _ y Hy _.
  pose proof (forall_below
    (fun x => forallb (fun y =>
       match Number (String (digit_char x) (String (digit_char y) "")) with
       | Some v => v =? 10 * x + y
       | None => false
       end) (map Z.of_nat (seq 0 10))) 10 eq_refl x Hx) as H.
  cbv beta in H.
  pose proof (forall_below _ 10 H y Hy) as H'. cbv beta in H'.
  destruct (Number _); [|discriminate].
  apply Z.eqb_eq in H'. now subst.
Qed.

(** The double remainder of the script is the mathematical [mod]. *)
Lemma double_rem (t : Z) :
  Z.rem (Z.rem t 1440 + 1440) 1440 = t mod 1440.
Proof.
  assert (B : - 1440 < Z.rem t 1440 < 1440).
  { destruct (Z_le_gt_dec 0 t) as [Hp | Hn].
    - pose proof (Z.rem_bound_pos t 1440 Hp ltac:(lia)); lia.
    - pose proof (Z.rem_bound_pos_neg t 1440 ltac:(lia) ltac:(lia)); lia. }
  rewrite Z.rem_mod_nonneg by lia.
  rewrite (Z.rem_eq t 1440) by lia.
  replace (t - 1440 * (t ÷ 1440) + 1440) with (t + (1 - t ÷ 1440) * 1440)
    by ring.
  now rewrite Z.mod_add by lia.
Qed.

(** Adding the remainder of the offset and one day to a time of day, as the
    specification writes the wrap, is the same [mod]. *)
Lemma rem_of_offset (base off : Z) :
  0 <= base ->
  Z.rem (base + Z.rem off 1440 + 1440) 1440 = (base + off) mod 1440.
Proof.
  intros Hb.
  assert (B : - 1440 < Z.rem off 1440 < 1440).
  { destruct (Z_le_gt_dec 0 off) as [Hp | Hn].
    - pose proof (Z.rem_bound_pos off 1440 Hp ltac:(lia)); lia.
    - pose proof (Z.rem_bound_pos_neg off 1440 ltac:(lia) ltac:(lia)); lia. }
  rewrite Z.rem_mod_nonneg by lia.
  rewrite (Z.rem_eq off 1440) by lia.
  replace (base + (off - 1440 * (off ÷ 1440)) + 1440)
    with (base + off + (1 - off ÷ 1440) * 1440) by ring.
  now rewrite Z.mod_add by lia.
Qed.

Lemma padStart2_two_digits (n : Z) :
  0 <= n < 100 -> padStart2 (String_of (Some n)) = two_digits n.
Proof.
  intros Hn.
  apply (forall_below
           (fun n => (padStart2 (String_of (Some n)) =? two_digits n)%string)
           100 eq_refl) in Hn.
  now apply String.eqb_eq in Hn.
Qed.

Lemma formatMinutes_wellFormed (w : Z) :
  0 <= w < 1440 -> wellFormed (formatMinutes w) = true.
Proof.
  intros Hw.
  now apply (forall_below (fun w => wellFormed (formatMinutes w)) 1440).
Qed.

(** On a well-formed base time the script computes the minute of the day
    [(baseHour * 60 + baseMinute + offset) mod 1440] and formats it. *)
Lemma wrappedTime_wellFormed (baseTime : string) (off : Z) :
  wellFormed baseTime = true ->
  wrappedTime baseTime off
  = formatMinutes ((baseHour baseTime * 60 + baseMinute baseTime + off) mod 1440).
Proof.
  intros H.
  destruct baseTime as [|a [|b [|c [|d [|e [|? ?]]]]]]; try discriminate.
  cbn [wellFormed] in H.
  do 6 (apply andb_true_iff in H; destruct H as [H ?]).
  match goal with Hc : Ascii.eqb c _ = true |- _ =>
    apply Ascii.eqb_eq in Hc; subst c end.
  unfold wrappedTime.
  rewrite split_time by assumption.
  cbn [map destructured nth].
  rewrite (Number_two_digits a b), (Number_two_digits d e) by assumption.
  cbn [baseHour baseMinute].
  set (t := two_digit_value a b * 60 + two_digit_value d e + off).
  cbn [num_add num_mul num_rem num_floor_div num_lift2].
  change (24 * 60) with 1440.
  fold t. rewrite double_rem.
  pose proof (Z.mod_pos_bound t 1440 ltac:(lia)) as Hw.
  set (w := t mod 1440) in *.
  rewrite (Z.rem_mod_nonneg w 60) by lia.
  assert (0 <= w / 60 < 24)
    by (split; [apply Z.div_pos; lia | apply Z.div_lt_upper_bound; lia]).
  pose proof (Z.mod_pos_bound w 60 ltac:(lia)).
  rewrite !padStart2_two_digits by lia.
  reflexivity.
Qed.

(** The hour and the minute of a well-formed time. *)
Lemma wellFormed_bounds (s : string) :
  wellFormed s = true ->
  0 <= baseHour s < 24 /\ 0 <= baseMinute s < 60.
Proof.
  intros H.
  destruct s as [|a [|b [|c [|d [|e [|? ?]]]]]]; try discriminate.
  cbn [wellFormed] in H.
  do 6 (apply andb_true_iff in H; destruct H as [H ?]).
  cbn [baseHour baseMinute].
  repeat match goal with
         | Hl : (_ <? _) = true |- _ => apply Z.ltb_lt in Hl
         end.
  unfold two_digit_value, digit_value in *. lia.
Qed.

Lemma MAX_SAFE_INTEGER_value : MAX_SAFE_INTEGER = 9007199254740991.
Proof. reflexivity. Qed.

(** On a well-formed base time, an offset within the bound keeps every number
    of the computation a safe integer. *)
Lemma exactOffset_exactTotal (baseTime : string) (off : Z) :
  wellFormed baseTime = true ->
  exactOffset off = true ->
  exactTotal (baseHour baseTime) (baseMinute baseTime) off = true.
Proof.
  intros H Hoff. destruct (wellFormed_bounds _ H) as [Hh Hm].
  unfold exactOffset in Hoff. apply Z.leb_le in Hoff.
  unfold exactTotal, safeInteger.
  rewrite MAX_SAFE_INTEGER_value in *.
  repeat (apply andb_true_iff; split); apply Z.leb_le; lia.
Qed.

(** C1. On every well-formed base time ["HH:MM"] and every integer offset
    of at most 2^53 - 1440 in absolute value, the range in which every number
    the script computes with is a safe integer and its binary64 arithmetic is
    the integers', [offsetToTime] returns the zero-padded hours and minutes
    of the wrapped minute of the day, whether the wrap is written as the
    script's double remainder of the total or with the remainder of the
    offset alone; the result is again a well-formed time in 00:00 .. 23:59;
    and the three sample conversions give 19:00, 01:00 and 23:30. *)
Theorem offsetToTime_wraps :
  (forall (baseTime : string) (offsetMinutes : Z),
      wellFormed baseTime = true ->
      exactOffset offsetMinutes = true ->
      let base := baseHour baseTime * 60 + baseMinute baseTime in
      let wrapped := Z.rem (Z.rem (base + offsetMinutes) 1440 + 1440) 1440 in
      offsetToTime (VStr baseTime) offsetMinutes = Ok (formatMinutes wrapped)
      /\ wrapped = Z.rem (base + Z.rem offsetMinutes 1440 + 1440) 1440
      /\ 0 <= wrapped < 1440
      /\ wellFormed (formatMinutes wrapped) = true
      /\ exactTotal (baseHour baseTime) (baseMinute baseTime) offsetMinutes
         = true)
  /\ offsetToTime (VStr "19:00") 0 = Ok "19:00"
  /\ offsetToTime (VStr "23:30") 90 = Ok "01:00"
  /\ offsetToTime (VStr "00:00") (-30) = Ok "23:30".
Proof.
  split; [|repeat split; reflexivity].
  intros baseTime off H Hoff base wrapped.
  assert (Hbase : 0 <= base).
  { subst base.
    destruct baseTime as [|a [|b [|c [|d [|e [|? ?]]]]]]; try discriminate.
    cbn [baseHour baseMinute]. unfold two_digit_value, digit_value. lia. }
  assert (Hw : wrapped = (base + off) mod 1440)
    by (subst wrapped; apply double_rem).
  pose proof (Z.mod_pos_bound (base + off) 1440 ltac:(lia)) as Hb.
  repeat split.
  - cbn [offsetToTime]. rewrite wrappedTime_wellFormed by assumption.
    fold base. now rewrite Hw.
  - rewrite Hw. symmetry. now apply rem_of_offset.
  - lia.
  - lia.
  - apply formatMinutes_wellFormed. lia.
  - now apply exactOffset_exactTotal.
Qed.

Lemma offsetToTime_wraps_witness :
  wellFormed "22:45" = true
  /\ exactOffset (-3000) = true
  /\ offsetToTime (VStr "22:45") (-3000) = Ok "20:45".
Proof.
  split; [reflexivity|]. split; [reflexivity|].
  exact (proj1 (proj1 offsetToTime_wraps "22:45" (-3000) eq_refl eq_refl)).
Defined.

(* ================================================================== *)
(** * Properties of SlotDecoder *)
(* ================================================================== *)

Lemma prop_opt_prop (v : value) (k : string) :
  nullish v = false -> prop v k = Ok (opt_prop v k).
Proof. destruct v; cbn; intros H; try discriminate; reflexivity. Qed.

Lemma coalesce_nullish (a b : value) :
  nullish a = true -> coalesce a b = b.
Proof. unfold coalesce. now intros ->. Qed.

(** The days the code works on are those of the specification's path. *)
Lemma availabilityDays_path (res : value) :
  nullish res = false ->
  availabilityDays res = Ok (coalesce (firstAvailabilityDays res) (VArr [])).
Proof.
  intros H. unfold availabilityDays, firstAvailabilityDays.
  now rewrite prop_opt_prop.
Qed.

Lemma isDay0_total (d : value) :
  nullish d = false -> isDay0 d = Ok (dayOffsetIs0 d).
Proof.
  intros H. unfold isDay0, dayOffsetIs0. now rewrite prop_opt_prop.
Qed.

Lemma dayOffsetIs0_not_nullish (d : value) :
  dayOffsetIs0 d = true -> nullish d = false.
Proof. destruct d; cbn; intros; try discriminate; reflexivity. Qed.

(** [find] with the callback of the script stops at the first day whose
    offset is 0. *)
Lemma find_elems_day0 (days : list value) :
  Forall (fun d => nullish d = false) days ->
  (exists before d after,
      days = (before ++ d :: after)%list
      /\ dayOffsetIs0 d = true
      /\ Forall (fun x => dayOffsetIs0 x = false) before
      /\ find_elems isDay0 days = Ok d)
  \/ (Forall (fun x => dayOffsetIs0 x = false) days
      /\ find_elems isDay0 days = Ok VUndef).
Proof.
  induction 1 as [|d days Hd _ IH].
  - right. split; [constructor | reflexivity].
  - cbn [find_elems]. rewrite (isDay0_total _ Hd). cbn [bind].
    destruct (dayOffsetIs0 d) eqn:E.
    + left. exists [], d, days. repeat split; auto.
    + destruct IH as [(before & d' & after & -> & H0 & Hb & Hf) | [Hall Hf]].
      * left. exists (d :: before), d', after. repeat split; auto.
      * right. split; [constructor; assumption | assumption].
Qed.

(** The selected day is determined by the sequence. *)
Lemma Selected_functional (days : list value) (d1 d2 : value) :
  Selected days d1 -> Selected days d2 -> d1 = d2.
Proof.
  intros H1 H2.
  assert (first0 : forall before d after before' d' after',
    (before ++ d :: after = before' ++ d' :: after')%list ->
    dayOffsetIs0 d = true -> dayOffsetIs0 d' = true ->
    Forall (fun x => dayOffsetIs0 x = false) before ->
    Forall (fun x => dayOffsetIs0 x = false) before' ->
    d = d').
  { induction before as [|x before IH]; intros d after [|x' before'] d' after'
      E T T' F F'; cbn in E; inversion E; subst; auto.
    - inversion F'; congruence.
    - inversion F; congruence.
    - inversion F; inversion F'; subst. eapply IH; eauto. }
  assert (none0 : forall before d after,
    Forall (fun x => dayOffsetIs0 x = false) (before ++ d :: after)%list ->
    dayOffsetIs0 d = true -> False).
  { intros before d after F T.
    apply Forall_app in F as [_ F]. inversion F; congruence. }
  destruct H1 as [b1 a1 d1 E1 T1 F1 | F1], H2 as [b2 a2 d2 E2 T2 F2 | F2].
  - subst days. eapply first0; eauto.
  - subst days. exfalso. eapply none0; eauto.
  - subst days. exfalso. eapply none0; eauto.
  - reflexivity.
Qed.

(** Line 122 picks the day the selection rule names. *)
Lemma selectDay0_Selected (days : list value) :
  Forall (fun d => nullish d = false) days ->
  exists day0, Selected days day0 /\ selectDay0 (VArr days) = Ok day0.
Proof.
  intros Hdays. unfold selectDay0. cbn [find].
  destruct (find_elems_day0 days Hdays)
    as [(before & d & after & E & H0 & Hb & Hf) | [Hall Hf]];
    rewrite Hf; cbn [bind].
  - exists d. rewrite (dayOffsetIs0_not_nullish _ H0).
    split; [econstructor; eassumption | reflexivity].
  - exists (hd VUndef days). split; [now constructor | reflexivity].
Qed.

Lemma extractSlots_unfold (res baseTime requestedDate : value)
  (days : list value) :
  nullish res = false ->
  firstAvailabilityDays res = VArr days
  \/ (nullish (firstAvailabilityDays res) = true /\ days = []) ->
  Forall (fun d => nullish d = false) days ->
  exists day0,
    Selected days day0
    /\ extractSlots res baseTime requestedDate = decodeDay day0 baseTime.
Proof.
  intros Hres Hpath Hdays.
  destruct (selectDay0_Selected days Hdays) as (day0 & Hsel & Hcode).
  exists day0. split; [assumption|].
  unfold extractSlots. rewrite (availabilityDays_path _ Hres).
  assert (E : coalesce (firstAvailabilityDays res) (VArr []) = VArr days).
  { destruct Hpath as [-> | [Hn ->]];
      [reflexivity | now apply coalesce_nullish]. }
  rewrite E. cbn [bind]. now rewrite Hcode.
Qed.

(** C3. For every availability response, [extractSlots] decodes the day
    selected from the first availability element's [availabilityDays]: the day
    whose [dayOffset] is 0 if there is one, otherwise the first day of the
    sequence. (An absent sequence counts as the empty one.) *)
Theorem extractSlots_selects_day0 :
  forall (res baseTime requestedDate : value) (days : list value),
    nullish res = false ->
    firstAvailabilityDays res = VArr days
    \/ (nullish (firstAvailabilityDays res) = true /\ days = []) ->
    Forall (fun d => nullish d = false) days ->
    exists day0,
      Selected days day0
      /\ (forall d, Selected days d -> d = day0)
      /\ extractSlots res baseTime requestedDate = decodeDay day0 baseTime.
Proof.
  intros res baseTime requestedDate days Hres Hpath Hdays.
  destruct (extractSlots_unfold res baseTime requestedDate days Hres Hpath Hdays)
    as (day0 & Hsel & Hcode).
  exists day0. repeat split; try assumption.
  intros d Hd. eapply Selected_functional; eassumption.
Qed.

Lemma extractSlots_selects_day0_witness :
  exists day0,
    dayOffsetIs0 day0 = true
    /\ extractSlots sampleResponse (VStr "19:00") (VStr "2026-02-26")
       = decodeDay day0 (VStr "19:00").
Proof.
  destruct (extractSlots_selects_day0 sampleResponse (VStr "19:00")
              (VStr "2026-02-26") _ eq_refl (or_introl eq_refl))
    as (day0 & Hsel & _ & Hcode).
  - repeat constructor.
  - exists day0. split; [|exact Hcode].
    assert (E : sampleDay0 = day0).
    { eapply Selected_functional; [|exact Hsel].
      eapply (SelectedDay0 _ [_] [] sampleDay0); [reflexivity | reflexivity |].
      repeat constructor. }
    now rewrite <- E.
Defined.

Lemma decodeDay_no_slots (day0 baseTime : value) :
  hasNoSlots day0 -> decodeDay day0 baseTime = Ok [].
Proof.
  unfold hasNoSlots, decodeDay. intros [H | H].
  - destruct (opt_prop day0 "slots"); try discriminate; reflexivity.
  - rewrite H. cbn [truthy negb].
    destruct day0; try discriminate. cbn in *. now rewrite H.
Qed.

(** C7. For every response whose [availabilityDays] is absent or empty, or
    whose selected day has no slots, [extractSlots] returns the empty
    sequence: it returns, and does not throw. *)
Theorem extractSlots_empty :
  forall (res baseTime requestedDate : value),
    nullish res = false ->
    nullish (firstAvailabilityDays res) = true
    \/ firstAvailabilityDays res = VArr []
    \/ (exists days day0,
           firstAvailabilityDays res = VArr days
           /\ Forall (fun d => nullish d = false) days
           /\ Selected days day0
           /\ hasNoSlots day0) ->
    extractSlots res baseTime requestedDate = Ok [].
Proof.
  intros res baseTime requestedDate Hres [Habsent | [Hempty | Hday]].
  - destruct (extractSlots_unfold res baseTime requestedDate [] Hres)
      as (day0 & Hsel & ->); [right; auto | constructor |].
    rewrite (Selected_functional _ _ _ Hsel (SelectedFirst [] (Forall_nil _))).
    reflexivity.
  - destruct (extractSlots_unfold res baseTime requestedDate [] Hres)
      as (day0 & Hsel & ->); [left; auto | constructor |].
    rewrite (Selected_functional _ _ _ Hsel (SelectedFirst [] (Forall_nil _))).
    reflexivity.
  - destruct Hday as (days & day0 & Hpath & Hdays & Hsel & Hno).
    destruct (extractSlots_unfold res baseTime requestedDate days Hres)
      as (day0' & Hsel' & ->); [left; auto | assumption |].
    rewrite (Selected_functional _ _ _ Hsel' Hsel).
    now apply decodeDay_no_slots.
Qed.

Lemma dayWithoutSlots_selected :
  Selected [sampleDay1; dayWithoutSlots] dayWithoutSlots.
Proof.
  apply (SelectedDay0 _ [sampleDay1] [] dayWithoutSlots);
    [reflexivity | reflexivity | repeat constructor].
Qed.

Lemma extractSlots_empty_witness :
  extractSlots emptyResponse (VStr "19:00") (VStr "2026-02-26") = Ok []
  /\ extractSlots noDaysResponse (VStr "19:00") (VStr "2026-02-26") = Ok []
  /\ extractSlots noSlotsResponse (VStr "19:00") (VStr "2026-02-26") = Ok [].
Proof.
  split; [|split].
  - apply extractSlots_empty; [reflexivity | left; reflexivity].
  - apply extractSlots_empty; [reflexivity | right; left; reflexivity].
  - apply extractSlots_empty; [reflexivity | right; right].
    exists [sampleDay1; dayWithoutSlots], dayWithoutSlots.
    split; [reflexivity|].
    split; [repeat constructor|].
    split; [exact dayWithoutSlots_selected | left; reflexivity].
Defined.

Lemma typeOrStandard_coalesce (slot : value) :
  coalesce (opt_prop slot "type") (VStr "Standard") = typeOrStandard slot.
Proof.
  unfold typeOrStandard, coalesce.
  destruct (opt_prop slot "type"); reflexivity.
Qed.

(** One turn of the loop on a conforming slot: the slot is pushed, decoded,
    exactly when the filtering rule includes it. *)
Lemma pushSlot_conforming (baseTime : string) (acc : list DecodedSlot)
  (slot : value) :
  slotConforms slot = true ->
  pushSlot (VStr baseTime) acc slot
  = Ok (if included slot then (acc ++ [decoded baseTime slot])%list else acc).
Proof.
  intros Hc. destruct slot; try discriminate.
  unfold pushSlot, included, decoded.
  cbn [prop bind]. cbn [slotConforms] in Hc.
  rewrite <- typeOrStandard_coalesce.
  cbn [opt_prop] in *.
  destruct (assoc "isAvailable" props) as [| |[|]| | | |];
    try discriminate; cbn [truthy]; try reflexivity.
  destruct (assoc "timeOffsetMinutes" props); reflexivity.
Qed.

Lemma for_of_pushSlot (baseTime : string) (slots : list value) :
  Forall (fun s => slotConforms s = true) slots ->
  forall acc,
    for_of (pushSlot (VStr baseTime)) slots acc
    = Ok (acc ++ map (decoded baseTime) (List.filter included slots))%list.
Proof.
  induction 1 as [|slot slots Hs _ IH]; intros acc; cbn [for_of].
  - cbn. now rewrite app_nil_r.
  - rewrite (pushSlot_conforming _ _ _ Hs). cbn [bind List.filter].
    rewrite IH. destruct (included slot); [|reflexivity].
    cbn [map]. now rewrite <- app_assoc.
Qed.

Lemma decodeDay_slots (day0 : value) (baseTime : string)
  (slots : list value) :
  opt_prop day0 "slots" = VArr slots ->
  Forall (fun s => slotConforms s = true) slots ->
  decodeDay day0 (VStr baseTime)
  = Ok (map (decoded baseTime) (List.filter included slots)).
Proof.
  intros Hslots Hconf. unfold decodeDay. rewrite Hslots. cbn [truthy negb].
  destruct day0; try discriminate. cbn in Hslots |- *. rewrite Hslots.
  cbn [iterate bind]. now rewrite for_of_pushSlot.
Qed.

(** C2. For every availability response, the output of [extractSlots] is the
    selected day's slots, in their input order, restricted to those whose
    [isAvailable] is true and whose [timeOffsetMinutes] is present and a
    number, each decoded with its own type, or ["Standard"] when it has none.
    On the sample response with base time 19:00 the output is exactly
    [{time: "19:00", type: "Standard"}]. *)
Theorem extractSlots_filters_in_order :
  (forall (res requestedDate : value) (baseTime : string)
          (days : list value) (day0 : value) (slots : list value),
      nullish res = false ->
      firstAvailabilityDays res = VArr days ->
      Forall (fun d => nullish d = false) days ->
      Selected days day0 ->
      opt_prop day0 "slots" = VArr slots ->
      Forall (fun s => slotConforms s = true) slots ->
      extractSlots res (VStr baseTime) requestedDate
      = Ok (map (decoded baseTime) (List.filter included slots)))
  /\ (forall requestedDate : value,
         extractSlots sampleResponse (VStr "19:00") requestedDate
         = Ok [{| time := "19:00"; type := VStr "Standard" |}]).
Proof.
  split; [|reflexivity].
  intros res requestedDate baseTime days day0 slots
         Hres Hpath Hdays Hsel Hslots Hconf.
  destruct (extractSlots_unfold res (VStr baseTime) requestedDate days Hres)
    as (day0' & Hsel' & ->); [left; auto | assumption |].
  rewrite (Selected_functional _ _ _ Hsel' Hsel).
  now apply decodeDay_slots.
Qed.

Lemma extractSlots_filters_in_order_witness :
  extractSlots sampleResponse (VStr "23:30") (VStr "2026-02-26")
  = Ok [{| time := "23:30"; type := VStr "Standard" |}].
Proof.
  refine (proj1 extractSlots_filters_in_order sampleResponse _ "23:30"
            [sampleDay1; sampleDay0] sampleDay0 _
            eq_refl eq_refl _ _ eq_refl _).
  - repeat constructor.
  - apply (SelectedDay0 _ [sampleDay1] [] sampleDay0);
      [reflexivity | reflexivity | repeat constructor].
  - repeat constructor.
Defined.

(** Outside the declared response type: the JSON text [null] parses, and
    reading [res.data] from it throws. *)
Example extractSlots_null_response :
  extractSlots VNull (VStr "19:00") (VStr "2026-02-26") = Throw TypeError.
Proof. reflexivity. Qed.

(** Likewise a [null] listed among the days before the day at offset 0. *)
Example extractSlots_null_day :
  extractSlots
    (VObj [("data", VObj [("availability", VArr [VObj [
       ("availabilityDays", VArr [VNull; sampleDay0])]])])])
    (VStr "19:00") (VStr "2026-02-26")
  = Throw TypeError.
Proof. reflexivity. Qed.

(** C9. The result of [extractSlots] does not depend on its [requestedDate]
    argument: for every response and base time, any two dates give the same
    outcome, thrown errors included. *)
Theorem extractSlots_ignores_requestedDate :
  forall (res baseTime date1 date2 : value),
    extractSlots res baseTime date1 = extractSlots res baseTime date2.
Proof.
  intros res baseTime date1 date2.
  unfold extractSlots.
  destruct (availabilityDays res) as [days|e]; [|reflexivity].
  cbn [bind]. destruct (selectDay0 days); reflexivity.
Qed.

(* ================================================================== *)
(** * Properties of HarSource *)
(* ================================================================== *)









Example sampleBody_parses :
  Json.parse (VStr sampleBody) = Ok (VObj sampleBodyProps).
Proof. vm_compute. reflexivity. Qed.

Section BaseTime.

Variable JSON_parse : value -> result value.

(** An entry without request body text leaves the base time as the entries
    before it left it. *)
Lemma updateBaseTime_without_body (entry baseTime : value) :
  bodyMissing entry = true ->
  updateBaseTime JSON_parse entry baseTime = baseTime.
Proof.
  unfold bodyMissing, requestBodyText, updateBaseTime. intros H.
  destruct entry; try reflexivity.
  cbn [prop bind opt_prop] in *.
  apply negb_true_iff in H. now rewrite H.
Qed.

(** So does an entry whose body names no time. *)
Lemma updateBaseTime_without_time (entry baseTime parsed : value) :
  truthy (requestBodyText entry) = true ->
  JSON_parse (requestBodyText entry) = Ok parsed ->
  truthy (opt_prop (opt_prop parsed "variables") "time") = false ->
  updateBaseTime JSON_parse entry baseTime = baseTime.
Proof.
  unfold requestBodyText, updateBaseTime. intros Hbody Hparse Htime.
  destruct entry; try reflexivity.
  cbn [prop bind opt_prop] in *. rewrite Hbody, Hparse. cbn [bind].
  destruct parsed; try reflexivity.
  cbn [prop bind opt_prop] in *. now rewrite Htime.
Qed.

(** An entry whose body names a time sets the base time to it. *)
Lemma updateBaseTime_own_time (entry baseTime parsed : value) :
  truthy (requestBodyText entry) = true ->
  JSON_parse (requestBodyText entry) = Ok parsed ->
  truthy (opt_prop (opt_prop parsed "variables") "time") = true ->
  updateBaseTime JSON_parse entry baseTime
  = opt_prop (opt_prop parsed "variables") "time".
Proof.
  unfold requestBodyText, updateBaseTime. intros Hbody Hparse Htime.
  destruct entry; try discriminate.
  cbn [prop bind opt_prop] in *. rewrite Hbody, Hparse. cbn [bind].
  destruct parsed; try discriminate.
  cbn [prop bind opt_prop] in *. now rewrite Htime.
Qed.

End BaseTime.

(** C5, what the code does at the failing input. The log has three matching
    entries and no filter is set. The first request asks for 18:00; the second
    names no time and the third has no request body, so the base time of each,
    taken from its own request, is the default 19:00, against which the slot
    at offset 0 reads 19:00. The run decodes all three responses against
    18:00: the base time set by the first entry is still there when the later
    ones are decoded. *)
Theorem harLoop_carries_baseTime :
  updateBaseTime Json.parse entryWithoutTime (VStr "19:00") = VStr "19:00"
  /\ updateBaseTime Json.parse entryWithoutBody (VStr "19:00") = VStr "19:00"
  /\ extractSlots sampleResponse (VStr "19:00") (VStr "")
     = Ok [{| time := "19:00"; type := VStr "Standard" |}]
  /\ runHarMode Json.parse sampleFiles "capture.har" "" 0 false
     = ([PrintResult [{| time := "18:00"; type := VStr "Standard" |}]
                     (VStr "2026-02-26") false;
         PrintResult [{| time := "18:00"; type := VStr "Standard" |}]
                     (VStr "2026-02-27") false;
         PrintResult [{| time := "18:00"; type := VStr "Standard" |}]
                     (VStr "date-unknown") false],
        Done tt).
Proof.
  repeat split; vm_compute; reflexivity.
Qed.

(* ================================================================== *)
(** * Properties of the mutation *)
(* ================================================================== *)

Section Merge.

Lemma assoc_set_prop_same (k : string) (v : value)
  (props : list (string * value)) :
  assoc k (set_prop k v props) = v.
Proof.
  induction props as [|[k' v'] props IH]; cbn.
  - now rewrite String.eqb_refl.
  - destruct (k =? k')%string eqn:E; cbn.
    + now rewrite String.eqb_refl.
    + now rewrite E.
Qed.

Lemma assoc_set_prop_other (k k' : string) (v : value)
  (props : list (string * value)) :
  k <> k' -> assoc k (set_prop k' v props) = assoc k props.
Proof.
  intros Hne. apply String.eqb_neq in Hne.
  induction props as [|[k2 v2] props IH]; cbn.
  - now rewrite Hne.
  - destruct (k' =? k2)%string eqn:E; cbn.
    + apply String.eqb_eq in E. subst k2. now rewrite Hne.
    + now rewrite IH.
Qed.

(** Writing [news] over [old] leaves every key that [news] does not name as
    it was. *)
Lemma assoc_set_props_other (k : string) (news old : list (string * value)) :
  ~ In k (map fst news) -> assoc k (set_props news old) = assoc k old.
Proof.
  unfold set_props. revert old.
  induction news as [|[k' v'] news IH]; intros old Hnot; cbn.
  - reflexivity.
  - rewrite IH by (intros H; apply Hnot; now right).
    apply assoc_set_prop_other. intros ->. apply Hnot. now left.
Qed.

(** Writing [news], whose keys are distinct, over [old] gives every key of
    [news] its new value. *)
Lemma assoc_set_props_new (k : string) (v : value)
  (news old : list (string * value)) :
  NoDup (map fst news) -> In (k, v) news ->
  assoc k (set_props news old) = v.
Proof.
  unfold set_props. revert old.
  induction news as [|[k' v'] news IH]; intros old Hnd Hin; cbn.
  - destruct Hin.
  - inversion Hnd as [|? ? Hk' Hnd']; subst.
    destruct Hin as [E | Hin].
    + inversion E; subst.
      change (assoc k (set_props news (set_prop k v old)) = v).
      rewrite assoc_set_props_other by assumption.
      apply assoc_set_prop_same.
    + now apply IH.
Qed.

End Merge.

Lemma newVariables_object (props : list (string * value)) (date : string)
  (partySize : Z) :
  newVariables (VObj props) date partySize
  = Ok (VObj (set_props
                [("date", VStr date);
                 ("partySize", VNum partySize);
                 ("forwardMinutes", VNum 295);
                 ("backwardMinutes", VNum 1140);
                 ("forwardTimeslots", VNum 20);
                 ("backwardTimeslots", VNum 76)]
                (spread (assoc "variables" props)))).
Proof. reflexivity. Qed.

(* ================================================================== *)
(** * Properties of the live pipeline *)
(* ================================================================== *)

Lemma capturePromise_body (requests : list Request) (captured : Captured) :
  capturePromise requests = Ok captured ->
  (Live.body captured =? "")%string = false.
Proof.
  induction requests as [|req requests IH]; cbn [capturePromise].
  - discriminate.
  - unfold onRequest.
    destruct (negb (req_method req =? "POST")%string); [exact IH|].
    destruct (negb (str_includes "RestaurantsAvailability" (req_url req)));
      [exact IH|].
    destruct (req_postData req) as [[|c postData]|]; try exact IH.
    intros H. inversion H; subst. reflexivity.
Qed.

(** The capture is only ever rejected by its timer. *)
Lemma capturePromise_timeout (requests : list Request) (e : error) :
  capturePromise requests = Throw e -> e = Error timeoutMessage.
Proof.
  induction requests as [|req requests IH]; cbn [capturePromise].
  - now intros [= <-].
  - destruct (onRequest req); [discriminate | exact IH].
Qed.

Section LiveRuns.

Variable JSON_parse : value -> result value.
Variable JSON_stringify : value -> string.
Variable engine : Engine.
Variables url date : string.
Variable partySize : Z.
Variables headless json : bool.

Lemma captureRequest_resolved (captured : Captured) :
  newPage engine = Ok tt ->
  capturePromise (observed engine url) = Ok captured ->
  captureRequest engine url = ([Navigate url], Done captured).
Proof.
  intros Hpage Hcap. unfold captureRequest. now rewrite Hpage, Hcap.
Qed.

(** The timer rejects the capture while the script awaits it. *)
Lemma captureRequest_rejected (e : error) :
  newPage engine = Ok tt ->
  capturePromise (observed engine url) = Throw e ->
  gotoSettled engine url = true ->
  captureRequest engine url
  = ([Navigate url; BrowserClose AtCaptureCatch], Raise e).
Proof.
  intros Hpage Hcap Hgoto. unfold captureRequest.
  now rewrite Hpage, Hcap, Hgoto.
Qed.

(** The timer rejects the capture while the navigation is pending. *)
Lemma captureRequest_unhandled (e : error) :
  newPage engine = Ok tt ->
  capturePromise (observed engine url) = Throw e ->
  gotoSettled engine url = false ->
  captureRequest engine url = ([Navigate url], Crash e).
Proof.
  intros Hpage Hcap Hgoto. unfold captureRequest.
  now rewrite Hpage, Hcap, Hgoto.
Qed.

(** A run that reaches the replayed call is the replay block after the
    launch and the capture. *)
Lemma runLiveMode_replayed (variables : value) (response : Response) :
  Replayed JSON_parse JSON_stringify engine url date partySize headless
           variables response ->
  exists captured body',
    post engine GQL_URL (JSON_stringify body')
         (replayHeaders url (headers captured))
    = Ok response
    /\ pageOpen engine = true
    /\ runLiveMode JSON_parse JSON_stringify engine url date partySize
                   headless json
       = after [BrowserLaunch; Navigate url]
               (replay JSON_parse engine url date json (headers captured)
                       variables (JSON_stringify body')).
Proof.
  intros ([Hlaunch Hpage] & captured & body & body' & Hcap & Hparse & Hvars
          & Hassign & Hopen & Hpost).
  exists captured, body'. split; [exact Hpost|]. split; [exact Hopen|].
  unfold runLiveMode.
  rewrite Hlaunch, (captureRequest_resolved _ Hpage Hcap).
  cbn [pbind fst snd after app].
  rewrite (capturePromise_body _ _ Hcap), Hparse. cbn [lift ret try_catch snd pbind fst after app].
  rewrite Hvars. cbn [lift ret try_catch snd pbind fst after app].
  rewrite Hassign. cbn [lift ret try_catch snd pbind fst after app].
  reflexivity.
Qed.

Lemma newVariables_is_object (body variables : value) :
  newVariables body date partySize = Ok variables ->
  nullish variables = false.
Proof.
  unfold newVariables. destruct (prop body "variables"); cbn [bind].
  - intros H. inversion H. reflexivity.
  - discriminate.
Qed.

Lemma Replayed_variables (variables : value) (response : Response) :
  Replayed JSON_parse JSON_stringify engine url date partySize headless
           variables response ->
  nullish variables = false.
Proof.
  intros (_ & captured & body & body' & _ & _ & Hvars & _).
  eapply newVariables_is_object; eassumption.
Qed.

Lemma replay_http_failure (capturedHeaders : list (string * string))
  (variables : value) (requestBody : string) (response : Response) :
  pageOpen engine = true ->
  post engine GQL_URL requestBody (replayHeaders url capturedHeaders)
  = Ok response ->
  ok response = false ->
  replay JSON_parse engine url date json capturedHeaders variables requestBody
  = ([HttpPost requestBody (replayHeaders url capturedHeaders);
      ConsoleError "API request failed:";
      BrowserClose AtHttpFailure],
     Exit 1).
Proof.
  intros Hopen Hpost Hok. unfold replay.
  rewrite Hopen, Hpost. cbn [negb lift ret emit pbind fst snd after app].
  rewrite Hok. reflexivity.
Qed.

Lemma replay_invalid_response (capturedHeaders : list (string * string))
  (variables : value) (requestBody : string) (response : Response)
  (e : error) :
  pageOpen engine = true ->
  post engine GQL_URL requestBody (replayHeaders url capturedHeaders)
  = Ok response ->
  ok response = true ->
  JSON_parse (VStr (text response)) = Throw e ->
  replay JSON_parse engine url date json capturedHeaders variables requestBody
  = ([HttpPost requestBody (replayHeaders url capturedHeaders);
      ConsoleError "Invalid API response.";
      BrowserClose AtInvalidResponse],
     Exit 1).
Proof.
  intros Hopen Hpost Hok Hparse. unfold replay.
  rewrite Hopen, Hpost. cbn [negb lift ret emit pbind fst snd after app].
  rewrite Hok. cbn [negb]. rewrite Hparse. reflexivity.
Qed.

Lemma replay_success (capturedHeaders : list (string * string))
  (variables : value) (requestBody : string) (response : Response)
  (res : value) (slots : list DecodedSlot) :
  pageOpen engine = true ->
  post engine GQL_URL requestBody (replayHeaders url capturedHeaders)
  = Ok response ->
  ok response = true ->
  JSON_parse (VStr (text response)) = Ok res ->
  nullish variables = false ->
  extractSlots res (coalesce (opt_prop variables "time") (VStr "19:00"))
               (VStr date)
  = Ok slots ->
  replay JSON_parse engine url date json capturedHeaders variables requestBody
  = ([HttpPost requestBody (replayHeaders url capturedHeaders);
      PrintResult slots (VStr date) json;
      BrowserClose AtFinally],
     Done tt).
Proof.
  intros Hopen Hpost Hok Hparse Hvars Hslots. unfold replay.
  rewrite Hopen, Hpost. cbn [negb lift ret emit pbind fst snd after app].
  rewrite Hok. cbn [negb]. rewrite Hparse.
  cbn [lift ret try_catch pbind fst snd after app].
  rewrite (prop_opt_prop _ _ Hvars).
  cbn [lift ret try_catch pbind fst snd after app].
  rewrite Hslots. reflexivity.
Qed.

End LiveRuns.

(** One step of a run: the plumbing of [Proc] computed away. *)
Ltac simp_run :=
  cbn [pbind fst snd after app lift ret emit raise crash exit try_catch
       try_finally negb].

Section LiveRunsInGeneral.

Variable JSON_parse : value -> result value.
Variable JSON_stringify : value -> string.
Variable engine : Engine.
Variables url date : string.
Variable partySize : Z.
Variables headless json : bool.

(** The launch either acquires the browser or throws without one. *)
Lemma launchBrowser_cases :
  launchBrowser engine headless = ([BrowserLaunch], Done tt)
  \/ exists e, launchBrowser engine headless = ([], Raise e).
Proof.
  unfold launchBrowser.
  destruct (launch engine headless None) as [[]|e] eqn:E1; cbn.
  - now left.
  - destruct (str_includes _ _); cbn.
    + destruct (launch engine headless (Some "chrome")) as [[]|e'] eqn:E2; cbn.
      * now left.
      * right. now exists e.
    + right. now exists e.
Qed.

(** X21. No run closes the browser twice, on any path and whatever the
    engine and the parser do. *)
Lemma runLiveMode_closes_at_most_once :
  (length (closes (fst (runLiveMode JSON_parse JSON_stringify engine url date
                          partySize headless json))) <= 1)%nat.
Proof.
  unfold runLiveMode.
  destruct launchBrowser_cases as [-> | [e ->]]; [|cbn; lia].
  unfold captureRequest, replay.
  cbn [pbind fst snd after app].
  destruct (newPage engine) as [[]|]; [|cbn; lia]. cbn.
  destruct (capturePromise (observed engine url)) as [captured|];
    [|destruct (gotoSettled engine url); cbn; lia]. cbn.
  destruct (Live.body captured =? "")%string; [cbn; lia|].
  destruct (JSON_parse (VStr (Live.body captured))) as [body|];
    [|cbn; lia]. cbn.
  destruct (newVariables body date partySize) as [variables|];
    [|cbn; lia]. cbn.
  destruct (assignVariables body variables) as [body'|]; [|cbn; lia]. cbn.
  destruct (pageOpen engine); [|cbn; lia]. cbn.
  destruct (post engine _ _ _) as [response|]; [|cbn; lia]. cbn.
  destruct (ok response); [|cbn; lia]. cbn.
  destruct (JSON_parse (VStr (text response))) as [res|]; [|cbn; lia]. cbn.
  destruct (prop variables "time") as [time|]; [|cbn; lia]. cbn.
  destruct (extractSlots res _ _); cbn; lia.
Qed.

(** X22. A run that ends with the browser launched and never closed is of one
    of two kinds. Either the capture resolved, the captured body parsed and
    the mutation of the body threw, and the run ends with that exception; or
    the capture timer fired while the navigation was still pending, and the
    run ends there with the process, on the timeout error. *)
Lemma runLiveMode_unclosed :
  In BrowserLaunch (fst (runLiveMode JSON_parse JSON_stringify engine url date
                           partySize headless json)) ->
  closes (fst (runLiveMode JSON_parse JSON_stringify engine url date
                 partySize headless json)) = [] ->
  (exists captured body e,
      capturePromise (observed engine url) = Ok captured
      /\ JSON_parse (VStr (Live.body captured)) = Ok body
      /\ mutate body date partySize = Throw e
      /\ snd (runLiveMode JSON_parse JSON_stringify engine url date
                partySize headless json) = Raise e)
  \/ (capturePromise (observed engine url) = Throw (Error timeoutMessage)
      /\ gotoSettled engine url = false
      /\ snd (runLiveMode JSON_parse JSON_stringify engine url date
                partySize headless json) = Crash (Error timeoutMessage)).
Proof.
  unfold runLiveMode, mutate.
  destruct launchBrowser_cases as [-> | [e ->]]; [|cbn; tauto].
  unfold captureRequest, replay.
  cbn [pbind fst snd after app].
  destruct (newPage engine) as [[]|]; [|cbn; intros _ Hc; discriminate Hc]. cbn.
  destruct (capturePromise (observed engine url)) as [captured|e] eqn:Hcap.
  2:{ rewrite (capturePromise_timeout _ _ Hcap).
      destruct (gotoSettled engine url); cbn;
        [intros _ Hc; discriminate Hc|].
      intros _ _. right. repeat split. }
  cbn.
  destruct (Live.body captured =? "")%string; [cbn; intros _ Hc; discriminate Hc|].
  destruct (JSON_parse (VStr (Live.body captured))) as [body|] eqn:Hparse;
    [|cbn; intros _ Hc; discriminate Hc]. cbn.
  destruct (newVariables body date partySize) as [variables|] eqn:Hvars; cbn.
  2:{ intros _ _. left. exists captured, body, e.
      rewrite Hvars. repeat split; assumption. }
  destruct (assignVariables body variables) as [body'|] eqn:Hassign; cbn.
  2:{ intros _ _. left. exists captured, body, e.
      rewrite Hvars. cbn [bind]. repeat split; assumption. }
  destruct (pageOpen engine); [|cbn; intros _ Hc; discriminate Hc]. cbn.
  destruct (post engine _ _ _) as [response|]; [|cbn; intros _ Hc; discriminate Hc]. cbn.
  destruct (ok response); [|cbn; intros _ Hc; discriminate Hc]. cbn.
  destruct (JSON_parse (VStr (text response))) as [res|];
    [|cbn; intros _ Hc; discriminate Hc]. cbn.
  destruct (prop variables "time") as [time|]; [|cbn; intros _ Hc; discriminate Hc]. cbn.
  destruct (extractSlots res _ _); cbn; intros _ Hc; discriminate Hc.
Qed.

(** Whatever a run posts is the serialisation of the captured body, parsed
    and mutated, under the replay headers. *)
Lemma runLiveMode_posts (data : string) (hs : list (string * string)) :
  In (HttpPost data hs)
     (fst (runLiveMode JSON_parse JSON_stringify engine url date partySize
                       headless json)) ->
  exists captured body variables body',
    capturePromise (observed engine url) = Ok captured
    /\ JSON_parse (VStr (Live.body captured)) = Ok body
    /\ newVariables body date partySize = Ok variables
    /\ assignVariables body variables = Ok body'
    /\ data = JSON_stringify body'
    /\ hs = replayHeaders url (headers captured).
Proof.
  unfold runLiveMode.
  destruct launchBrowser_cases as [-> | [e ->]]; [|cbn; tauto].
  unfold captureRequest, replay.
  simp_run.
  destruct (newPage engine) as [[]|]; simp_run; [|cbn; intuition discriminate].
  destruct (capturePromise (observed engine url)) as [captured|] eqn:Hcap;
    simp_run;
    [|destruct (gotoSettled engine url); cbn; intuition discriminate].
  destruct (Live.body captured =? "")%string;
    simp_run; [cbn; intuition discriminate|].
  destruct (JSON_parse (VStr (Live.body captured))) as [body|] eqn:Hparse;
    simp_run; [|cbn; intuition discriminate].
  destruct (newVariables body date partySize) as [variables|] eqn:Hvars;
    simp_run; [|cbn; intuition discriminate].
  destruct (assignVariables body variables) as [body'|] eqn:Hassign;
    simp_run; [|cbn; intuition discriminate].
  intros H. exists captured, body, variables, body'.
  do 4 (split; [reflexivity || assumption|]).
  revert H.
  assert (Hfound : forall rest : list event,
             (forall d h, ~ In (HttpPost d h) rest) ->
             In (HttpPost data hs)
                (BrowserLaunch :: Navigate url
                 :: HttpPost (JSON_stringify body')
                             (replayHeaders url (headers captured)) :: rest) ->
             data = JSON_stringify body'
             /\ hs = replayHeaders url (headers captured)).
  { intros rest Hrest [H | [H | [H | H]]]; try discriminate.
    - inversion H; subst. tauto.
    - exfalso. eapply Hrest; eassumption. }
  destruct (pageOpen engine); simp_run; [|cbn; intuition discriminate].
  destruct (post engine _ _ _) as [response|]; simp_run.
  2:{ apply Hfound. cbn. intuition discriminate. }
  destruct (ok response); simp_run.
  2:{ apply Hfound. cbn. intuition discriminate. }
  destruct (JSON_parse (VStr (text response))) as [res|]; simp_run.
  2:{ apply Hfound. cbn. intuition discriminate. }
  destruct (prop variables "time") as [time|]; simp_run.
  2:{ apply Hfound. cbn. intuition discriminate. }
  destruct (extractSlots res _ _); simp_run;
    apply Hfound; cbn; intuition discriminate.
Qed.

(** The same, with the mutation as one step. *)
Lemma runLiveMode_posts_mutated (data : string) (hs : list (string * string)) :
  In (HttpPost data hs)
     (fst (runLiveMode JSON_parse JSON_stringify engine url date partySize
                       headless json)) ->
  exists captured body body',
    capturePromise (observed engine url) = Ok captured
    /\ JSON_parse (VStr (Live.body captured)) = Ok body
    /\ mutate body date partySize = Ok body'
    /\ data = JSON_stringify body'.
Proof.
  intros H.
  destruct (runLiveMode_posts data hs H)
    as (captured & body & variables & body' & Hcap & Hparse & Hvars
        & Hassign & Hdata & _).
  exists captured, body, body'. repeat split; try assumption.
  unfold mutate. now rewrite Hvars.
Qed.

End LiveRunsInGeneral.

(** The six keys of the object literal are distinct. *)
Lemma mutated_keys_distinct (date : string) (partySize : Z) :
  NoDup (map fst
           [("date", VStr date);
            ("partySize", VNum partySize);
            ("forwardMinutes", VNum 295);
            ("backwardMinutes", VNum 1140);
            ("forwardTimeslots", VNum 20);
            ("backwardTimeslots", VNum 76)]).
Proof. cbn. repeat constructor; cbn; intuition discriminate. Qed.

(** A mutation that returns started from an object or an array. *)
Lemma mutate_returns (body body' : value) (date : string) (partySize : Z) :
  mutate body date partySize = Ok body' ->
  (exists props,
      body = VObj props
      /\ body' = VObj (set_prop "variables"
                         (VObj (set_props
                                  [("date", VStr date);
                                   ("partySize", VNum partySize);
                                   ("forwardMinutes", VNum 295);
                                   ("backwardMinutes", VNum 1140);
                                   ("forwardTimeslots", VNum 20);
                                   ("backwardTimeslots", VNum 76)]
                                  (spread (assoc "variables" props))))
                         props))
  \/ (exists elems, body = VArr elems /\ body' = VArr elems).
Proof.
  unfold mutate, newVariables.
  destruct body; cbn [prop bind assignVariables]; try discriminate.
  - intros H. right. exists elems. split; congruence.
  - intros H. left. exists props. split; congruence.
Qed.

(** C4. Shallow merge, for every set of new variables with distinct names:
    a new key takes its new value and every other key keeps the value it had.
    The mutation of a captured body is such a merge into its [variables]:
    wherever it returns a body, [date] and [partySize] hold the requested
    values, every variable the mutation does not name keeps its captured
    value, and every other property of the body, [operationName] and
    [extensions] with its [persistedQuery], [version] and [sha256Hash], is
    the captured one. On a body that parsed to an object the mutation does
    return, with the merged variables in the body. And what a live run sends
    is the serialisation of the mutated body. *)
Theorem mutate_merges_and_preserves :
  (forall (news old : list (string * value)),
      NoDup (map fst news) ->
      (forall k v, In (k, v) news -> assoc k (set_props news old) = v)
      /\ (forall k, ~ In k (map fst news) ->
                    assoc k (set_props news old) = assoc k old))
  /\ (forall (body body' : value) (date : string) (partySize : Z),
         mutate body date partySize = Ok body' ->
         exists variables,
           newVariables body date partySize = Ok (VObj variables)
           /\ assoc "date" variables = VStr date
           /\ assoc "partySize" variables = VNum partySize
           /\ (forall captured,
                  opt_prop body "variables" = VObj captured ->
                  forall k, ~ In k mutatedKeys ->
                            assoc k variables = assoc k captured)
           /\ (forall k, k <> "variables" ->
                         opt_prop body' k = opt_prop body k)
           /\ opt_prop body' "operationName" = opt_prop body "operationName"
           /\ opt_prop body' "extensions" = opt_prop body "extensions"
           /\ opt_prop (opt_prop body' "extensions") "persistedQuery"
              = opt_prop (opt_prop body "extensions") "persistedQuery"
           /\ opt_prop (opt_prop (opt_prop body' "extensions")
                                 "persistedQuery") "version"
              = opt_prop (opt_prop (opt_prop body "extensions")
                                   "persistedQuery") "version"
           /\ opt_prop (opt_prop (opt_prop body' "extensions")
                                 "persistedQuery") "sha256Hash"
              = opt_prop (opt_prop (opt_prop body "extensions")
                                   "persistedQuery") "sha256Hash")
  /\ (forall (props : list (string * value)) (date : string) (partySize : Z),
         exists variables body',
           newVariables (VObj props) date partySize = Ok variables
           /\ mutate (VObj props) date partySize = Ok body'
           /\ opt_prop body' "variables" = variables)
  /\ (forall (JSON_parse : value -> result value)
             (JSON_stringify : value -> string) (engine : Engine)
             (url date : string) (partySize : Z) (headless json : bool)
             (data : string) (hs : list (string * string)),
         In (HttpPost data hs)
            (fst (runLiveMode JSON_parse JSON_stringify engine url date
                              partySize headless json)) ->
         exists captured body body',
           capturePromise (observed engine url) = Ok captured
           /\ JSON_parse (VStr (Live.body captured)) = Ok body
           /\ mutate body date partySize = Ok body'
           /\ data = JSON_stringify body').
Proof.
  split; [|split; [|split; [|exact runLiveMode_posts_mutated]]].
  - intros news old Hnd. split.
    + intros k v Hin. now apply assoc_set_props_new.
    + intros k Hnot. now apply assoc_set_props_other.
  - intros body body' date partySize H.
    pose proof (mutated_keys_distinct date partySize) as Hnd.
    assert (Hframe : forall k, k <> "variables" ->
                               opt_prop body' k = opt_prop body k).
    { destruct (mutate_returns _ _ _ _ H)
        as [(props & -> & ->) | (elems & -> & ->)]; [|reflexivity].
      intros k Hk. cbn [opt_prop]. now apply assoc_set_prop_other. }
    assert (Hvars : newVariables body date partySize
                    = Ok (VObj (set_props
                                  [("date", VStr date);
                                   ("partySize", VNum partySize);
                                   ("forwardMinutes", VNum 295);
                                   ("backwardMinutes", VNum 1140);
                                   ("forwardTimeslots", VNum 20);
                                   ("backwardTimeslots", VNum 76)]
                                  (spread (opt_prop body "variables"))))).
    { destruct (mutate_returns _ _ _ _ H)
        as [(props & -> & _) | (elems & -> & _)]; reflexivity. }
    eexists. split; [exact Hvars|].
    split; [apply assoc_set_props_new; [exact Hnd | cbn; tauto]|].
    split; [apply assoc_set_props_new; [exact Hnd | cbn; tauto]|].
    split; [intros captured Hc k Hk;
            rewrite assoc_set_props_other by exact Hk; now rewrite Hc|].
    split; [exact Hframe|].
    rewrite !Hframe by discriminate.
    repeat split; reflexivity.
  - intros props date partySize. eexists. eexists.
    unfold mutate. rewrite newVariables_object. cbn [bind assignVariables].
    repeat split. cbn [opt_prop]. apply assoc_set_prop_same.
Qed.

Lemma mutate_merges_and_preserves_witness :
  assoc "date"
    (set_props [("date", VStr "2026-02-26"); ("partySize", VNum 4)]
               [("date", VStr "2026-02-20"); ("time", VStr "18:00")])
  = VStr "2026-02-26"
  /\ assoc "partySize"
       (set_props [("date", VStr "2026-02-26"); ("partySize", VNum 4)]
                  [("date", VStr "2026-02-20"); ("time", VStr "18:00")])
     = VNum 4
  /\ assoc "time"
       (set_props [("date", VStr "2026-02-26"); ("partySize", VNum 4)]
                  [("date", VStr "2026-02-20"); ("time", VStr "18:00")])
     = VStr "18:00".
Proof.
  destruct (proj1 mutate_merges_and_preserves
              [("date", VStr "2026-02-26"); ("partySize", VNum 4)]
              [("date", VStr "2026-02-20"); ("time", VStr "18:00")])
    as [Hnew Hold].
  - cbn. repeat constructor; cbn; intuition discriminate.
  - split; [apply Hnew; cbn; tauto|].
    split; [apply Hnew; cbn; tauto|].
    rewrite Hold; [reflexivity | cbn; intuition discriminate].
Defined.

(** C10. Whatever the captured body holds, the variables the mutation builds
    carry the four window-sizing constants; for a body that parsed to an
    object these are the variables of the mutated body, so the window sizes of
    the captured request are discarded; and what a live run sends is the
    serialisation of a body mutated with variables that carry the
    constants. *)
Theorem mutate_fixes_window :
  (forall (body : value) (date : string) (partySize : Z) (variables : value),
      newVariables body date partySize = Ok variables ->
      opt_prop variables "forwardMinutes" = VNum 295
      /\ opt_prop variables "backwardMinutes" = VNum 1140
      /\ opt_prop variables "forwardTimeslots" = VNum 20
      /\ opt_prop variables "backwardTimeslots" = VNum 76)
  /\ (forall (props : list (string * value)) (date : string) (partySize : Z),
         exists variables body',
           newVariables (VObj props) date partySize = Ok variables
           /\ mutate (VObj props) date partySize = Ok body'
           /\ opt_prop body' "variables" = variables)
  /\ (forall (JSON_parse : value -> result value)
             (JSON_stringify : value -> string) (engine : Engine)
             (url date : string) (partySize : Z) (headless json : bool)
             (data : string) (hs : list (string * string)),
         In (HttpPost data hs)
            (fst (runLiveMode JSON_parse JSON_stringify engine url date
                              partySize headless json)) ->
         exists captured body variables body',
           capturePromise (observed engine url) = Ok captured
           /\ JSON_parse (VStr (Live.body captured)) = Ok body
           /\ newVariables body date partySize = Ok variables
           /\ assignVariables body variables = Ok body'
           /\ data = JSON_stringify body'
           /\ opt_prop variables "forwardMinutes" = VNum 295
           /\ opt_prop variables "backwardMinutes" = VNum 1140
           /\ opt_prop variables "forwardTimeslots" = VNum 20
           /\ opt_prop variables "backwardTimeslots" = VNum 76).
Proof.
  assert (Hconst :
    forall (body : value) (date : string) (partySize : Z) (variables : value),
      newVariables body date partySize = Ok variables ->
      opt_prop variables "forwardMinutes" = VNum 295
      /\ opt_prop variables "backwardMinutes" = VNum 1140
      /\ opt_prop variables "forwardTimeslots" = VNum 20
      /\ opt_prop variables "backwardTimeslots" = VNum 76);
    [|split; [exact Hconst | split]].
  - intros body date partySize variables H.
    unfold newVariables in H.
    destruct (prop body "variables") as [old|]; [|discriminate].
    cbn [bind] in H.
    assert (E : variables
                = VObj (set_props
                          [("date", VStr date);
                           ("partySize", VNum partySize);
                           ("forwardMinutes", VNum 295);
                           ("backwardMinutes", VNum 1140);
                           ("forwardTimeslots", VNum 20);
                           ("backwardTimeslots", VNum 76)]
                          (spread old))) by congruence.
    subst variables. clear H. cbn [opt_prop].
    assert (Hnd : NoDup (map fst
                    [("date", VStr date);
                     ("partySize", VNum partySize);
                     ("forwardMinutes", VNum 295);
                     ("backwardMinutes", VNum 1140);
                     ("forwardTimeslots", VNum 20);
                     ("backwardTimeslots", VNum 76)])).
    { cbn. repeat constructor; cbn; intuition discriminate. }
    repeat split; (apply assoc_set_props_new; [exact Hnd | cbn; tauto]).
  - intros props date partySize. eexists. eexists.
    unfold mutate. rewrite newVariables_object. cbn [bind assignVariables].
    repeat split. cbn [opt_prop]. apply assoc_set_prop_same.
  - intros JSON_parse JSON_stringify engine url date partySize headless json
           data hs H.
    destruct (runLiveMode_posts _ _ _ _ _ _ _ _ _ _ H)
      as (captured & body & variables & body' & Hcap & Hparse & Hvars
          & Hassign & Hdata & _).
    exists captured, body, variables, body'.
    do 5 (split; [assumption|]).
    exact (Hconst _ _ _ _ Hvars).
Qed.

Lemma mutate_fixes_window_witness :
  opt_prop (VObj sampleBodyProps) "variables"
  = VObj [("date", VStr "2026-02-20"); ("partySize", VNum 2);
          ("time", VStr "18:00"); ("forwardMinutes", VNum 150)]
  /\ exists variables,
       newVariables (VObj sampleBodyProps) "2026-02-26" 4 = Ok variables
       /\ opt_prop variables "forwardMinutes" = VNum 295
       /\ opt_prop variables "backwardMinutes" = VNum 1140
       /\ opt_prop variables "forwardTimeslots" = VNum 20
       /\ opt_prop variables "backwardTimeslots" = VNum 76.
Proof.
  split; [reflexivity|].
  eexists. split; [reflexivity|].
  apply (proj1 mutate_fixes_window (VObj sampleBodyProps) "2026-02-26" 4).
  reflexivity.
Defined.

(** On each of the listed exit paths (success, capture timeout, capture-body
    parse failure, replay HTTP failure, response parse failure), provided
    that on a capture timeout the navigation had settled when the timer
    fired, the browser is closed exactly once before the run ends, by the
    close call of that path: the catch handler of the capture block on a
    timeout, the call made just before the process exits on the three
    failures, and the finally block on success. The run then ends as the path
    does: it returns, the timeout error propagates, or the process exits with
    code 1. *)
Lemma runLiveMode_closes_when_awaited :
  forall (JSON_parse : value -> result value)
         (JSON_stringify : value -> string) (engine : Engine)
         (url date : string) (partySize : Z) (headless json : bool)
         (p : ExitPath),
    OnPath JSON_parse JSON_stringify engine url date partySize headless p ->
    (p = CaptureTimeout -> gotoSettled engine url = true) ->
    closes (fst (runLiveMode JSON_parse JSON_stringify engine url date
                             partySize headless json))
    = [closeSite p]
    /\ snd (runLiveMode JSON_parse JSON_stringify engine url date
                        partySize headless json)
       = ending p.
Proof.
  intros JSON_parse JSON_stringify engine url date partySize headless json p
         Hpath Hgoto.
  destruct Hpath as [[Hlaunch Hpage] Hcap
                    | captured e [Hlaunch Hpage] Hcap Hparse
                    | variables response Hrep Hok
                    | variables response e Hrep Hok Hparse
                    | variables response res slots Hrep Hok Hparse Hslots].
  - unfold runLiveMode.
    rewrite Hlaunch.
    rewrite (captureRequest_rejected _ _ _ Hpage Hcap (Hgoto eq_refl)).
    split; reflexivity.
  - unfold runLiveMode.
    rewrite Hlaunch. erewrite captureRequest_resolved by eassumption.
    cbn [pbind fst snd after app].
    rewrite (capturePromise_body _ _ Hcap), Hparse.
    split; reflexivity.
  - edestruct runLiveMode_replayed with (json := json)
      as (captured & body' & Hpost & Hopen & ->); [exact Hrep|].
    erewrite replay_http_failure by eassumption.
    split; reflexivity.
  - edestruct runLiveMode_replayed with (json := json)
      as (captured & body' & Hpost & Hopen & ->); [exact Hrep|].
    erewrite replay_invalid_response by eassumption.
    split; reflexivity.
  - edestruct runLiveMode_replayed with (json := json)
      as (captured & body' & Hpost & Hopen & ->); [exact Hrep|].
    pose proof Hrep as Hvars. apply Replayed_variables in Hvars.
    erewrite replay_success by eassumption.
    split; reflexivity.
Qed.

Lemma engineTimeout_path :
  OnPath Json.parse Json.stringify engineTimeout restaurantUrl "2026-02-26" 4
         true CaptureTimeout.
Proof. constructor; [split|]; reflexivity. Qed.

Lemma replayed_by (response : Response) :
  exists variables,
    Replayed Json.parse Json.stringify
             (scriptedEngine [pageRequest; queryRequest sampleBody]
                             (Ok response))
             restaurantUrl "2026-02-26" 4 true variables response
    /\ opt_prop variables "time" = VStr "18:00".
Proof.
  eexists. split.
  - split; [split; reflexivity|].
    eexists. exists (VObj sampleBodyProps). eexists.
    split; [reflexivity|].
    split; [exact sampleBody_parses|].
    split; [reflexivity|].
    split; [reflexivity|].
    split; reflexivity.
  - reflexivity.
Qed.

Lemma engineHttpFailure_path :
  OnPath Json.parse Json.stringify engineHttpFailure restaurantUrl
         "2026-02-26" 4 true ReplayHttpError.
Proof.
  destruct (replayed_by forbiddenResponse) as (variables & Hrep & _).
  econstructor; [exact Hrep | reflexivity].
Qed.

Lemma engineSuccess_path :
  OnPath Json.parse Json.stringify engineSuccess restaurantUrl
         "2026-02-26" 4 true Success.
Proof.
  destruct (replayed_by goodResponse) as (variables & Hrep & Htime).
  econstructor; [exact Hrep | reflexivity | |].
  - vm_compute. reflexivity.
  - rewrite Htime. reflexivity.
Qed.

Lemma engineBadCapture_path :
  OnPath Json.parse Json.stringify engineBadCapture restaurantUrl
         "2026-02-26" 4 true MalformedCapture.
Proof.
  econstructor; [split; reflexivity | reflexivity | vm_compute; reflexivity].
Qed.

Lemma engineBadResponse_path :
  OnPath Json.parse Json.stringify engineBadResponse restaurantUrl
         "2026-02-26" 4 true MalformedResponse.
Proof.
  destruct (replayed_by htmlResponse) as (variables & Hrep & _).
  econstructor; [exact Hrep | reflexivity | vm_compute; reflexivity].
Qed.

(** No single close call serves every listed exit path, even among the runs
    that close the browser. A capture timeout that the script awaits is
    closed by the catch handler of the capture block, a replay HTTP failure
    by the call before [process.exit], which leaves the replay block without
    running its finally block, and only a successful run by the finally
    block. *)
Lemma runLiveMode_no_single_cleanup_point :
  ~ (exists site : CloseSite,
        forall (JSON_parse : value -> result value)
               (JSON_stringify : value -> string) (engine : Engine)
               (url date : string) (partySize : Z) (headless json : bool)
               (p : ExitPath),
          OnPath JSON_parse JSON_stringify engine url date partySize headless
                 p ->
          closes (fst (runLiveMode JSON_parse JSON_stringify engine url date
                                   partySize headless json))
          = [site])
  /\ closes (fst (runLiveMode Json.parse Json.stringify engineTimeout
                              restaurantUrl "2026-02-26" 4 true false))
     = [AtCaptureCatch]
  /\ closes (fst (runLiveMode Json.parse Json.stringify engineHttpFailure
                              restaurantUrl "2026-02-26" 4 true false))
     = [AtHttpFailure]
  /\ closes (fst (runLiveMode Json.parse Json.stringify engineSuccess
                              restaurantUrl "2026-02-26" 4 true false))
     = [AtFinally].
Proof.
  assert (Ht : closes (fst (runLiveMode Json.parse Json.stringify engineTimeout
                              restaurantUrl "2026-02-26" 4 true false))
               = [AtCaptureCatch]) by (vm_compute; reflexivity).
  assert (Hs : closes (fst (runLiveMode Json.parse Json.stringify engineSuccess
                              restaurantUrl "2026-02-26" 4 true false))
               = [AtFinally]) by (vm_compute; reflexivity).
  split; [|split; [exact Ht | split; [vm_compute; reflexivity | exact Hs]]].
  intros [site Hall].
  pose proof (Hall _ _ _ _ _ _ _ false _ engineTimeout_path) as H1.
  pose proof (Hall _ _ _ _ _ _ _ false _ engineSuccess_path) as H2.
  rewrite Ht in H1. rewrite Hs in H2. congruence.
Qed.

Lemma engineSlowPage_path :
  OnPath Json.parse Json.stringify engineSlowPage restaurantUrl "2026-02-26"
         4 true CaptureTimeout.
Proof. constructor; [split|]; reflexivity. Qed.

(** C8, what the code does on the capture-timeout path. The capture promise
    is made at line 255 and first awaited at line 279, after the [await] of
    [page.goto] at line 275, which can take up to 60 s while the capture
    timer fires after 30 s. On every run where the browser is launched and a
    page opened, the page sends no query before the timer fires, and the
    navigation is still pending then, the rejection has no handler: the
    process ends on the timeout error after the launch and the navigation,
    the catch handler of line 282 never runs, and the browser is never
    closed. The claim says the browser is closed on a capture timeout. *)
Theorem runLiveMode_leaks_on_capture_timeout :
  forall (JSON_parse : value -> result value)
         (JSON_stringify : value -> string) (engine : Engine)
         (url date : string) (partySize : Z) (headless json : bool),
    OnPath JSON_parse JSON_stringify engine url date partySize headless
           CaptureTimeout ->
    gotoSettled engine url = false ->
    runLiveMode JSON_parse JSON_stringify engine url date partySize headless
                json
    = ([BrowserLaunch; Navigate url], Crash (Error timeoutMessage))
    /\ closes (fst (runLiveMode JSON_parse JSON_stringify engine url date
                                partySize headless json))
       = [].
Proof.
  intros JSON_parse JSON_stringify engine url date partySize headless json
         Hpath Hgoto.
  inversion Hpath as [[Hlaunch Hpage] Hcap | | | |].
  assert (E : runLiveMode JSON_parse JSON_stringify engine url date partySize
                          headless json
              = ([BrowserLaunch; Navigate url], Crash (Error timeoutMessage))).
  { unfold runLiveMode.
    rewrite Hlaunch, (captureRequest_unhandled _ _ _ Hpage Hcap Hgoto).
    reflexivity. }
  split; [exact E | now rewrite E].
Qed.

Lemma runLiveMode_leaks_on_capture_timeout_witness :
  runLiveMode Json.parse Json.stringify engineSlowPage restaurantUrl
              "2026-02-26" 4 true false
  = ([BrowserLaunch; Navigate restaurantUrl], Crash (Error timeoutMessage))
  /\ closes (fst (runLiveMode Json.parse Json.stringify engineSlowPage
                              restaurantUrl "2026-02-26" 4 true false))
     = [].
Proof.
  apply runLiveMode_leaks_on_capture_timeout;
    [exact engineSlowPage_path | reflexivity].
Defined.

(** A successful run, event by event: the captured body is sent mutated, with
    the kept headers and the three canonical ones, the slots are decoded
    against the captured 18:00, and the finally block closes the browser. *)
Example runLiveMode_success_run :
  runLiveMode Json.parse Json.stringify engineSuccess restaurantUrl
              "2026-02-26" 4 true false
  = ([BrowserLaunch;
      Navigate restaurantUrl;
      HttpPost (Json.stringify sampleMutatedBody)
               [("content-type", "application/json");
                ("x-csrf-token", "c5f1");
                ("ot-page-type", "restprofilepage");
                ("Content-Type", "application/json");
                ("origin", "https://www.opentable.com");
                ("referer", restaurantUrl)];
      PrintResult [{| time := "18:00"; type := VStr "Standard" |}]
                  (VStr "2026-02-26") false;
      BrowserClose AtFinally],
     Done tt).
Proof. vm_compute. reflexivity. Qed.

(** An exit path outside the listed ones: the captured body is the JSON text
    [null], which parses; reading [body.variables] then throws outside every
    [try], and the browser that was launched is not closed. *)
Example runLiveMode_null_body_run :
  runLiveMode Json.parse Json.stringify engineNullBody restaurantUrl
              "2026-02-26" 4 true false
  = ([BrowserLaunch; Navigate restaurantUrl], Raise TypeError).
Proof. vm_compute. reflexivity. Qed.

(* ================================================================== *)
(** * Further properties of TimeCodec *)
(* ================================================================== *)

Lemma num_lift2_NaN_r (f : Z -> Z -> Z) (a : num) : num_lift2 f a None = None.
Proof. destruct a; reflexivity. Qed.

(** The wrapped minute of the day, as the script computes it from the two
    numbers of the base time. *)
Lemma wrappedTime_numbers (baseTime : string) (off : Z) :
  wrappedTime baseTime off
  = match destructured 0 (map Number (split ":" baseTime)),
          destructured 1 (map Number (split ":" baseTime)) with
    | Some h, Some m => formatMinutes ((h * 60 + m + off) mod 1440)
    | _, _ => "NaN:NaN"
    end.
Proof.
  unfold wrappedTime.
  destruct (destructured 0 _) as [h|]; [|reflexivity].
  destruct (destructured 1 _) as [m|]; [|reflexivity].
  cbn [num_add num_mul num_rem num_floor_div num_lift2].
  change (24 * 60) with 1440. rewrite double_rem.
  pose proof (Z.mod_pos_bound (h * 60 + m + off) 1440 ltac:(lia)) as Hw.
  set (w := (h * 60 + m + off) mod 1440) in *.
  rewrite (Z.rem_mod_nonneg w 60) by lia.
  assert (0 <= w / 60 < 24)
    by (split; [apply Z.div_pos; lia | apply Z.div_lt_upper_bound; lia]).
  pose proof (Z.mod_pos_bound w 60 ltac:(lia)).
  cbn [String_of]. fold (String_of (Some (w / 60))).
  fold (String_of (Some (w mod 60))).
  rewrite !padStart2_two_digits by lia.
  reflexivity.
Qed.

(** X1. On every base time whose two parts read as integers, a well-formed
    ["HH:MM"] or not (["7:5"], ["25:61"], ["19:00:30"]), and every offset for
    which the numbers the script computes with are safe integers,
    [offsetToTime] returns the formatting of the total wrapped into a day,
    and a whole number of days added to the offset, within the same range,
    changes nothing. *)
Theorem offsetToTime_periodic :
  forall (baseTime : string) (h m offsetMinutes k : Z),
    hourAndMinute baseTime = (Some h, Some m) ->
    exactTotal h m offsetMinutes = true ->
    exactTotal h m (offsetMinutes + 1440 * k) = true ->
    offsetToTime (VStr baseTime) offsetMinutes
    = Ok (formatMinutes ((h * 60 + m + offsetMinutes) mod 1440))
    /\ offsetToTime (VStr baseTime) (offsetMinutes + 1440 * k)
       = offsetToTime (VStr baseTime) offsetMinutes.
Proof.
  intros s h m off k Hhm _ _.
  unfold hourAndMinute in Hhm. cbn zeta in Hhm.
  assert (Hh : destructured 0 (map Number (split ":" s)) = Some h)
    by congruence.
  assert (Hm : destructured 1 (map Number (split ":" s)) = Some m)
    by congruence.
  cbn [offsetToTime]. rewrite !wrappedTime_numbers, Hh, Hm.
  split; [reflexivity|]. do 2 f_equal.
  replace (h * 60 + m + (off + 1440 * k)) with (h * 60 + m + off + k * 1440)
    by ring.
  apply Z.mod_add. lia.
Qed.

Lemma offsetToTime_periodic_witness :
  offsetToTime (VStr "7:5") (-30) = Ok "06:35"
  /\ offsetToTime (VStr "7:5") (-30 + 1440 * 2)
     = offsetToTime (VStr "7:5") (-30).
Proof.
  exact (offsetToTime_periodic "7:5" 7 5 (-30) 2 eq_refl eq_refl eq_refl).
Defined.

Lemma str_includes_colon (c : ascii) (rest : string) :
  str_includes ":" (String c rest) = false ->
  Ascii.eqb c ":" = false /\ str_includes ":" rest = false.
Proof.
  cbn [str_includes prefix]. intros H.
  apply orb_false_iff in H as [H1 H2]. split; [|exact H2].
  destruct (ascii_dec ":" c) as [<- | Hne].
  - destruct rest; discriminate.
  - apply Ascii.eqb_neq. congruence.
Qed.

Lemma split_without_colon (s : string) :
  str_includes ":" s = false -> split ":" s = [s].
Proof.
  induction s as [|c s IH]; intros H; [reflexivity|].
  apply str_includes_colon in H as [Hc Hs].
  cbn [split]. rewrite Hc, (IH Hs). reflexivity.
Qed.

(** X4. A base time without a colon has no minutes part: whatever the offset,
    the time decoded against it is the text [NaN:NaN], not a time of day. *)
Theorem offsetToTime_without_colon :
  forall (baseTime : string) (offsetMinutes : Z),
    str_includes ":" baseTime = false ->
    offsetToTime (VStr baseTime) offsetMinutes = Ok "NaN:NaN".
Proof.
  intros s off H. cbn [offsetToTime]. f_equal.
  rewrite wrappedTime_numbers, (split_without_colon _ H).
  cbn [map destructured nth]. now destruct (Number s).
Qed.

Lemma offsetToTime_without_colon_witness :
  offsetToTime (VStr "1900") 30 = Ok "NaN:NaN".
Proof. apply offsetToTime_without_colon. reflexivity. Defined.

Lemma two_digit_parts (x y : Z) :
  0 <= x -> 0 <= y < 10 ->
  (10 * x + y) / 10 = x /\ (10 * x + y) mod 10 = y.
Proof.
  intros Hx Hy. split.
  - symmetry. apply Z.div_unique with (r := y); lia.
  - symmetry. apply Z.mod_unique with (q := x); lia.
Qed.

(** A well-formed time is the formatting of its own minute of the day. *)
Lemma formatMinutes_of_base (s : string) :
  wellFormed s = true ->
  formatMinutes (baseHour s * 60 + baseMinute s) = s
  /\ 0 <= baseHour s * 60 + baseMinute s < 1440.
Proof.
  intros H.
  destruct s as [|a [|b [|c [|d [|e [|? ?]]]]]]; try discriminate.
  cbn [wellFormed] in H.
  do 6 (apply andb_true_iff in H; destruct H as [H ?]).
  match goal with Hc : Ascii.eqb c _ = true |- _ =>
    apply Ascii.eqb_eq in Hc; subst c end.
  cbn [baseHour baseMinute].
  repeat match goal with
         | Hd : is_digit ?x = true |- _ =>
             apply is_digit_char in Hd; destruct Hd as [? ?]
         | Hl : (_ <? _) = true |- _ => apply Z.ltb_lt in Hl
         end.
  unfold two_digit_value in *.
  set (h := 10 * digit_value a + digit_value b) in *.
  set (m := 10 * digit_value d + digit_value e) in *.
  assert (Hh : 0 <= h) by (subst h; lia).
  assert (Hm : 0 <= m) by (subst m; lia).
  split; [|lia].
  unfold formatMinutes.
  replace ((h * 60 + m) / 60) with h
    by (apply Z.div_unique with (r := m); lia).
  replace ((h * 60 + m) mod 60) with m
    by (apply Z.mod_unique with (q := h); lia).
  unfold two_digits. subst h m.
  destruct (two_digit_parts (digit_value a) (digit_value b)) as [-> ->];
    try lia.
  destruct (two_digit_parts (digit_value d) (digit_value e)) as [-> ->];
    try lia.
  cbn [append]. congruence.
Qed.

(** The minute of the day of a formatted time is the minute formatted. *)
Lemma base_of_formatMinutes (w : Z) :
  0 <= w < 1440 ->
  baseHour (formatMinutes w) * 60 + baseMinute (formatMinutes w) = w.
Proof.
  intros Hw.
  apply (forall_below
           (fun w => baseHour (formatMinutes w) * 60
                     + baseMinute (formatMinutes w) =? w) 1440 eq_refl) in Hw.
  now apply Z.eqb_eq in Hw.
Qed.

Lemma wrappedTime_after (baseTime : string) (o1 o2 : Z) :
  wellFormed baseTime = true ->
  wrappedTime (wrappedTime baseTime o1) o2 = wrappedTime baseTime (o1 + o2).
Proof.
  intros H.
  rewrite (wrappedTime_wellFormed baseTime o1 H).
  rewrite (wrappedTime_wellFormed baseTime (o1 + o2) H).
  set (base := baseHour baseTime * 60 + baseMinute baseTime).
  pose proof (Z.mod_pos_bound (base + o1) 1440 ltac:(lia)) as Hw.
  rewrite wrappedTime_wellFormed by (now apply formatMinutes_wellFormed).
  rewrite base_of_formatMinutes by exact Hw.
  rewrite Z.add_mod_idemp_l by lia.
  now rewrite Z.add_assoc.
Qed.

(** X2. Decoding composes: on a well-formed base time, with the two offsets
    and their sum within the exact range (at most 2^53 - 1440 in absolute
    value), applying an offset to the time another offset gave is applying
    the sum of the two offsets to the base time. *)
Theorem offsetToTime_composes :
  forall (baseTime time : string) (offset1 offset2 : Z),
    wellFormed baseTime = true ->
    exactOffset offset1 = true ->
    exactOffset offset2 = true ->
    exactOffset (offset1 + offset2) = true ->
    offsetToTime (VStr baseTime) offset1 = Ok time ->
    offsetToTime (VStr time) offset2
    = offsetToTime (VStr baseTime) (offset1 + offset2).
Proof.
  intros baseTime time o1 o2 H _ _ _ Ht.
  cbn [offsetToTime] in *. inversion Ht; subst time.
  f_equal. now apply wrappedTime_after.
Qed.

Lemma offsetToTime_composes_witness :
  offsetToTime (VStr "23:30") 90 = Ok "01:00"
  /\ offsetToTime (VStr "01:00") (-120) = offsetToTime (VStr "23:30") (-30).
Proof.
  split; [reflexivity|].
  exact (offsetToTime_composes "23:30" "01:00" 90 (-120)
           eq_refl eq_refl eq_refl eq_refl eq_refl).
Defined.

(** X3. Round trip: on a well-formed base time and an offset within the
    exact range (at most 2^53 - 1440 in absolute value), the opposite offset
    brings the decoded time back to the base time; in particular the offset 0
    gives the base time itself. *)
Theorem offsetToTime_round_trip :
  forall (baseTime time : string) (offsetMinutes : Z),
    wellFormed baseTime = true ->
    exactOffset offsetMinutes = true ->
    offsetToTime (VStr baseTime) offsetMinutes = Ok time ->
    offsetToTime (VStr time) (- offsetMinutes) = Ok baseTime
    /\ offsetToTime (VStr baseTime) 0 = Ok baseTime.
Proof.
  intros baseTime time off H _ Ht.
  assert (Hzero : wrappedTime baseTime 0 = baseTime).
  { rewrite (wrappedTime_wellFormed baseTime 0 H).
    destruct (formatMinutes_of_base baseTime H) as [Hf Hb].
    rewrite Z.add_0_r, Z.mod_small by exact Hb. exact Hf. }
  cbn [offsetToTime] in *. inversion Ht; subst time.
  split; f_equal; [|exact Hzero].
  rewrite (wrappedTime_after _ _ _ H).
  now rewrite Z.add_opp_diag_r.
Qed.

Lemma offsetToTime_round_trip_witness :
  offsetToTime (VStr "00:15") 2000 = Ok "09:35"
  /\ offsetToTime (VStr "09:35") (- 2000) = Ok "00:15".
Proof.
  split; [reflexivity|].
  exact (proj1 (offsetToTime_round_trip "00:15" "09:35" 2000
                  eq_refl eq_refl eq_refl)).
Defined.

(** X27. On a well-formed base time, two offsets within the exact range (at
    most 2^53 - 1440 in absolute value) decode to the same time exactly when
    they differ by a whole number of days: no two minutes of the day are
    formatted alike. *)
Theorem offsetToTime_same_time_iff :
  forall (baseTime : string) (offset1 offset2 : Z),
    wellFormed baseTime = true ->
    exactOffset offset1 = true ->
    exactOffset offset2 = true ->
    (offsetToTime (VStr baseTime) offset1 = offsetToTime (VStr baseTime) offset2
     <-> (offset1 - offset2) mod 1440 = 0).
Proof.
  intros baseTime o1 o2 H _ _. cbn [offsetToTime].
  rewrite !(wrappedTime_wellFormed baseTime _ H).
  set (base := baseHour baseTime * 60 + baseMinute baseTime).
  split.
  - intros E.
    assert (E' : formatMinutes ((base + o1) mod 1440)
                 = formatMinutes ((base + o2) mod 1440)) by congruence.
    apply (f_equal (fun s => baseHour s * 60 + baseMinute s)) in E'.
    rewrite !base_of_formatMinutes in E' by (apply Z.mod_pos_bound; lia).
    replace (o1 - o2) with ((base + o1) - (base + o2)) by ring.
    rewrite Zminus_mod, E', Z.sub_diag. reflexivity.
  - intros E. do 2 f_equal.
    pose proof (Z.div_mod (o1 - o2) 1440 ltac:(lia)) as D.
    rewrite E, Z.add_0_r in D.
    replace (base + o1) with (base + o2 + ((o1 - o2) / 1440) * 1440) by lia.
    apply Z.mod_add. lia.
Qed.

Lemma offsetToTime_same_time_iff_witness :
  offsetToTime (VStr "19:00") (-1410) = offsetToTime (VStr "19:00") 30
  <-> (-1410 - 30) mod 1440 = 0.
Proof. apply offsetToTime_same_time_iff; reflexivity. Defined.

(* ================================================================== *)
(** * Further properties of SlotDecoder *)
(* ================================================================== *)

(** One turn of the loop keeps any property of the slots built so far that
    holds of each slot the turn can add. *)
Lemma pushSlot_keeps (P : DecodedSlot -> Prop) (baseTime : value) :
  (forall off t ty,
      offsetToTime baseTime off = Ok t -> nullish ty = false ->
      P {| time := t; type := ty |}) ->
  forall acc slot acc',
    Forall P acc -> pushSlot baseTime acc slot = Ok acc' -> Forall P acc'.
Proof.
  intros HP acc slot acc' Hacc. unfold pushSlot.
  destruct (prop slot "isAvailable") as [a|]; [|discriminate].
  cbn [bind]. destruct (truthy a); [|now intros [= <-]].
  destruct (opt_prop slot "timeOffsetMinutes") as [| | |off| | |];
    try (now intros [= <-]).
  destruct (offsetToTime baseTime off) as [t|] eqn:Ht; [|discriminate].
  cbn [bind]. intros [= <-].
  apply Forall_app. split; [assumption|].
  constructor; [|constructor].
  apply (HP off); [assumption|].
  unfold coalesce. now destruct (nullish (opt_prop slot "type")) eqn:E.
Qed.

Lemma for_of_pushSlot_keeps (P : DecodedSlot -> Prop) (baseTime : value) :
  (forall off t ty,
      offsetToTime baseTime off = Ok t -> nullish ty = false ->
      P {| time := t; type := ty |}) ->
  forall elems acc acc',
    Forall P acc ->
    for_of (pushSlot baseTime) elems acc = Ok acc' -> Forall P acc'.
Proof.
  intros HP. induction elems as [|slot elems IH]; intros acc acc' Hacc.
  - now intros [= <-].
  - cbn [for_of].
    destruct (pushSlot baseTime acc slot) as [acc1|] eqn:E; [|discriminate].
    cbn [bind]. apply IH. eapply pushSlot_keeps; eassumption.
Qed.

Lemma extractSlots_keeps (P : DecodedSlot -> Prop)
  (res baseTime requestedDate : value) (slots : list DecodedSlot) :
  (forall off t ty,
      offsetToTime baseTime off = Ok t -> nullish ty = false ->
      P {| time := t; type := ty |}) ->
  extractSlots res baseTime requestedDate = Ok slots -> Forall P slots.
Proof.
  intros HP. unfold extractSlots.
  destruct (availabilityDays res) as [days|]; [|discriminate]. cbn [bind].
  destruct (selectDay0 days) as [day0|]; [|discriminate]. cbn [bind].
  unfold decodeDay.
  destruct (negb (truthy (opt_prop day0 "slots"))); [now intros [= <-]|].
  destruct (prop day0 "slots") as [s|]; [|discriminate]. cbn [bind].
  destruct (iterate s) as [elems|]; [|discriminate]. cbn [bind].
  now apply for_of_pushSlot_keeps.
Qed.

(** X5. Whatever the shape of the response (conforming to the declared type
    or not), a slot that [extractSlots] returns never has an absent type
    ([undefined] or [null]). When moreover the base time is a well-formed
    ["HH:MM"] and every number of the response is an integer of at most
    2^53 - 1440 in absolute value, the time of every returned slot is a
    well-formed ["HH:MM"] too. (An offset with a fraction, such as 7.5, is no
    value of the model: the script decodes it to a text that is no time of
    day.) *)
Theorem extractSlots_slots_well_formed :
  forall (res baseTime requestedDate : value) (slots : list DecodedSlot),
    extractSlots res baseTime requestedDate = Ok slots ->
    Forall (fun s => nullish (type s) = false) slots
    /\ (forall b, baseTime = VStr b -> wellFormed b = true ->
                  exactNumbers res = true ->
                  Forall (fun s => wellFormed (time s) = true) slots).
Proof.
  intros res baseTime requestedDate slots H. split.
  - apply (extractSlots_keeps _ _ _ _ _ (fun _ _ _ _ Hty => Hty) H).
  - intros b -> Hb _.
    apply (extractSlots_keeps
             (fun s => wellFormed (time s) = true) _ _ _ _) in H;
      [assumption|].
    intros off t ty [= <-] _. cbn [time].
    rewrite (wrappedTime_wellFormed _ _ Hb).
    apply formatMinutes_wellFormed.
    apply Z.mod_pos_bound. lia.
Qed.

Lemma extractSlots_slots_well_formed_witness :
  extractSlots sampleResponse (VStr "23:30") VUndef
  = Ok [{| time := "23:30"; type := VStr "Standard" |}]
  /\ Forall (fun s => wellFormed (time s) = true)
            [{| time := "23:30"; type := VStr "Standard" |}].
Proof.
  split; [reflexivity|].
  exact (proj2 (extractSlots_slots_well_formed
                  sampleResponse (VStr "23:30") VUndef _ eq_refl)
               "23:30" eq_refl eq_refl eq_refl).
Defined.

Lemma for_of_pushSlot_not_text (baseTime : value) (slots : list value) :
  (forall s, baseTime <> VStr s) ->
  Forall (fun s => slotConforms s = true) slots ->
  forall acc,
    for_of (pushSlot baseTime) slots acc
    = if existsb included slots then Throw TypeError else Ok acc.
Proof.
  intros Hbt. induction 1 as [|slot slots Hs _ IH]; intros acc;
    cbn [for_of existsb]; [reflexivity|].
  assert (E : pushSlot baseTime acc slot
              = if included slot then Throw TypeError else Ok acc).
  { destruct slot; try discriminate.
    unfold pushSlot, included. cbn [prop bind]. cbn [slotConforms] in Hs.
    cbn [opt_prop] in *.
    destruct (assoc "isAvailable" props) as [| |[|]| | | |];
      try discriminate; cbn [truthy]; try reflexivity.
    destruct (assoc "timeOffsetMinutes" props); try reflexivity.
    destruct baseTime; try reflexivity. now destruct (Hbt s). }
  rewrite E. destruct (included slot); cbn [bind orb]; [reflexivity|].
  apply IH.
Qed.

(** X6. A base time that is not a string (a number, [null], an object; the
    HAR request's [variables.time] is whatever the JSON holds) makes
    [extractSlots] throw a [TypeError] exactly when the selected day has a
    slot the filtering rule includes; when it has none, the result is the
    empty list and the base time is never looked at. *)
Theorem extractSlots_base_time_not_text :
  forall (res baseTime requestedDate : value)
         (days : list value) (day0 : value) (slots : list value),
    (forall s, baseTime <> VStr s) ->
    nullish res = false ->
    firstAvailabilityDays res = VArr days ->
    Forall (fun d => nullish d = false) days ->
    Selected days day0 ->
    opt_prop day0 "slots" = VArr slots ->
    Forall (fun s => slotConforms s = true) slots ->
    extractSlots res baseTime requestedDate
    = if existsb included slots then Throw TypeError else Ok [].
Proof.
  intros res baseTime requestedDate days day0 slots
         Hbt Hres Hpath Hdays Hsel Hslots Hconf.
  destruct (extractSlots_unfold res baseTime requestedDate days Hres)
    as (day0' & Hsel' & ->); [left; auto | assumption |].
  rewrite (Selected_functional _ _ _ Hsel' Hsel).
  unfold decodeDay. rewrite Hslots. cbn [truthy negb].
  destruct day0; try discriminate. cbn in Hslots |- *. rewrite Hslots.
  cbn [iterate bind]. now apply for_of_pushSlot_not_text.
Qed.

Lemma extractSlots_base_time_not_text_witness :
  extractSlots sampleResponse (VNum 1900) (VStr "2026-02-26")
  = Throw TypeError.
Proof.
  refine (extractSlots_base_time_not_text sampleResponse (VNum 1900) _
            [sampleDay1; sampleDay0] sampleDay0 _
            _ eq_refl eq_refl _ _ eq_refl _).
  - discriminate.
  - repeat constructor.
  - apply (SelectedDay0 _ [sampleDay1] [] sampleDay0);
      [reflexivity | reflexivity | repeat constructor].
  - repeat constructor.
Defined.

(* ================================================================== *)
(** * Further properties of HarSource *)
(* ================================================================== *)

(** What every accepted entry has, whatever the filters. *)
Lemma entryMatches_accepts (filterDate : string) (filterParty : Z)
  (e : value) :
  entryMatches filterDate filterParty e = Ok true ->
  exists request response,
    prop e "request" = Ok request
    /\ strict_eq_str (opt_prop request "method") "POST" = true
    /\ nullish (opt_prop request "url") = false
    /\ includes (opt_prop request "url") "RestaurantsAvailability" = Ok true
    /\ prop e "response" = Ok response
    /\ truthy (opt_prop (opt_prop response "content") "text") = true.
Proof.
  unfold entryMatches.
  destruct (prop e "request") as [request|] eqn:Hreq; [|discriminate].
  cbn [bind].
  destruct (strict_eq_str (opt_prop request "method") "POST") eqn:Hm;
    [|discriminate]. cbn [negb].
  destruct (nullish (opt_prop request "url")) eqn:Hn; [discriminate|].
  destruct (includes (opt_prop request "url") "RestaurantsAvailability")
    as [[|]|] eqn:Hurl; try discriminate. cbn [bind negb].
  destruct (prop e "response") as [response|] eqn:Hresp; [|discriminate].
  cbn [bind].
  destruct (truthy (opt_prop (opt_prop response "content") "text")) eqn:Ht;
    [|discriminate].
  intros _. exists request, response. repeat split; assumption.
Qed.

Lemma prop_Ok_opt_prop (v x : value) (k : string) :
  prop v k = Ok x -> opt_prop v k = x.
Proof. destruct v; cbn; congruence. Qed.

(** X7. The two filters only narrow: an entry accepted under any date and
    party-size filter is accepted when no filter is set, and it is a POST to
    the operation with a non-empty response text. *)
Theorem entryMatches_filters_only_narrow :
  forall (filterDate : string) (filterParty : Z) (e : value),
    entryMatches filterDate filterParty e = Ok true ->
    entryMatches "" 0 e = Ok true
    /\ strict_eq_str (opt_prop (opt_prop e "request") "method") "POST" = true
    /\ truthy (responseText e) = true.
Proof.
  intros filterDate filterParty e H.
  destruct (entryMatches_accepts _ _ _ H)
    as (request & response & Hreq & Hm & Hn & Hurl & Hresp & Htext).
  unfold entryMatches, responseText.
  rewrite Hreq, (prop_Ok_opt_prop _ _ _ Hreq). cbn [bind].
  rewrite Hm, Hn, Hurl. cbn [negb bind].
  rewrite Hresp, (prop_Ok_opt_prop _ _ _ Hresp). cbn [bind].
  rewrite Htext. repeat split.
Qed.

Lemma entryMatches_filters_only_narrow_witness :
  entryMatches "2026-02-26" 4 entryFor26 = Ok true
  /\ entryMatches "" 0 entryFor26 = Ok true.
Proof.
  split; [reflexivity|].
  exact (proj1 (entryMatches_filters_only_narrow
                  "2026-02-26" 4 entryFor26 eq_refl)).
Defined.

Lemma filter_elems_accepted (f : value -> result bool) (elems : list value) :
  forall kept,
    filter_elems f elems = Ok kept -> Forall (fun e => f e = Ok true) kept.
Proof.
  induction elems as [|e elems IH]; intros kept; cbn [filter_elems].
  - intros [= <-]. constructor.
  - destruct (f e) as [b|] eqn:Hb; [|discriminate]. cbn [bind].
    destruct (filter_elems f elems) as [kept'|]; [|discriminate]. cbn [bind].
    intros [= <-]. specialize (IH _ eq_refl).
    destruct b; [constructor|]; assumption.
Qed.

Lemma pbind_ret {A B : Type} (a : A) (k : A -> Proc B) :
  pbind (ret a) k = k a.
Proof. unfold pbind, ret, after. cbn. now destruct (k a). Qed.

Section HarRuns.

Variable JSON_parse : value -> result value.
Variable readFileSync : string -> result string.
Variable filterDate : string.
Variable filterParty : Z.
Variable json : bool.

(** One turn of the loop on an entry with a response text: one result printed
    or one failure reported. *)
Lemma harLoop_turn (entry response : value) (rest : list value)
  (baseTime : value) :
  prop entry "response" = Ok response ->
  truthy (opt_prop (opt_prop response "content") "text") = true ->
  (exists slots d,
      (filterDate <> "" -> d = VStr filterDate)
      /\ harLoop JSON_parse filterDate filterParty json (entry :: rest) baseTime
         = after [PrintResult slots d json]
                 (if filtering filterDate filterParty then ret tt
                  else harLoop JSON_parse filterDate filterParty json rest
                         (updateBaseTime JSON_parse entry baseTime)))
  \/ harLoop JSON_parse filterDate filterParty json (entry :: rest) baseTime
     = after [parseFailure]
             (harLoop JSON_parse filterDate filterParty json rest
                (updateBaseTime JSON_parse entry baseTime)).
Proof.
  intros Hresp Htext.
  cbn [harLoop]. rewrite Hresp. cbn [lift]. rewrite pbind_ret.
  rewrite Htext. cbn [negb].
  destruct (bind (JSON_parse _) _) as [slots|].
  - left. eexists _, _. split; [|reflexivity].
    intros Hne. apply String.eqb_neq in Hne. rewrite Hne. cbn [negb truthy].
    now rewrite Hne.
  - right. reflexivity.
Qed.

(** Every event of the loop is a printed result or a reported failure. *)
Lemma harLoop_events (matches : list value) :
  forall baseTime,
    Forall (fun ev => isPrintResult ev = true \/ ev = parseFailure)
           (fst (harLoop JSON_parse filterDate filterParty json matches baseTime)).
Proof.
  induction matches as [|entry rest IH]; intros baseTime; [constructor|].
  destruct (prop entry "response") as [response|] eqn:Hresp.
  2:{ cbn [harLoop]. rewrite Hresp. constructor. }
  destruct (truthy (opt_prop (opt_prop response "content") "text")) eqn:Htext.
  2:{ cbn [harLoop]. rewrite Hresp. cbn [lift]. rewrite pbind_ret.
      rewrite Htext. apply IH. }
  destruct (harLoop_turn entry response rest baseTime Hresp Htext)
    as [(slots & d & _ & ->) | ->]; cbn [after fst app].
  - constructor; [now left|].
    destruct (filtering _ _); [constructor | apply IH].
  - constructor; [now right | apply IH].
Qed.

(** On entries the filter accepted, the loop ends normally. *)
Lemma harLoop_done (matches : list value) :
  Forall (fun e => entryMatches filterDate filterParty e = Ok true) matches ->
  forall baseTime, snd (harLoop JSON_parse filterDate filterParty json matches baseTime) = Done tt.
Proof.
  induction 1 as [|entry rest He _ IH]; intros baseTime; [reflexivity|].
  destruct (entryMatches_accepts _ _ _ He)
    as (request & response & _ & _ & _ & _ & Hresp & Htext).
  destruct (harLoop_turn entry response rest baseTime Hresp Htext)
    as [(slots & d & _ & ->) | ->]; cbn [after snd].
  - destruct (filtering _ _); [reflexivity | apply IH].
  - apply IH.
Qed.

(** With no filter set, the loop reports once for each accepted entry. *)
Lemma harLoop_every_match (matches : list value) :
  filtering filterDate filterParty = false ->
  Forall (fun e => entryMatches filterDate filterParty e = Ok true) matches ->
  forall baseTime,
    length (fst (harLoop JSON_parse filterDate filterParty json matches
                   baseTime))
    = length matches.
Proof.
  intros Hf. induction 1 as [|entry rest He _ IH]; intros baseTime;
    [reflexivity|].
  destruct (entryMatches_accepts _ _ _ He)
    as (request & response & _ & _ & _ & _ & Hresp & Htext).
  destruct (harLoop_turn entry response rest baseTime Hresp Htext)
    as [(slots & d & _ & ->) | ->]; cbn [after fst app length];
    rewrite ?Hf; now rewrite IH.
Qed.

(** With a filter set, the loop stops at the first response that decodes. *)
Lemma harLoop_first_result (matches : list value) :
  filtering filterDate filterParty = true ->
  Forall (fun e => entryMatches filterDate filterParty e = Ok true) matches ->
  forall baseTime,
  exists k,
    (fst (harLoop JSON_parse filterDate filterParty json matches baseTime) = repeat parseFailure k
     /\ k = length matches)
    \/ (exists slots d,
           (filterDate <> "" -> d = VStr filterDate)
           /\ fst (harLoop JSON_parse filterDate filterParty json matches baseTime)
              = (repeat parseFailure k ++ [PrintResult slots d json])%list
           /\ (k < length matches)%nat).
Proof.
  intros Hf. induction 1 as [|entry rest He _ IH]; intros baseTime.
  - exists 0%nat. left. split; reflexivity.
  - destruct (entryMatches_accepts _ _ _ He)
      as (request & response & _ & _ & _ & _ & Hresp & Htext).
    destruct (harLoop_turn entry response rest baseTime Hresp Htext)
      as [(slots & d & Hd & ->) | ->]; cbn [after fst app].
    + rewrite Hf. exists 0%nat. right. exists slots, d.
      repeat split; [assumption | cbn; lia].
    + destruct (IH (updateBaseTime JSON_parse entry baseTime))
        as [k [[-> ->] | (slots & d & Hd & -> & Hk)]].
      * exists (S (length rest)). left. split; reflexivity.
      * exists (S k). right. exists slots, d.
        repeat split; [assumption | cbn [length]; lia].
Qed.

(** A result is printed under a date that is not empty, in the format
    asked for. *)
Lemma harLoop_printed (matches : list value) :
  forall baseTime slots d j,
    In (PrintResult slots d j)
       (fst (harLoop JSON_parse filterDate filterParty json matches baseTime)) ->
    truthy d = true /\ j = json.
Proof.
  induction matches as [|entry rest IH]; intros baseTime slots d j;
    [intros []|].
  cbn [harLoop].
  destruct (prop entry "response") as [response|]; [|intros []].
  cbn [lift]. rewrite pbind_ret.
  destruct (negb (truthy _)); [apply IH|].
  destruct (bind (JSON_parse _) _) as [slots'|]; simp_run; cbn [In].
  - intros [E | Hin].
    + inversion E; subst. split; [|reflexivity].
      now destruct (truthy (if negb (filterDate =? "")%string
                            then VStr filterDate
                            else dateOfRequest JSON_parse entry)) eqn:Ht.
    + destruct (negb (filterDate =? "")%string || negb (filterParty =? 0));
        [destruct Hin | eapply IH; eassumption].
  - intros [E | Hin]; [discriminate | eapply IH; eassumption].
Qed.

(** The run once the log is read and filtered. *)
Lemma runHarMode_filtered (harPath fileText : string)
  (har log : value) (matches : list value) :
  readFileSync harPath = Ok fileText ->
  JSON_parse (VStr fileText) = Ok har ->
  prop har "log" = Ok log ->
  (forall elems, log <> VArr elems) ->
  JS.filter (coalesce (opt_prop log "entries") (VArr []))
            (entryMatches filterDate filterParty) = Ok matches ->
  Forall (fun e => entryMatches filterDate filterParty e = Ok true) matches
  /\ runHarMode JSON_parse readFileSync harPath filterDate filterParty json
     = match matches with
       | [] => ([noMatch], Exit 1)
       | _ => harLoop JSON_parse filterDate filterParty json matches
                (VStr "19:00")
       end.
Proof.
  intros Hread Hparse Hlog Hnot Hfilter. split.
  - destruct (coalesce _ _); try discriminate.
    now apply filter_elems_accepted in Hfilter.
  - unfold runHarMode. rewrite Hread. cbn [lift]. rewrite pbind_ret.
    rewrite Hparse. cbn [lift]. rewrite pbind_ret.
    rewrite Hlog. cbn [lift]. rewrite pbind_ret.
    assert (E : match log with
                | VArr _ => Throw TypeError
                | _ => JS.filter (coalesce (opt_prop log "entries") (VArr []))
                                 (entryMatches filterDate filterParty)
                end = Ok matches).
    { destruct log; try assumption. now destruct (Hnot elems). }
    rewrite E. cbn [lift]. rewrite pbind_ret.
    destruct matches; reflexivity.
Qed.

End HarRuns.

(** X8. HAR mode is offline: whatever the file holds and whatever the
    filters, a run of [runHarMode] launches no browser, opens no page and
    sends nothing; every event of it is a printed result or a message on the
    error stream. *)
Theorem runHarMode_offline :
  forall (JSON_parse : value -> result value)
         (readFileSync : string -> result string)
         (harPath filterDate : string) (filterParty : Z) (json : bool),
    Forall (fun ev => isOutput ev = true)
           (fst (runHarMode JSON_parse readFileSync harPath filterDate
                   filterParty json)).
Proof.
  intros JSON_parse readFileSync harPath filterDate filterParty json.
  unfold runHarMode.
  destruct (readFileSync harPath) as [fileText|]; [|constructor].
  cbn [lift]. rewrite pbind_ret.
  destruct (JSON_parse (VStr fileText)) as [har|]; [|constructor].
  cbn [lift]. rewrite pbind_ret.
  destruct (prop har "log") as [log|]; [|constructor].
  cbn [lift]. rewrite pbind_ret.
  destruct (match log with VArr _ => _ | _ => _ end) as [matches|];
    [|constructor].
  cbn [lift]. rewrite pbind_ret.
  destruct matches as [|entry rest]; [repeat constructor|].
  eapply Forall_impl; [|apply harLoop_events].
  intros ev [H | ->]; [now destruct ev | reflexivity].
Qed.

(** X9. Once the log is read, [runHarMode] ends by [process.exit(1)], after
    the one message that nothing matches, exactly when the filter accepts no
    entry. When it accepts one, the run ends normally and that message is
    never printed, even if no response decodes. *)
Theorem runHarMode_exits_iff_no_match :
  forall (JSON_parse : value -> result value)
         (readFileSync : string -> result string)
         (harPath filterDate : string) (filterParty : Z) (json : bool)
         (fileText : string) (har log : value) (matches : list value),
    readFileSync harPath = Ok fileText ->
    JSON_parse (VStr fileText) = Ok har ->
    prop har "log" = Ok log ->
    (forall elems, log <> VArr elems) ->
    JS.filter (coalesce (opt_prop log "entries") (VArr []))
              (entryMatches filterDate filterParty) = Ok matches ->
    let run := runHarMode JSON_parse readFileSync harPath filterDate
                 filterParty json in
    (matches = [] -> run = ([noMatch], Exit 1))
    /\ (matches <> [] -> snd run = Done tt /\ ~ In noMatch (fst run)).
Proof.
  intros JSON_parse readFileSync harPath filterDate filterParty json
         fileText har log matches Hread Hparse Hlog Hnot Hfilter run.
  destruct (runHarMode_filtered _ _ _ _ json _ _ _ _ _
              Hread Hparse Hlog Hnot Hfilter) as [Hacc Hrun].
  subst run. rewrite Hrun. split; [now intros -> |].
  intros Hne. destruct matches as [|entry rest]; [contradiction|].
  split; [now apply harLoop_done|].
  intros Hin.
  pose proof (harLoop_events JSON_parse filterDate filterParty json
                (entry :: rest) (VStr "19:00")) as Hev.
  rewrite Forall_forall in Hev.
  destruct (Hev _ Hin) as [H | H]; discriminate H.
Qed.

Lemma runHarMode_exits_iff_no_match_witness :
  runHarMode Json.parse (fun _ => Ok "{}") "empty.har" "2026-02-26" 4 false
  = ([noMatch], Exit 1).
Proof.
  refine (proj1 (runHarMode_exits_iff_no_match
                   Json.parse (fun _ => Ok "{}") "empty.har" "2026-02-26" 4
                   false "{}" (VObj []) VUndef [] eq_refl _ eq_refl _ _)
                eq_refl).
  - vm_compute. reflexivity.
  - discriminate.
  - vm_compute. reflexivity.
Defined.

(** X10. With no filter set ([filterDate] empty and [filterParty] 0), a run
    reports once for every entry the filter accepted, in one pass: the number
    of its events is the number of accepted entries, each a printed result or
    a parse-failure message. No accepted entry is skipped in silence. *)
Theorem runHarMode_reports_every_match :
  forall (JSON_parse : value -> result value)
         (readFileSync : string -> result string)
         (harPath : string) (json : bool)
         (fileText : string) (har log : value) (matches : list value),
    readFileSync harPath = Ok fileText ->
    JSON_parse (VStr fileText) = Ok har ->
    prop har "log" = Ok log ->
    (forall elems, log <> VArr elems) ->
    JS.filter (coalesce (opt_prop log "entries") (VArr []))
              (entryMatches "" 0) = Ok matches ->
    matches <> [] ->
    let run := runHarMode JSON_parse readFileSync harPath "" 0 json in
    length (fst run) = length matches
    /\ Forall (fun ev => isPrintResult ev = true \/ ev = parseFailure)
              (fst run).
Proof.
  intros JSON_parse readFileSync harPath json
         fileText har log matches Hread Hparse Hlog Hnot Hfilter Hne run.
  destruct (runHarMode_filtered _ _ _ _ json _ _ _ _ _
              Hread Hparse Hlog Hnot Hfilter) as [Hacc Hrun].
  subst run. rewrite Hrun.
  destruct matches as [|entry rest]; [contradiction|].
  split; [now apply harLoop_every_match | apply harLoop_events].
Qed.

Lemma runHarMode_reports_every_match_witness :
  length (fst (runHarMode Json.parse sampleFiles "capture.har" "" 0 true))
  = 3%nat.
Proof.
  refine (proj1 (runHarMode_reports_every_match
                   Json.parse sampleFiles "capture.har" true
                   (Json.stringify sampleHar) sampleHar
                   (VObj [("entries",
                           VArr [entryFor26; entryWithoutTime;
                                 entryWithoutBody])])
                   [entryFor26; entryWithoutTime; entryWithoutBody]
                   eq_refl _ eq_refl _ _ _)).
  - vm_compute. reflexivity.
  - discriminate.
  - vm_compute. reflexivity.
  - discriminate.
Defined.

(** X11. With a filter set, a run prints at most one result and nothing after
    it: its events are parse failures, one for each accepted entry tried,
    followed by the first result that decodes, if any; a date filter is the
    date the result is printed under. *)
Theorem runHarMode_stops_at_first_result :
  forall (JSON_parse : value -> result value)
         (readFileSync : string -> result string)
         (harPath filterDate : string) (filterParty : Z) (json : bool)
         (fileText : string) (har log : value) (matches : list value),
    filtering filterDate filterParty = true ->
    readFileSync harPath = Ok fileText ->
    JSON_parse (VStr fileText) = Ok har ->
    prop har "log" = Ok log ->
    (forall elems, log <> VArr elems) ->
    JS.filter (coalesce (opt_prop log "entries") (VArr []))
              (entryMatches filterDate filterParty) = Ok matches ->
    matches <> [] ->
    let run := runHarMode JSON_parse readFileSync harPath filterDate
                 filterParty json in
    exists k,
      (fst run = repeat parseFailure k /\ k = length matches)
      \/ (exists slots d,
             (filterDate <> "" -> d = VStr filterDate)
             /\ fst run
                = (repeat parseFailure k ++ [PrintResult slots d json])%list
             /\ (k < length matches)%nat).
Proof.
  intros JSON_parse readFileSync harPath filterDate filterParty json
         fileText har log matches Hf Hread Hparse Hlog Hnot Hfilter Hne run.
  destruct (runHarMode_filtered _ _ _ _ json _ _ _ _ _
              Hread Hparse Hlog Hnot Hfilter) as [Hacc Hrun].
  subst run. rewrite Hrun.
  destruct matches as [|entry rest]; [contradiction|].
  now apply harLoop_first_result.
Qed.

Lemma runHarMode_stops_at_first_result_witness :
  exists k,
    (fst (runHarMode Json.parse sampleFiles "capture.har" "2026-02-27" 4 false)
     = repeat parseFailure k /\ k = 2%nat)
    \/ (exists slots d,
           ("2026-02-27" <> EmptyString -> d = VStr "2026-02-27")
           /\ fst (runHarMode Json.parse sampleFiles "capture.har"
                      "2026-02-27" 4 false)
              = (repeat parseFailure k ++ [PrintResult slots d false])%list
           /\ (k < 2)%nat).
Proof.
  refine (runHarMode_stops_at_first_result
            Json.parse sampleFiles "capture.har" "2026-02-27" 4 false
            (Json.stringify sampleHar) sampleHar
            (VObj [("entries",
                    VArr [entryFor26; entryWithoutTime; entryWithoutBody])])
            [entryWithoutTime; entryWithoutBody]
            eq_refl eq_refl _ eq_refl _ _ _).
  - vm_compute. reflexivity.
  - discriminate.
  - vm_compute. reflexivity.
  - discriminate.
Defined.

(** X28. HAR mode never prints a result under an empty date: the date is the
    date filter, else the date of the entry's own request, else the text
    [date-unknown]; and the format is the one asked for. *)
Theorem runHarMode_date_never_empty :
  forall (JSON_parse : value -> result value)
         (readFileSync : string -> result string)
         (harPath filterDate : string) (filterParty : Z) (json : bool)
         (slots : list DecodedSlot) (d : value) (j : bool),
    In (PrintResult slots d j)
       (fst (runHarMode JSON_parse readFileSync harPath filterDate
               filterParty json)) ->
    truthy d = true /\ j = json.
Proof.
  intros JSON_parse readFileSync harPath filterDate filterParty json
         slots d j.
  unfold runHarMode.
  destruct (readFileSync harPath) as [fileText|]; [|intros []].
  cbn [lift]. rewrite pbind_ret.
  destruct (JSON_parse (VStr fileText)) as [har|]; [|intros []].
  cbn [lift]. rewrite pbind_ret.
  destruct (prop har "log") as [log|]; [|intros []].
  cbn [lift]. rewrite pbind_ret.
  destruct (match log with VArr _ => _ | _ => _ end) as [matches|];
    [|intros []].
  cbn [lift]. rewrite pbind_ret.
  destruct matches as [|entry rest].
  - cbn. intros [H | []]. discriminate H.
  - apply harLoop_printed.
Qed.

Lemma runHarMode_date_never_empty_witness :
  truthy (VStr "date-unknown") = true /\ false = false.
Proof.
  apply (runHarMode_date_never_empty
           Json.parse sampleFiles "capture.har" "" 0 false
           [{| time := "18:00"; type := VStr "Standard" |}]
           (VStr "date-unknown") false).
  vm_compute. do 2 right. left. reflexivity.
Defined.

(* ================================================================== *)
(** * Further properties of the live pipeline *)
(* ================================================================== *)

(** The handler resolves the capture on the requests [isQuery] accepts, with
    the request's own body. *)
Lemma onRequest_isQuery (req : Request) :
  match onRequest req with
  | Some captured =>
      isQuery req = true /\ req_postData req = Some (Live.body captured)
  | None => isQuery req = false
  end.
Proof.
  unfold onRequest, isQuery.
  destruct (req_method req =? "POST")%string; [|reflexivity].
  destruct (str_includes "RestaurantsAvailability" (req_url req));
    [|reflexivity].
  destruct (req_postData req) as [[|c postData]|]; cbn; auto.
Qed.

(** X12. The capture resolves with the first request that is a POST to the
    operation with a non-empty body, whatever comes after it, and with that
    request's body; it is rejected, always with the timeout error, exactly
    when the page sends no such request. *)
Theorem capturePromise_first_query :
  forall requests : list Request,
    (forall captured,
        capturePromise requests = Ok captured ->
        exists before req rest,
          requests = (before ++ req :: rest)%list
          /\ Forall (fun r => isQuery r = false) before
          /\ isQuery req = true
          /\ onRequest req = Some captured
          /\ req_postData req = Some (Live.body captured))
    /\ (forall e, capturePromise requests = Throw e ->
                  e = Error timeoutMessage)
    /\ (capturePromise requests = Throw (Error timeoutMessage)
        <-> Forall (fun r => isQuery r = false) requests).
Proof.
  induction requests as [|req requests (IH1 & IH2 & IH3)];
    cbn [capturePromise].
  - repeat split; try discriminate; try constructor.
    now intros e [= <-].
  - pose proof (onRequest_isQuery req) as Hq.
    destruct (onRequest req) as [c|] eqn:Hon.
    + destruct Hq as [Hq Hbody]. repeat split; try discriminate.
      * intros captured [= <-]. exists [], req, requests.
        repeat split; auto.
      * intros Hall. inversion Hall; subst. congruence.
    + repeat split.
      * intros captured Hc.
        destruct (IH1 _ Hc) as (before & r & rest & -> & Hb & Hr & Ho & Hp).
        exists (req :: before), r, rest. repeat split; auto.
      * exact IH2.
      * intros Ht. constructor; [assumption | now apply IH3].
      * intros Hall. inversion Hall; subst. now apply IH3.
Qed.

Lemma capturePromise_first_query_witness :
  exists before req rest,
    [pageRequest; queryRequest sampleBody] = (before ++ req :: rest)%list
    /\ Forall (fun r => isQuery r = false) before
    /\ isQuery req = true
    /\ onRequest req
       = Some {| Live.body := sampleBody;
                 headers := [("content-type", "application/json");
                             ("x-csrf-token", "c5f1");
                             ("ot-page-type", "restprofilepage")] |}
    /\ req_postData req = Some sampleBody.
Proof.
  exact (proj1 (capturePromise_first_query
                  [pageRequest; queryRequest sampleBody])
               {| Live.body := sampleBody;
                  headers := [("content-type", "application/json");
                              ("x-csrf-token", "c5f1");
                              ("ot-page-type", "restprofilepage")] |}
               eq_refl).
Defined.

Lemma set_prop_In {V : Type} (k k' : string) (v v' : V)
  (props : list (string * V)) :
  In (k, v) (set_prop k' v' props) -> (k, v) = (k', v') \/ In (k, v) props.
Proof.
  induction props as [|[k2 v2] props IH]; cbn.
  - intros [H | []]. left. congruence.
  - destruct (k' =? k2)%string; cbn.
    + intros [H | H]; [left; congruence | right; now right].
    + intros [H | H]; [right; now left|].
      destruct (IH H) as [E | Hin]; [now left | right; now right].
Qed.

Lemma set_prop_keys {V : Type} (k : string) (v : V)
  (props : list (string * V)) :
  map fst (set_prop k v props)
  = if existsb (String.eqb k) (map fst props) then map fst props
    else (map fst props ++ [k])%list.
Proof.
  induction props as [|[k2 v2] props IH]; cbn; [reflexivity|].
  destruct (k =? k2)%string eqn:E; cbn.
  - apply String.eqb_eq in E. now subst.
  - rewrite IH. now destruct (existsb _ _).
Qed.

Lemma existsb_eqb_In (k : string) (ks : list string) :
  existsb (String.eqb k) ks = true <-> In k ks.
Proof.
  rewrite existsb_exists. split.
  - intros (x & Hin & E). apply String.eqb_eq in E. now subst.
  - intros Hin. exists k. split; [assumption | apply String.eqb_refl].
Qed.

Lemma set_prop_keys_NoDup {V : Type} (k : string) (v : V)
  (props : list (string * V)) :
  NoDup (map fst props) -> NoDup (map fst (set_prop k v props)).
Proof.
  intros Hnd. rewrite set_prop_keys.
  destruct (existsb _ _) eqn:E; [assumption|].
  apply NoDup_app; [assumption | repeat constructor; auto |].
  intros x Hin [<- | []].
  apply existsb_eqb_In in Hin. congruence.
Qed.

Lemma set_prop_keys_incl {V : Type} (k k' : string) (v : V)
  (props : list (string * V)) :
  k = k' \/ In k (map fst props) -> In k (map fst (set_prop k' v props)).
Proof.
  rewrite set_prop_keys. intros [-> | Hin].
  - destruct (existsb _ _) eqn:E.
    + now apply existsb_eqb_In.
    + apply in_or_app. right. now left.
  - destruct (existsb _ _); [assumption | apply in_or_app; now left].
Qed.

(** The loop of lines 265-270 over the request's headers, from the headers
    kept so far. *)
Lemma kept_headers_fold (raw acc : list (string * string)) :
  let kept :=
    fold_left
      (fun headersObj kv =>
         if keptHeader (fst kv) then set_prop (fst kv) (snd kv) headersObj
         else headersObj)
      raw acc in
  (forall k v, In (k, v) kept ->
               In (k, v) acc \/ (keptHeader k = true /\ In (k, v) raw))
  /\ (forall k, In k (map fst acc)
                \/ (keptHeader k = true /\ In k (map fst raw)) ->
                In k (map fst kept))
  /\ (NoDup (map fst acc) -> NoDup (map fst kept)).
Proof.
  revert acc. induction raw as [|[k0 v0] raw IH]; intros acc; cbn zeta.
  - cbn [fold_left]. repeat split; auto. intros k [H | [_ []]]. exact H.
  - cbn [fold_left fst snd].
    destruct (IH (if keptHeader k0 then set_prop k0 v0 acc else acc))
      as (IH1 & IH2 & IH3).
    repeat split.
    + intros k v Hin. destruct (IH1 _ _ Hin) as [Hacc | [Hk Hraw]].
      * destruct (keptHeader k0) eqn:Hk0; [|now left].
        destruct (set_prop_In _ _ _ _ _ Hacc) as [E | Hold];
          [|now left].
        inversion E; subst. right. split; [assumption | now left].
      * right. split; [assumption | now right].
    + intros k H. apply IH2.
      destruct H as [Hacc | [Hk [E | Hraw]]].
      * left. destruct (keptHeader k0); [|assumption].
        apply set_prop_keys_incl. now right.
      * cbn [fst] in E. subst k0. left. rewrite Hk.
        apply set_prop_keys_incl. now left.
      * right. now split.
    + intros Hnd. apply IH3.
      destruct (keptHeader k0); [|assumption].
      now apply set_prop_keys_NoDup.
Qed.

(** X13. The headers the capture keeps are the request's own: every one is a
    header of the request, under a name of the white list (compared without
    regard to case); every white-listed name of the request is kept; and no
    name is kept twice. *)
Theorem onRequest_keeps_listed_headers :
  forall (req : Request) (captured : Captured),
    onRequest req = Some captured ->
    (forall k v, In (k, v) (headers captured) ->
                 keptHeader k = true /\ In (k, v) (req_headers req))
    /\ (forall k, keptHeader k = true -> In k (map fst (req_headers req)) ->
                  In k (map fst (headers captured)))
    /\ NoDup (map fst (headers captured)).
Proof.
  intros req captured. unfold onRequest.
  destruct (negb _); [discriminate|].
  destruct (negb _); [discriminate|].
  destruct (req_postData req) as [[|c postData]|]; try discriminate.
  intros [= <-]. cbn [headers].
  destruct (kept_headers_fold (req_headers req) []) as (G1 & G2 & G3).
  repeat split.
  - destruct (G1 _ _ H) as [[] | [Hk _]]. exact Hk.
  - destruct (G1 _ _ H) as [[] | [_ Hin]]. exact Hin.
  - intros k Hk Hin. apply G2. right. now split.
  - apply G3. constructor.
Qed.

Lemma onRequest_keeps_listed_headers_witness :
  NoDup (map fst [("content-type", "application/json");
                  ("x-csrf-token", "c5f1");
                  ("ot-page-type", "restprofilepage")]).
Proof.
  exact (proj2 (proj2 (onRequest_keeps_listed_headers
                         (queryRequest sampleBody)
                         {| Live.body := sampleBody;
                            headers := [("content-type", "application/json");
                                        ("x-csrf-token", "c5f1");
                                        ("ot-page-type", "restprofilepage")] |}
                         eq_refl))).
Defined.

Lemma header_set_prop_same (k v : string) (hs : list (string * string)) :
  header k (set_prop k v hs) = Some v.
Proof.
  induction hs as [|[k' v'] hs IH]; cbn.
  - now rewrite String.eqb_refl.
  - destruct (k =? k')%string eqn:E; cbn.
    + now rewrite String.eqb_refl.
    + now rewrite E.
Qed.

Lemma header_set_prop_other (k k' v : string) (hs : list (string * string)) :
  k <> k' -> header k (set_prop k' v hs) = header k hs.
Proof.
  intros Hne. apply String.eqb_neq in Hne.
  induction hs as [|[k2 v2] hs IH]; cbn.
  - now rewrite Hne.
  - destruct (k' =? k2)%string eqn:E; cbn.
    + apply String.eqb_eq in E. subst k2. now rewrite Hne.
    + now rewrite IH.
Qed.

(** X14. The headers of the replayed call: [Content-Type], [origin] and
    [referer], under exactly these names, are the script's own values
    whatever was captured; every header captured under another name, a
    lower-case [content-type] included, is sent as captured. *)
Theorem replayHeaders_overrides :
  forall (url : string) (capturedHeaders : list (string * string)),
    header "Content-Type" (replayHeaders url capturedHeaders)
    = Some "application/json"
    /\ header "origin" (replayHeaders url capturedHeaders)
       = Some "https://www.opentable.com"
    /\ header "referer" (replayHeaders url capturedHeaders) = Some url
    /\ (forall k, k <> "Content-Type" -> k <> "origin" -> k <> "referer" ->
                  header k (replayHeaders url capturedHeaders)
                  = header k capturedHeaders).
Proof.
  intros url hs. unfold replayHeaders, set_props. cbn [fold_left fst snd].
  repeat split.
  - rewrite !header_set_prop_other by discriminate.
    apply header_set_prop_same.
  - rewrite header_set_prop_other by discriminate.
    apply header_set_prop_same.
  - apply header_set_prop_same.
  - intros k H1 H2 H3. now rewrite !header_set_prop_other by assumption.
Qed.

Lemma replayHeaders_overrides_witness :
  header "content-type"
         (replayHeaders restaurantUrl [("content-type", "text/plain")])
  = header "content-type" [("content-type", "text/plain")].
Proof.
  refine (proj2 (proj2 (proj2 (replayHeaders_overrides
                                 restaurantUrl
                                 [("content-type", "text/plain")])))
                "content-type" _ _ _); discriminate.
Defined.

Lemma decimal_not_time (n : Z) : ("time" =? decimal n)%string = false.
Proof.
  unfold decimal. destruct (Z.to_int n) as [d|d]; destruct d; reflexivity.
Qed.

Lemma assoc_time_indexed (xs : list value) :
  forall i, assoc "time" (indexed i xs) = VUndef.
Proof.
  induction xs as [|x xs IH]; intros i; cbn [indexed assoc]; [reflexivity|].
  now rewrite decimal_not_time.
Qed.

(** The mutation leaves [time] as the captured variables have it. *)
Lemma newVariables_time (body variables : value) (date : string)
  (partySize : Z) :
  newVariables body date partySize = Ok variables ->
  prop variables "time" = Ok (opt_prop (opt_prop body "variables") "time").
Proof.
  unfold newVariables.
  destruct (prop body "variables") as [v|] eqn:Hv; [|discriminate].
  cbn [bind]. intros H.
  assert (E : variables
              = VObj (set_props
                        [("date", VStr date);
                         ("partySize", VNum partySize);
                         ("forwardMinutes", VNum 295);
                         ("backwardMinutes", VNum 1140);
                         ("forwardTimeslots", VNum 20);
                         ("backwardTimeslots", VNum 76)]
                        (spread v))) by congruence.
  rewrite E. cbn [prop]. f_equal.
  rewrite (prop_Ok_opt_prop _ _ _ Hv).
  rewrite assoc_set_props_other by (cbn; intuition discriminate).
  destruct v; try reflexivity; cbn [spread opt_prop];
    apply assoc_time_indexed.
Qed.

Section LiveRunsFurther.

Variable JSON_parse : value -> result value.
Variable JSON_stringify : value -> string.
Variable engine : Engine.
Variables url date : string.
Variable partySize : Z.
Variables headless json : bool.

(** Every run has one of the eleven shapes of [LiveRun]. The branch for an
    empty captured body (lines 287-291) is none of them: the capture only
    resolves with a non-empty body. *)
Lemma runLiveMode_shape :
  LiveRun url date json
    (runLiveMode JSON_parse JSON_stringify engine url date partySize
                 headless json).
Proof.
  unfold runLiveMode.
  destruct (launchBrowser_cases engine headless) as [-> | [e ->]];
    [|constructor].
  unfold captureRequest, replay.
  cbn [pbind fst snd after app].
  destruct (newPage engine) as [[]|]; [|constructor]. cbn.
  destruct (capturePromise (observed engine url)) as [captured|] eqn:Hcap;
    [|destruct (gotoSettled engine url); constructor]. cbn.
  rewrite (capturePromise_body _ _ Hcap).
  destruct (JSON_parse (VStr (Live.body captured))) as [body|];
    [|constructor]. cbn.
  destruct (newVariables body date partySize) as [variables|];
    [|constructor]. cbn.
  destruct (assignVariables body variables) as [body'|]; [|constructor]. cbn.
  destruct (pageOpen engine); [|constructor]. cbn.
  destruct (post engine _ _ _) as [response|]; [|constructor]. cbn.
  destruct (ok response); [|constructor]. cbn.
  destruct (JSON_parse (VStr (text response))) as [res|]; [|constructor]. cbn.
  destruct (prop variables "time") as [time|]; [|constructor]. cbn.
  destruct (extractSlots res _ _); constructor.
Qed.

End LiveRunsFurther.

(** X15. Live mode never tries anything twice: a run launches the browser at
    most once, navigates at most once, sends at most one replayed call and
    prints at most one result. *)
Theorem runLiveMode_no_retries :
  forall (JSON_parse : value -> result value)
         (JSON_stringify : value -> string) (engine : Engine)
         (url date : string) (partySize : Z) (headless json : bool),
    let trace := fst (runLiveMode JSON_parse JSON_stringify engine url date
                        partySize headless json) in
    (count isBrowserLaunch trace <= 1)%nat
    /\ (count isNavigate trace <= 1)%nat
    /\ (count isHttpPost trace <= 1)%nat
    /\ (count isPrintResult trace <= 1)%nat.
Proof.
  intros. subst trace.
  destruct (runLiveMode_shape JSON_parse JSON_stringify engine url date
              partySize headless json); cbn; lia.
Qed.

(** X16. How a live run ends shows in what it did. It returns normally
    exactly when it printed a result, and then it did five things in order:
    launch, navigate, post, print, close. Every [process.exit] is with code 1
    after exactly one message on the error stream and one close of the
    browser. A run that ends by a propagated exception has printed no
    message. *)
Theorem runLiveMode_endings :
  forall (JSON_parse : value -> result value)
         (JSON_stringify : value -> string) (engine : Engine)
         (url date : string) (partySize : Z) (headless json : bool),
    let run := runLiveMode JSON_parse JSON_stringify engine url date
                 partySize headless json in
    (snd run = Done tt <-> count isPrintResult (fst run) = 1%nat)
    /\ (snd run = Done tt ->
        exists data hs slots,
          fst run = [BrowserLaunch; Navigate url; HttpPost data hs;
                     PrintResult slots (VStr date) json;
                     BrowserClose AtFinally])
    /\ (forall code, snd run = Exit code ->
                     code = 1
                     /\ count isConsoleError (fst run) = 1%nat
                     /\ count isBrowserClose (fst run) = 1%nat)
    /\ (forall e, snd run = Raise e ->
                  count isConsoleError (fst run) = 0%nat).
Proof.
  intros. subst run.
  destruct (runLiveMode_shape JSON_parse JSON_stringify engine url date
              partySize headless json); cbn [fst snd];
    (split; [split; intros H; (discriminate H || reflexivity)|]);
    (split; [intros H; try discriminate H; eauto|]);
    (split; [intros c H; try discriminate H; inversion H; auto
            |intros c H; try discriminate H; reflexivity]).
Qed.

Lemma runLiveMode_endings_witness :
  exists data hs slots,
    fst (runLiveMode Json.parse Json.stringify engineSuccess restaurantUrl
                     "2026-02-26" 4 true false)
    = [BrowserLaunch; Navigate restaurantUrl; HttpPost data hs;
       PrintResult slots (VStr "2026-02-26") false; BrowserClose AtFinally].
Proof.
  refine (proj1 (proj2 (runLiveMode_endings
                          Json.parse Json.stringify engineSuccess
                          restaurantUrl "2026-02-26" 4 true false)) _).
  vm_compute. reflexivity.
Defined.

(** X17. Nothing touches the browser after it is closed: in every live run,
    whatever follows a [browser.close()] is a message on the error stream,
    and the browser is launched before anything else happens. *)
Theorem runLiveMode_nothing_after_close :
  forall (JSON_parse : value -> result value)
         (JSON_stringify : value -> string) (engine : Engine)
         (url date : string) (partySize : Z) (headless json : bool),
    let trace := fst (runLiveMode JSON_parse JSON_stringify engine url date
                        partySize headless json) in
    (forall before site rest,
        trace = (before ++ BrowserClose site :: rest)%list ->
        Forall (fun ev => isConsoleError ev = true) rest)
    /\ (trace = [] \/ hd_error trace = Some BrowserLaunch).
Proof.
  intros. subst trace.
  assert (G : forall t : list event,
             (forall before site rest,
                 t = (before ++ BrowserClose site :: rest)%list ->
                 Forall (fun ev => isConsoleError ev = true) rest) ->
             forall ev, isBrowserClose ev = false ->
             forall before site rest,
               ev :: t = (before ++ BrowserClose site :: rest)%list ->
               Forall (fun ev => isConsoleError ev = true) rest).
  { intros t Ht ev Hev [|b before] site rest E; cbn in E.
    - inversion E; subst. discriminate Hev.
    - inversion E; subst. eapply Ht. reflexivity. }
  assert (G0 : forall site msgs before site' rest,
             Forall (fun ev => isConsoleError ev = true) msgs ->
             BrowserClose site :: msgs
             = (before ++ BrowserClose site' :: rest)%list ->
             Forall (fun ev => isConsoleError ev = true) rest).
  { intros site msgs [|b before] site' rest Hm E; cbn in E.
    - inversion E; subst. assumption.
    - inversion E as [[Hb E']]. subst msgs.
      apply Forall_app in Hm as [_ Hm]. inversion Hm; subst. discriminate. }
  assert (Gnil : forall before site rest,
             [] <> (before ++ BrowserClose site :: rest)%list).
  { intros [|? ?] ? ? E; discriminate E. }
  destruct (runLiveMode_shape JSON_parse JSON_stringify engine url date
              partySize headless json); cbn [fst];
    (split; [|(now left) || (now right)]);
    repeat (first [ intros before site rest E; exfalso;
                    now apply (Gnil before site rest)
                  | intros before site rest E;
                    eapply G0; [|exact E]; now repeat constructor
                  | apply G; [|reflexivity] ]).
Qed.

Lemma runLiveMode_nothing_after_close_witness :
  Forall (fun ev => isConsoleError ev = true)
         [ConsoleError "Invalid captured request body."].
Proof.
  refine (proj1 (runLiveMode_nothing_after_close
                   Json.parse Json.stringify engineBadCapture restaurantUrl
                   "2026-02-26" 4 true false)
                [BrowserLaunch; Navigate restaurantUrl] AtInvalidBody
                [ConsoleError "Invalid captured request body."] _).
  vm_compute. reflexivity.
Defined.

(** X18. The branch for an empty captured body (lines 287-291) is dead: the
    capture resolves only with a non-empty body, so no live run closes the
    browser there or prints its message. *)
Theorem runLiveMode_empty_capture_unreachable :
  forall (JSON_parse : value -> result value)
         (JSON_stringify : value -> string) (engine : Engine)
         (url date : string) (partySize : Z) (headless json : bool),
    let trace := fst (runLiveMode JSON_parse JSON_stringify engine url date
                        partySize headless json) in
    ~ In (BrowserClose AtNoCapture) trace
    /\ ~ In (ConsoleError "Could not capture RestaurantsAvailability request.")
            trace.
Proof.
  intros. subst trace.
  destruct (runLiveMode_shape JSON_parse JSON_stringify engine url date
              partySize headless json); cbn [fst In];
    split; intuition discriminate.
Qed.

(** X19. A result printed in live mode is the answer to the replayed call,
    the call that posts the serialisation of the captured body after the
    mutation under the replay headers, decoded against the [time] of the
    captured request's variables, 19:00 when it is absent: the mutation,
    which rewrites six variables, never changes [time], whatever the captured
    body holds. It is printed under the requested date. *)
Theorem runLiveMode_decodes_against_captured_time :
  forall (JSON_parse : value -> result value)
         (JSON_stringify : value -> string) (engine : Engine)
         (url date : string) (partySize : Z) (headless json : bool)
         (slots : list DecodedSlot) (d : value) (j : bool),
    In (PrintResult slots d j)
       (fst (runLiveMode JSON_parse JSON_stringify engine url date partySize
                         headless json)) ->
    exists captured body body' response res,
      capturePromise (observed engine url) = Ok captured
      /\ JSON_parse (VStr (Live.body captured)) = Ok body
      /\ mutate body date partySize = Ok body'
      /\ post engine GQL_URL (JSON_stringify body')
              (replayHeaders url (headers captured))
         = Ok response
      /\ ok response = true
      /\ JSON_parse (VStr (text response)) = Ok res
      /\ extractSlots res
           (coalesce (opt_prop (opt_prop body "variables") "time")
                     (VStr "19:00"))
           (VStr date) = Ok slots
      /\ d = VStr date /\ j = json.
Proof.
  intros JSON_parse JSON_stringify engine url date partySize headless json
         slots d j.
  unfold runLiveMode, mutate.
  destruct (launchBrowser_cases engine headless) as [-> | [e ->]];
    [|cbn; tauto].
  unfold captureRequest, replay.
  simp_run.
  destruct (newPage engine) as [[]|]; simp_run; [|cbn; intuition discriminate].
  destruct (capturePromise (observed engine url)) as [captured|] eqn:Hcap;
    simp_run;
    [|destruct (gotoSettled engine url); cbn; intuition discriminate].
  destruct (Live.body captured =? "")%string;
    simp_run; [cbn; intuition discriminate|].
  destruct (JSON_parse (VStr (Live.body captured))) as [body|] eqn:Hparse;
    simp_run; [|cbn; intuition discriminate].
  destruct (newVariables body date partySize) as [variables|] eqn:Hvars;
    simp_run; [|cbn; intuition discriminate].
  rewrite (newVariables_time _ _ _ _ Hvars).
  destruct (assignVariables body variables) as [body'|] eqn:Hassign;
    simp_run; [|cbn; intuition discriminate].
  destruct (pageOpen engine); simp_run; [|cbn; intuition discriminate].
  destruct (post engine _ _ _) as [response|] eqn:Hpost; simp_run;
    [|cbn; intuition discriminate].
  destruct (ok response) eqn:Hok; simp_run; [|cbn; intuition discriminate].
  destruct (JSON_parse (VStr (text response))) as [res|] eqn:Hres; simp_run;
    [|cbn; intuition discriminate].
  destruct (extractSlots res _ _) as [slots'|] eqn:Hslots; simp_run;
    [|cbn; intuition discriminate].
  cbn [In]. intros [H | [H | [H | [H | [H | []]]]]]; try discriminate.
  inversion H; subst.
  exists captured, body, body', response, res.
  rewrite Hvars. cbn [bind]. repeat split; assumption.
Qed.

Lemma runLiveMode_decodes_against_captured_time_witness :
  exists captured body body' response res,
    capturePromise (observed engineSuccess restaurantUrl) = Ok captured
    /\ Json.parse (VStr (Live.body captured)) = Ok body
    /\ mutate body "2026-02-26" 4 = Ok body'
    /\ post engineSuccess GQL_URL (Json.stringify body')
            (replayHeaders restaurantUrl (headers captured))
       = Ok response
    /\ ok response = true
    /\ Json.parse (VStr (text response)) = Ok res
    /\ extractSlots res
         (coalesce (opt_prop (opt_prop body "variables") "time")
                   (VStr "19:00"))
         (VStr "2026-02-26")
       = Ok [{| time := "18:00"; type := VStr "Standard" |}]
    /\ VStr "2026-02-26" = VStr "2026-02-26" /\ false = false.
Proof.
  apply (runLiveMode_decodes_against_captured_time
           Json.parse Json.stringify engineSuccess restaurantUrl
           "2026-02-26" 4 true false
           [{| time := "18:00"; type := VStr "Standard" |}]
           (VStr "2026-02-26") false).
  vm_compute. do 3 right. left. reflexivity.
Defined.

(** X20. A launch that fails reports the error of the first attempt, never
    that of the retry on the installed browser, and the retry has then failed
    too whenever the first error names a missing executable; the run has done
    nothing else. *)
Theorem launchBrowser_reports_first_error :
  forall (JSON_parse : value -> result value)
         (JSON_stringify : value -> string) (engine : Engine)
         (url date : string) (partySize : Z) (headless json : bool)
         (e : error),
    snd (launchBrowser engine headless) = Raise e ->
    launch engine headless None = Throw e
    /\ (str_includes "Executable doesn't exist" (errorText e) = true ->
        exists e', launch engine headless (Some "chrome") = Throw e')
    /\ runLiveMode JSON_parse JSON_stringify engine url date partySize
                   headless json = ([], Raise e).
Proof.
  intros JSON_parse JSON_stringify engine url date partySize headless json e.
  unfold runLiveMode, launchBrowser.
  destruct (launch engine headless None) as [[]|e0] eqn:E1; cbn;
    [discriminate|].
  destruct (str_includes _ _) eqn:Hs; cbn.
  - destruct (launch engine headless (Some "chrome")) as [[]|e'] eqn:E2; cbn;
      [discriminate|].
    intros [= <-]. repeat split. intros _. now exists e'.
  - intros [= <-]. repeat split. intros H. congruence.
Qed.

Lemma launchBrowser_reports_first_error_witness :
  runLiveMode Json.parse Json.stringify engineNoBrowser restaurantUrl
              "2026-02-26" 4 true false
  = ([], Raise (Error "browserType.launch: Executable doesn't exist at /ms-playwright/chromium")).
Proof.
  exact (proj2 (proj2 (launchBrowser_reports_first_error
                         Json.parse Json.stringify engineNoBrowser
                         restaurantUrl "2026-02-26" 4 true false _
                         eq_refl))).
Defined.

Lemma runLiveMode_unclosed_witness :
  (exists captured body e,
      capturePromise (observed engineNullBody restaurantUrl) = Ok captured
      /\ Json.parse (VStr (Live.body captured)) = Ok body
      /\ mutate body "2026-02-26" 4 = Throw e
      /\ snd (runLiveMode Json.parse Json.stringify engineNullBody
                restaurantUrl "2026-02-26" 4 true false) = Raise e)
  \/ (capturePromise (observed engineNullBody restaurantUrl)
      = Throw (Error timeoutMessage)
      /\ gotoSettled engineNullBody restaurantUrl = false
      /\ snd (runLiveMode Json.parse Json.stringify engineNullBody
                restaurantUrl "2026-02-26" 4 true false)
         = Crash (Error timeoutMessage)).
Proof.
  apply (runLiveMode_unclosed Json.parse Json.stringify engineNullBody
           restaurantUrl "2026-02-26" 4 true false).
  - vm_compute. left. reflexivity.
  - vm_compute. reflexivity.
Defined.

(* ================================================================== *)
(** * Properties of the command line *)
(* ================================================================== *)

Lemma indexOfFrom_cases (x : string) (xs : list string) :
  forall i,
    (~ In x xs /\ Cli.indexOfFrom x xs i = -1)
    \/ (exists before rest,
           xs = (before ++ x :: rest)%list
           /\ ~ In x before
           /\ Cli.indexOfFrom x xs i = i + Z.of_nat (length before)).
Proof.
  induction xs as [|y xs IH]; intros i; cbn [Cli.indexOfFrom].
  - left. split; [intros [] | reflexivity].
  - destruct (y =? x)%string eqn:E.
    + apply String.eqb_eq in E. subst y. right. exists [], xs.
      repeat split; [intros [] | cbn; lia].
    + apply String.eqb_neq in E.
      destruct (IH (i + 1)) as [[Hn ->] | (before & rest & -> & Hn & ->)].
      * left. split; [|reflexivity]. intros [H | H]; auto.
      * right. exists (y :: before), rest.
        repeat split; [intros [H | H]; auto | cbn [length]; lia].
Qed.

Lemma at_index_after (before : list string) (x : string)
  (rest : list string) :
  Cli.at_index (before ++ x :: rest)%list (Z.of_nat (length before) + 1)
  = hd_error rest.
Proof.
  unfold Cli.at_index.
  destruct (Z.ltb_spec (Z.of_nat (length before) + 1) 0) as [H | _]; [lia|].
  replace (Z.to_nat (Z.of_nat (length before) + 1)) with (S (length before))
    by lia.
  rewrite nth_error_app2 by lia.
  replace (S (length before) - length before)%nat with 1%nat by lia.
  now destruct rest.
Qed.

(** The index and the value of a flag: absent, or at its first occurrence
    with the argument that follows it. *)
Lemma flagValue_cases (flag : string) (args : list string) :
  (~ In flag args /\ Cli.indexOf flag args = -1
   /\ Cli.flagValue flag args = None)
  \/ (exists before rest,
         args = (before ++ flag :: rest)%list
         /\ ~ In flag before
         /\ Cli.indexOf flag args = Z.of_nat (length before)
         /\ Cli.flagValue flag args = hd_error rest).
Proof.
  unfold Cli.flagValue, Cli.indexOf.
  destruct (indexOfFrom_cases flag args 0)
    as [[Hn E] | (before & rest & -> & Hn & E)]; rewrite E.
  - left. repeat split; assumption.
  - right. exists before, rest. repeat split; try assumption.
    unfold Cli.argAfter.
    destruct (Z.geb_spec (0 + Z.of_nat (length before)) 0) as [_ | H]; [|lia].
    apply at_index_after.
Qed.

Lemma first_occurrence_unique (x : string)
  (before1 rest1 before2 rest2 : list string) :
  (before1 ++ x :: rest1 = before2 ++ x :: rest2)%list ->
  ~ In x before1 -> ~ In x before2 ->
  before1 = before2 /\ rest1 = rest2.
Proof.
  revert before2.
  induction before1 as [|a before1 IH]; intros [|b before2] E H1 H2;
    cbn in E; inversion E; subst.
  - now split.
  - destruct H2. now left.
  - destruct H1. now left.
  - destruct (IH before2) as [-> ->]; auto.
    + intros H; apply H1; now right.
    + intros H; apply H2; now right.
Qed.

(** X23. HAR mode is chosen exactly when the first [--har] is followed by a
    non-empty argument, which is taken as the path whatever it looks like;
    the other arguments change neither the mode nor the path, and the run is
    then headless. The options of HAR mode therefore always carry a
    non-empty path. *)
Theorem parseArgs_har_mode :
  forall (parseInt : string -> num) (args : list string),
    (forall before p rest,
        args = (before ++ "--har" :: p :: rest)%list ->
        ~ In "--har" before -> p <> "" ->
        exists opts,
          Cli.parseArgs parseInt args = ([], Done opts)
          /\ Cli.mode opts = Cli.HarMode
          /\ Cli.harPath opts = Some p
          /\ Cli.headless opts = true
          /\ Cli.url opts = None)
    /\ (forall opts,
           snd (Cli.parseArgs parseInt args) = Done opts ->
           Cli.mode opts = Cli.HarMode ->
           exists before p rest,
             args = (before ++ "--har" :: p :: rest)%list
             /\ ~ In "--har" before /\ p <> ""
             /\ Cli.harPath opts = Some p).
Proof.
  intros parseInt args. unfold Cli.parseArgs.
  destruct (flagValue_cases "--har" args)
    as [(Hn & Ei & Ev) | (before & rest & Eargs & Hn & Ei & Ev)];
    rewrite Ei, Ev.
  - split.
    + intros before p rest -> _ _. destruct Hn. apply in_or_app. right.
      now left.
    + simp_run. cbn [andb Z.geb Z.compare].
      destruct (Z.of_nat _ <? 3); simp_run; [discriminate|].
      intros opts [= <-]. discriminate.
  - split.
    + intros before' p rest' E Hn' Hp. rewrite E in Eargs.
      destruct (first_occurrence_unique _ _ _ _ _ Eargs Hn' Hn) as [_ <-].
      cbn [hd_error].
      destruct (Z.geb_spec (Z.of_nat (length before)) 0) as [_ | H]; [|lia].
      destruct p as [|c p]; [now destruct Hp|]. cbn [Cli.given andb].
      eexists. repeat split.
    + destruct (Z.geb_spec (Z.of_nat (length before)) 0) as [_ | H]; [|lia].
      destruct rest as [|[|c p] rest]; cbn [hd_error Cli.given andb].
      * destruct (Z.of_nat _ <? 3); simp_run; [discriminate|].
        intros opts [= <-]. discriminate.
      * destruct (Z.of_nat _ <? 3); simp_run; [discriminate|].
        intros opts [= <-]. discriminate.
      * simp_run. intros opts [= <-] _.
        exists before, (String c p), rest. repeat split; auto. discriminate.
Qed.

Lemma parseArgs_har_mode_witness :
  exists opts,
    Cli.parseArgs Cli.parseInt10 harCommand = ([], Done opts)
    /\ Cli.mode opts = Cli.HarMode
    /\ Cli.harPath opts = Some "capture.har"
    /\ Cli.headless opts = true
    /\ Cli.url opts = None.
Proof.
  refine (proj1 (parseArgs_har_mode Cli.parseInt10 harCommand)
                [] "capture.har" _ eq_refl _ _).
  - intros [].
  - discriminate.
Defined.

Lemma isPositional_by_value (harPath dateArg partyArg : option string)
  (harIdx dateIdx partyIdx : Z) (a : string) (i : Z) :
  Cli.isPositional harPath dateArg partyArg harIdx dateIdx partyIdx a i
  = negb (prefix "--" a) && Cli.differs a harPath && Cli.differs a dateArg
    && Cli.differs a partyArg.
Proof.
  unfold Cli.isPositional.
  destruct (prefix "--" a) eqn:Hp; [reflexivity|].
  assert (H : forall flag, prefix "--" flag = true ->
                           (a =? flag)%string = false).
  { intros flag Hf. apply String.eqb_neq. intros ->. congruence. }
  rewrite !H by reflexivity. cbn [negb orb].
  now rewrite !andb_true_r.
Qed.

Lemma filterIndexed_by_value (f : string -> Z -> bool) (g : string -> bool)
  (xs : list string) :
  (forall a i, f a i = g a) ->
  forall i, Cli.filterIndexed f xs i = List.filter g xs.
Proof.
  intros Hfg. induction xs as [|a xs IH]; intros i; cbn; [reflexivity|].
  now rewrite Hfg, IH.
Qed.

(** X24. Whether an argument is a positional depends on its text only, not on
    where it stands: the three position tests of the filter (lines 44-46)
    never decide anything, since a flag already fails the test on the [--]
    prefix. So the positionals are the arguments that do not start with [--]
    and differ from the values that follow [--har], [--date] and [--party];
    an argument equal to one of those values is dropped wherever it
    stands. *)
Theorem positionalsOf_by_value :
  forall args : list string,
    Cli.positionalsOf args
    = List.filter
        (fun a => negb (prefix "--" a)
                  && Cli.differs a (Cli.flagValue "--har" args)
                  && Cli.differs a (Cli.flagValue "--date" args)
                  && Cli.differs a (Cli.flagValue "--party" args))
        args
    /\ (forall a flag,
           In a (Cli.positionalsOf args) ->
           In flag ["--har"; "--date"; "--party"] ->
           In a args /\ prefix "--" a = false
           /\ Cli.flagValue flag args <> Some a).
Proof.
  intros args.
  assert (E : Cli.positionalsOf args
              = List.filter
                  (fun a => negb (prefix "--" a)
                            && Cli.differs a (Cli.flagValue "--har" args)
                            && Cli.differs a (Cli.flagValue "--date" args)
                            && Cli.differs a (Cli.flagValue "--party" args))
                  args).
  { unfold Cli.positionalsOf. apply filterIndexed_by_value.
    intros a i. apply isPositional_by_value. }
  split; [exact E|].
  intros a flag Hin Hflag. rewrite E in Hin.
  apply filter_In in Hin as [Hin Hb].
  do 3 (apply andb_true_iff in Hb; destruct Hb as [Hb ?]).
  apply negb_true_iff in Hb.
  assert (D : forall v, Cli.differs a v = true -> v <> Some a).
  { intros v Hd ->. cbn in Hd. now rewrite String.eqb_refl in Hd. }
  repeat split; try assumption.
  destruct Hflag as [<- | [<- | [<- | []]]]; now apply D.
Qed.

Lemma positionalsOf_by_value_witness :
  In "2026-02-26" [restaurantUrl; "2026-02-26"; "4"; "--party"; "4"]
  /\ prefix "--" "2026-02-26" = false
  /\ Cli.flagValue "--party"
                   [restaurantUrl; "2026-02-26"; "4"; "--party"; "4"]
     <> Some "2026-02-26".
Proof.
  refine (proj2 (positionalsOf_by_value
                   [restaurantUrl; "2026-02-26"; "4"; "--party"; "4"])
                "2026-02-26" "--party" _ _).
  - vm_compute. right. left. reflexivity.
  - right. right. left. reflexivity.
Defined.

(** X25. Live mode takes the first three positionals as the address, the date
    and the party size, in this order. The only other way [parseArgs] ends is
    [process.exit(1)] after the two usage lines, which happens when no
    [--har] path is given and there are fewer than three positionals; it
    never throws. *)
Theorem parseArgs_live_mode :
  forall (parseInt : string -> num) (args : list string),
    (forall opts,
        snd (Cli.parseArgs parseInt args) = Done opts ->
        Cli.mode opts = Cli.LiveMode ->
        exists u d p rest,
          Cli.positionalsOf args = u :: d :: p :: rest
          /\ Cli.url opts = Some u
          /\ Cli.date opts = d
          /\ Cli.partySize opts = parseInt p
          /\ Cli.harPath opts = None
          /\ fst (Cli.parseArgs parseInt args) = [])
    /\ (forall code,
           snd (Cli.parseArgs parseInt args) = Exit code ->
           code = 1
           /\ fst (Cli.parseArgs parseInt args)
              = [ConsoleError Cli.usageLive; ConsoleError Cli.usageHar]
           /\ (length (Cli.positionalsOf args) < 3)%nat)
    /\ (forall e, snd (Cli.parseArgs parseInt args) <> Raise e).
Proof.
  intros parseInt args. unfold Cli.parseArgs.
  destruct (_ && _); simp_run.
  - repeat split; try discriminate. intros opts [= <-]. discriminate.
  - destruct (Z.ltb_spec (Z.of_nat (length (Cli.positionalsOf args))) 3)
      as [Hlt | Hge]; simp_run.
    + repeat split; try discriminate; try congruence. lia.
    + repeat split; try discriminate.
      intros opts [= <-] _.
      destruct (Cli.positionalsOf args) as [|u [|d [|p rest]]];
        cbn [length] in Hge; try lia.
      exists u, d, p, rest. repeat split.
Qed.

Lemma parseArgs_live_mode_witness :
  exists u d p rest,
    Cli.positionalsOf liveCommand = u :: d :: p :: rest
    /\ Some restaurantUrl = Some u
    /\ "2026-02-26" = d
    /\ Some 4 = Cli.parseInt10 p
    /\ @None string = None
    /\ fst (Cli.parseArgs Cli.parseInt10 liveCommand) = [].
Proof.
  exact (proj1 (parseArgs_live_mode Cli.parseInt10 liveCommand)
               {| Cli.mode := Cli.LiveMode;
                  Cli.url := Some restaurantUrl;
                  Cli.date := "2026-02-26";
                  Cli.partySize := Some 4;
                  Cli.headless := false;
                  Cli.json := false;
                  Cli.harPath := None |}
               eq_refl eq_refl).
Defined.

Lemma filter_length_impl (g h : string -> bool) (xs : list string) :
  (forall a, g a = true -> h a = true) ->
  (length (List.filter g xs) <= length (List.filter h xs))%nat.
Proof.
  intros Hgh. induction xs as [|a xs IH]; cbn [List.filter]; [lia|].
  destruct (g a) eqn:Hg.
  - rewrite (Hgh _ Hg). cbn [length]. lia.
  - destruct (h a); cbn [length]; lia.
Qed.

(** X26. Fewer than three arguments that do not start with [--], with no
    usable [--har], always end in the usage error, whatever flags are
    given. *)
Theorem parseArgs_usage_error :
  forall (parseInt : string -> num) (args : list string),
    Cli.given (Cli.flagValue "--har" args) = false ->
    (length (List.filter (fun a => negb (prefix "--" a)) args) < 3)%nat ->
    Cli.parseArgs parseInt args
    = ([ConsoleError Cli.usageLive; ConsoleError Cli.usageHar], Exit 1).
Proof.
  intros parseInt args Hhar Hlen. unfold Cli.parseArgs.
  rewrite Hhar, andb_false_r.
  assert (L : (length (Cli.positionalsOf args)
               <= length (List.filter (fun a => negb (prefix "--" a)) args))%nat).
  { unfold Cli.positionalsOf.
    rewrite (filterIndexed_by_value _ _ _ (isPositional_by_value _ _ _ _ _ _)).
    apply filter_length_impl. intros a Ha.
    do 3 (apply andb_true_iff in Ha; destruct Ha as [Ha _]). exact Ha. }
  destruct (Z.ltb_spec (Z.of_nat (length (Cli.positionalsOf args))) 3)
    as [_ | Hge]; [reflexivity | lia].
Qed.

Lemma parseArgs_usage_error_witness :
  Cli.parseArgs Cli.parseInt10
    [restaurantUrl; "2026-02-26"; "--no-headless"; "--json"]
  = ([ConsoleError Cli.usageLive; ConsoleError Cli.usageHar], Exit 1).
Proof.
  apply parseArgs_usage_error.
  - reflexivity.
  - cbn. lia.
Defined.
